(** * Vision-based AI virtual mouse: the gesture state machine

    A shallow embedding of [src/aivirtualmouseproject.py]: the body of the
    frame loop of [main] (pause toggle, cursor move, clicks, swipes and
    scrolls), [safe_move_mouse], and the module-level runtime state.

    Conventions of the embedding.
    - Timestamps and screen coordinates are Python floats; they are modelled
      as rationals [Q] with exact arithmetic.
    - Every call of [time.time()] is a separate reading of the clock; a frame
      carries one reading per call site ([Clock]).
    - The calls into [pyautogui] and [autopy] are recorded as [Event]s, in call
      order.  A backend oracle [bk : Event -> bool] says whether a call
      returns ([true]) or raises ([false]); a raised exception ends the run
      ([Raised]) unless the source catches it.
    - Capture, drawing, the FPS counter ([pTime]) and the video writer do not
      influence the state machine and are left out. *)

From Stdlib Require Import ZArith QArith Qpower List Bool Lia.
From Stdlib Require Import Reals.
From Stdlib Require Lqa Lra.
Import ListNotations.

Local Open Scope Z_scope.

(** ** Configuration constants (lines 30-40 of the source) *)

Module Config.
Definition wCam : Z := 480.
Definition hCam : Z := 360.
Definition frameR : Z := 100.
Definition smoothening : Z := 3.

Definition click_debounce_sec : Q := 0.12.
Definition double_click_threshold : Z := 60.
Definition swipe_threshold_px : Z := 120.
Definition scroll_threshold_px : Z := 80.
Definition cooldown_swipe_sec : Q := 0.7.
Definition rest_toggle_hold_sec : Q := 0.35.

(** Literals that the source writes in place. *)
Definition click_length : Z := 35.
Definition right_click_length : Z := 30.
Definition scroll_debounce_sec : Q := 0.2.
Definition trail_maxlen : nat := 5.
End Config.
Import Config.

(** ** Data *)

(** [detector.fingersUp()]: five 0/1 entries, thumb first.  [fingers[i]==1]
    is the i-th field. *)
Record Fingers : Type := mkFingers {
  thumb : bool; index : bool; middle : bool; ring : bool; pinky : bool
}.

Definition b2z (b : bool) : Z := if b then 1 else 0.

(** [sum(fingers)] *)
Definition sum (f : Fingers) : Z :=
  b2z (thumb f) + b2z (index f) + b2z (middle f) + b2z (ring f) + b2z (pinky f).

(** [fingers == [0,0,0,0,0]] *)
Definition is_fist (f : Fingers) : bool :=
  negb (thumb f) && negb (index f) && negb (middle f) && negb (ring f)
  && negb (pinky f).

(** [fingers == [1,1,1,1,1]] *)
Definition is_palm (f : Fingers) : bool :=
  thumb f && index f && middle f && ring f && pinky f.

Definition Point : Type := (Z * Z)%type.

(** What the detector reports for a frame with a hand: landmarks 4, 8 and 12
    (thumb, index and middle tips, in whole frame pixels) and the finger
    vector. *)
Record Hand : Type := mkHand {
  lm4 : Point; lm8 : Point; lm12 : Point; fingers : Fingers
}.

(** The readings of [time.time()] during one frame, one per call site:
    lines 111/112 (only one of the two runs), 136, 149, 156 and 160. *)
Record Clock : Type := mkClock {
  t_rest : Q; t_click : Q; t_rclick : Q; t_trail : Q; t_now : Q
}.

(** A frame whose clock readings all coincide. *)
Definition at_time (t : Q) : Clock := mkClock t t t t t.

(** One iteration of the loop: [hand = None] is [len(lmList) == 0]. *)
Record Frame : Type := mkFrame { hand : option Hand; clock : Clock }.

(** The calls to the OS input backend, and the pause flip. *)
Inductive Event : Type :=
| Move (x y : Q)      (* autopy.mouse.move(x, y) *)
| LeftClick           (* pyautogui.click() *)
| DoubleClick         (* pyautogui.doubleClick() *)
| RightClick          (* pyautogui.click(button="right") *)
| SwipeLeft           (* pyautogui.hotkey("ctrl","a") *)
| SwipeRight          (* pyautogui.hotkey("ctrl","c") *)
| ScrollUp            (* pyautogui.scroll(60) *)
| ScrollDown          (* pyautogui.scroll(-60) *)
| PauseToggle.        (* paused = not paused *)

Definition Sample : Type := (Z * Z * Q)%type.

(** Line 156: the sample [(x1, y1, time.time())] that a frame appends to the
    trail, with [x1, y1 = lmList[8][1:]]. *)
Definition sample_of (h : Hand) (c : Clock) : Sample :=
  (fst (lm8 h), snd (lm8 h), t_trail c).

(** The module-level runtime state (lines 43-47). *)
Record State : Type := mkState {
  plocX : Q; plocY : Q; clocX : Q; clocY : Q;
  last_click_time : Q; last_action_time : Q;
  rest_since : option Q; paused : bool;
  trail : list Sample
}.

Definition initial : State :=
  mkState 0 0 0 0 0 0 None false [].

Definition set_rest_since (r : option Q) (s : State) : State :=
  mkState (plocX s) (plocY s) (clocX s) (clocY s) (last_click_time s)
          (last_action_time s) r (paused s) (trail s).

Definition set_paused (b : bool) (s : State) : State :=
  mkState (plocX s) (plocY s) (clocX s) (clocY s) (last_click_time s)
          (last_action_time s) (rest_since s) b (trail s).

Definition set_cloc (x y : Q) (s : State) : State :=
  mkState (plocX s) (plocY s) x y (last_click_time s) (last_action_time s)
          (rest_since s) (paused s) (trail s).

Definition set_ploc (x y : Q) (s : State) : State :=
  mkState x y (clocX s) (clocY s) (last_click_time s) (last_action_time s)
          (rest_since s) (paused s) (trail s).

Definition set_last_click_time (t : Q) (s : State) : State :=
  mkState (plocX s) (plocY s) (clocX s) (clocY s) t (last_action_time s)
          (rest_since s) (paused s) (trail s).

Definition set_last_action_time (t : Q) (s : State) : State :=
  mkState (plocX s) (plocY s) (clocX s) (clocY s) (last_click_time s) t
          (rest_since s) (paused s) (trail s).

Definition set_trail (tr : list Sample) (s : State) : State :=
  mkState (plocX s) (plocY s) (clocX s) (clocY s) (last_click_time s)
          (last_action_time s) (rest_since s) (paused s) tr.

(** ** Comparisons on floats *)

(** [a < b] *)
Definition Qltb (a b : Q) : bool := negb (Qle_bool b a).

(** [(now - last) > interval], the debounce test of lines 137, 141, 150, 163
    and 174. *)
Definition elapsed (now last interval : Q) : bool :=
  Qltb interval (now - last).

(** [(time.time() - rest_since) >= rest_toggle_hold_sec], line 112. *)
Definition held (now since : Q) : bool :=
  Qle_bool rest_toggle_hold_sec (now - since).

(** ** The trail buffer: [deque(maxlen=5)], oldest sample first *)

Module Trail.
(** [trail.append(x)]: a full deque drops its leftmost entry. *)
Definition append (x : Sample) (tr : list Sample) : list Sample :=
  if (trail_maxlen <=? length tr)%nat then tl tr ++ [x] else tr ++ [x].

Definition xy (p : Sample) : Z * Z := fst p.

(** Lines 157-159: [dx = trail[-1][0] - trail[0][0]] and likewise [dy],
    under [len(trail) >= 2]. *)
Definition displacement (tr : list Sample) : option (Z * Z) :=
  if (2 <=? length tr)%nat then
    match hd_error tr, hd_error (rev tr) with
    | Some o, Some n =>
        Some (fst (xy n) - fst (xy o), snd (xy n) - snd (xy o))
    | _, _ => None
    end
  else None.

(** A sequence of appends to the empty deque. *)
Definition pushes (xs : list Sample) : list Sample :=
  fold_left (fun tr x => append x tr) xs [].
End Trail.

(** ** Distances between landmarks *)

Definition dist_sq (p q : Point) : Z :=
  (fst q - fst p) * (fst q - fst p) + (snd q - snd p) * (snd q - snd p).

(** Modelled from the spec: [detector.findDistance] belongs to
    HandTrackingModule, which is not among the sources; the spec gives its
    first result as the distance between the two landmark points. *)
Definition findDistance (p q : Point) : R := sqrt (IZR (dist_sq p q)).

(** [findDistance p q < c] and [findDistance p q > c] for an integer bound
    [c >= 0], decided on the squares (see [length_lt_spec]). *)
Definition length_lt (p q : Point) (c : Z) : bool := dist_sq p q <? c * c.
Definition length_gt (p q : Point) (c : Z) : bool := c * c <? dist_sq p q.

(** ** Pointer mapping

    The source computes these values in float64; the definitions give the
    exact value that the float operations round.  Rounding is monotone, so
    the theorems about the pointer are stated in terms of order only:
    bounds, lying between two values, and monotonicity. *)

Module Pointer.
Local Open Scope Q_scope.

(** [np.interp(x, (x0, x1), (f0, f1))] with [x0 < x1]: linear between the
    two points, constant outside. *)
Definition interp (x x0 x1 f0 f1 : Q) : Q :=
  if Qle_bool x x0 then f0
  else if Qle_bool x1 x then f1
  else f0 + (x - x0) * ((f1 - f0) / (x1 - x0)).

(** Python's two-argument [max] and [min]. *)
Definition max (a b : Q) : Q := if Qltb a b then b else a.
Definition min (a b : Q) : Q := if Qltb b a then b else a.

(** Lines 58-59. *)
Definition clamp (x bound : Q) : Q := max 0 (min (bound - 1) x).

(** Lines 127-128. *)
Definition smooth (ploc target : Q) : Q :=
  ploc + (target - ploc) / inject_Z smoothening.
End Pointer.

(** ** Runs of the frame loop *)

Definition World : Type := (State * list Event)%type.

(** [Ok]: control reached the end; [Raised]: an exception left the loop. *)
Inductive Run : Type :=
| Ok (w : World)
| Raised (w : World).

Definition world (r : Run) : World :=
  match r with Ok w => w | Raised w => w end.
Definition state_of (r : Run) : State := fst (world r).
Definition events (r : Run) : list Event := snd (world r).
Definition raised (r : Run) : bool :=
  match r with Ok _ => false | Raised _ => true end.

Definition andThen (r : Run) (k : World -> Run) : Run :=
  match r with Ok w => k w | Raised w => Raised w end.

Notation "r >>= k" := (andThen r k) (at level 58, left associativity).

(** The events [evs] of earlier frames, put before those of a later run. *)
Definition prepend (evs : list Event) (r : Run) : Run :=
  match r with
  | Ok (s, evs') => Ok (s, evs ++ evs')
  | Raised (s, evs') => Raised (s, evs ++ evs')
  end.

Section Loop.
(** [autopy.screen.size()] *)
Variables wScr hScr : Q.
(** Whether a call into the backend returns. *)
Variable bk : Event -> bool.

(** A backend call that is not guarded: when it raises, the statements
    after it ([after]) do not run. *)
Definition call (e : Event) (after : State -> State) (w : World) : Run :=
  if bk e then Ok (after (fst w), snd w ++ [e])
  else Raised (fst w, snd w ++ [e]).

(** [safe_move_mouse] (lines 57-63): the call sits in [try]/[except], so
    a failure is logged and control continues. *)
Definition safe_move_mouse (x y : Q) (w : World) : Run :=
  let x' := Pointer.clamp x wScr in
  let y' := Pointer.clamp y hScr in
  let w' := (fst w, snd w ++ [Move x' y']) in
  if bk (Move x' y') then Ok w'
  else (* except Exception: logging.debug(...) *) Ok w'.

(** Lines 110-117. *)
Definition pause_toggle (h : Hand) (c : Clock) (s : State) : World :=
  if is_fist (fingers h) then
    match rest_since s with
    | None => (set_rest_since (Some (t_rest c)) s, [])
    | Some since =>
        if held (t_rest c) since
        then (set_rest_since None (set_paused (negb (paused s)) s),
              [PauseToggle])
        else (s, [])
    end
  else (set_rest_since None s, []).

(** Lines 124-131. *)
Definition cursor_move (h : Hand) (w : World) : Run :=
  if index (fingers h) && (sum (fingers h) =? 1) then
    let s := fst w in
    let x3 := Pointer.interp (inject_Z (fst (lm8 h))) (inject_Z frameR)
                (inject_Z (wCam - frameR)) 0 wScr in
    let y3 := Pointer.interp (inject_Z (snd (lm8 h))) (inject_Z frameR)
                (inject_Z (hCam - frameR)) 0 hScr in
    let s1 := set_cloc (Pointer.smooth (plocX s) x3)
                       (Pointer.smooth (plocY s) y3) s in
    safe_move_mouse (wScr - clocX s1) (clocY s1) (s1, snd w) >>= fun w' =>
    Ok (set_ploc (clocX (fst w')) (clocY (fst w')) (fst w'), snd w')
  else Ok w.

(** Lines 134-144. *)
Definition left_click (h : Hand) (c : Clock) (w : World) : Run :=
  if index (fingers h) && middle (fingers h) then
    let now := t_click c in
    if length_lt (lm8 h) (lm12 h) click_length
       && elapsed now (last_click_time (fst w)) click_debounce_sec
    then call LeftClick (set_last_click_time now) w
    else if length_gt (lm8 h) (lm12 h) double_click_threshold
            && elapsed now (last_click_time (fst w)) click_debounce_sec
    then call DoubleClick (set_last_click_time now) w
    else Ok w
  else Ok w.

(** Lines 147-153. *)
Definition right_click (h : Hand) (c : Clock) (w : World) : Run :=
  if thumb (fingers h) && index (fingers h) then
    let now := t_rclick c in
    if length_lt (lm4 h) (lm8 h) right_click_length
       && elapsed now (last_click_time (fst w)) click_debounce_sec
    then call RightClick (set_last_click_time now) w
    else Ok w
  else Ok w.

(** Lines 163-171. *)
Definition swipe (h : Hand) (now : Q) (dx dy : Z) (w : World) : Run :=
  if is_palm (fingers h)
     && elapsed now (last_action_time (fst w)) cooldown_swipe_sec
  then
    if (dx <=? - swipe_threshold_px)
       && Qltb (inject_Z (Z.abs dy)) (inject_Z swipe_threshold_px / 2)
    then call SwipeLeft (set_last_action_time now) w
    else if (swipe_threshold_px <=? dx)
            && Qltb (inject_Z (Z.abs dy)) (inject_Z swipe_threshold_px / 2)
    then call SwipeRight (set_last_action_time now) w
    else Ok w
  else Ok w.

(** Lines 174-182. *)
Definition scroll (h : Hand) (now : Q) (dy : Z) (w : World) : Run :=
  if (is_palm (fingers h)
      || (index (fingers h) && (sum (fingers h) <=? 2)))
     && elapsed now (last_action_time (fst w)) scroll_debounce_sec
  then
    if dy <=? - scroll_threshold_px
    then call ScrollUp (set_last_action_time now) w
    else if scroll_threshold_px <=? dy
    then call ScrollDown (set_last_action_time now) w
    else Ok w
  else Ok w.

(** Lines 156-182. *)
Definition dynamic_gestures (h : Hand) (c : Clock) (w : World) : Run :=
  let tr := Trail.append (sample_of h c) (trail (fst w)) in
  let w1 := (set_trail tr (fst w), snd w) in
  match Trail.displacement tr with
  | Some (dx, dy) =>
      swipe h (t_now c) dx dy w1 >>= scroll h (t_now c) dy
  | None => Ok w1
  end.

(** Lines 122-182: the body of [if not paused]. *)
Definition gestures (h : Hand) (c : Clock) (w : World) : Run :=
  cursor_move h w >>= left_click h c >>= right_click h c
  >>= dynamic_gestures h c.

(** One iteration of the loop (lines 103-182). *)
Definition process_frame (f : Frame) (s : State) : Run :=
  match hand f with
  | None => Ok (s, [])
  | Some h =>
      let w := pause_toggle h (clock f) s in
      if paused (fst w) then Ok w else gestures h (clock f) w
  end.

(** The loop over the frames that the source delivers; the events of the
    frames are collected in order. *)
Fixpoint main_loop (fs : list Frame) (s : State) : Run :=
  match fs with
  | [] => Ok (s, [])
  | f :: fs' =>
      match process_frame f s with
      | Ok (s', evs) => prepend evs (main_loop fs' s')
      | Raised w => Raised w
      end
  end.
End Loop.

(** ** Observations on event lists *)

Definition is_toggle (e : Event) : bool :=
  match e with PauseToggle => true | _ => false end.

Definition is_click (e : Event) : bool :=
  match e with LeftClick | DoubleClick | RightClick => true | _ => false end.

Definition is_swipe (e : Event) : bool :=
  match e with SwipeLeft | SwipeRight => true | _ => false end.

Definition is_scroll (e : Event) : bool :=
  match e with ScrollUp | ScrollDown => true | _ => false end.

Definition count (p : Event -> bool) (evs : list Event) : nat :=
  length (filter p evs).

(** A backend whose calls all return. *)
Definition backend_ok : Event -> bool := fun _ => true.

(** The frame of a hand at one instant. *)
Definition frame_at (t : Q) (h : Hand) : Frame := mkFrame (Some h) (at_time t).
Definition no_hand (t : Q) : Frame := mkFrame None (at_time t).

(** ** Predicates used in the statements *)

(** [emits P B]: block [B] only appends events, and those satisfy [P]. *)
Definition emits (P : Event -> Prop) (B : World -> Run) : Prop :=
  forall w, exists es, events (B w) = snd w ++ es /\ Forall P es.

(** The events of the body of [if not paused]: never a [PauseToggle], and
    every [Move] carries clamped coordinates. *)
Definition gesture_event (wScr hScr : Q) (e : Event) : Prop :=
  (exists x y, e = Move (Pointer.clamp x wScr) (Pointer.clamp y hScr))
  \/ is_click e = true \/ is_swipe e = true \/ is_scroll e = true.

(** [keeps proj B]: block [B] leaves the component [proj] of the state as it
    found it, also when it raises. *)
Definition keeps {A : Type} (proj : State -> A) (B : World -> Run) : Prop :=
  forall w, proj (state_of (B w)) = proj (fst w).

(** The state that the loop reaches from [initial] on the frames [fs], on a
    1920x1080 screen with a backend that never fails. *)
Definition after_frames (fs : list Frame) : State :=
  state_of (main_loop 1920 1080 backend_ok fs initial).

(** A backend that refuses the calls selected by [p] and serves the rest. *)
Definition refuses (p : Event -> bool) : Event -> bool := fun e => negb (p e).

Definition is_move (e : Event) : bool :=
  match e with Move _ _ => true | _ => false end.

(** A frame that shows a fist. *)
Definition fist_frame (f : Frame) : bool :=
  match hand f with
  | Some h => is_fist (fingers h)
  | None => false
  end.

(** A fist frame at which a hold that began at [t0] is still short of the
    threshold. *)
Definition waits_from (t0 : Q) (f : Frame) : Prop :=
  fist_frame f = true
  /\ (t_rest (clock f) - t0 < rest_toggle_hold_sec)%Q.

(** Debounce windows.  For a category [cat] of events whose timer is the
    component [timer] of the state, and a window that opens at [lo]:
    [within b w] says that the events of [w] hold at most [b] of the
    category, and that once they hold [b] the timer lies in the window. *)
Section Window.
Variable cat : Event -> bool.
Variable timer : State -> Q.
Variable lo : Q.

Definition within (b : nat) (w : World) : Prop :=
  (count cat (snd w) <= b)%nat
  /\ (count cat (snd w) = b -> (lo <= timer (fst w))%Q).

Definition within_run (b : nat) (r : Run) : Prop :=
  match r with
  | Ok w => within b w
  | Raised w => (count cat (snd w) <= b)%nat
  end.
End Window.

(** All click-site readings of a frame lie in [[t0, t0 + 0.12]]. *)
Definition click_window (t0 : Q) (f : Frame) : Prop :=
  ((t0 <= t_click (clock f))%Q
   /\ (t_click (clock f) <= t0 + click_debounce_sec)%Q)
  /\ ((t0 <= t_rclick (clock f))%Q
      /\ (t_rclick (clock f) <= t0 + click_debounce_sec)%Q).

(** The reading used by the swipe and scroll tests of a frame lies in
    [[t0, t0 + iv]]. *)
Definition motion_window (t0 iv : Q) (f : Frame) : Prop :=
  (t0 <= t_now (clock f))%Q /\ (t_now (clock f) <= t0 + iv)%Q.

(** Hands and frames used as concrete inputs. *)
Definition fist_hand : Hand :=
  mkHand (0, 0) (0, 0) (0, 0) (mkFingers false false false false false).

(** Index and middle up, tips at (200,200) and (210,205). *)
Definition click_hand : Hand :=
  mkHand (0, 0) (200, 200) (210, 205) (mkFingers false true true false false).

(** Index and middle up, tips 50 pixels apart. *)
Definition dead_zone_hand : Hand :=
  mkHand (0, 0) (200, 200) (250, 200) (mkFingers false true true false false).

(** Index and middle up, tips 80 pixels apart. *)
Definition spread_hand : Hand :=
  mkHand (0, 0) (200, 200) (280, 200) (mkFingers false true true false false).

(** Thumb and index up, their tips close together. *)
Definition pinch_hand : Hand :=
  mkHand (200, 200) (210, 205) (0, 0) (mkFingers true true false false false).

(** Only the index up, its tip at [p]. *)
Definition index_hand (p : Point) : Hand :=
  mkHand (0, 0) p (0, 0) (mkFingers false true false false false).

(** Only the index up, its tip outside the active rectangle. *)
Definition point_hand : Hand :=
  mkHand (0, 0) (20, 500) (0, 0) (mkFingers false true false false false).

(** Open palm with the index tip at [p]; the other tips are far away. *)
Definition palm_hand (p : Point) : Hand :=
  mkHand (fst p - 100, snd p) p (fst p + 40, snd p)
         (mkFingers true true true true true).

(** ** Around the frame body: reading, the quit key, the FPS counter *)

(** Line 194: [cv2.waitKey(1) & 0xFF in [27, ord("q")]]. *)
Definition quit_key (k : Z) : bool :=
  let b := Z.land k 255 in (b =? 27) || (b =? 113).

(** One turn of [while True] (lines 91-194): [cap.read()] fails, or it
    delivers a frame after whose processing [cv2.waitKey(1)] returns
    [key]. *)
Inductive Read : Type :=
| EndOfStream
| Grabbed (f : Frame) (key : Z).

(** The loop of [main] with its two [break]s: a failed read ends it before
    the frame body, a quit key ends it after the frame body. *)
Fixpoint session (wScr hScr : Q) (bk : Event -> bool) (rs : list Read)
         (s : State) : Run :=
  match rs with
  | [] => Ok (s, [])
  | EndOfStream :: _ => Ok (s, [])
  | Grabbed f key :: rs' =>
      match process_frame wScr hScr bk f s with
      | Ok (s', evs) =>
          if quit_key key then Ok (s', evs)
          else prepend evs (session wScr hScr bk rs' s')
      | Raised w => Raised w
      end
  end.

(** The frames of [rs] whose body runs: those before the first failed read,
    up to and including the first one that ends with a quit key. *)
Fixpoint processed (rs : list Read) : list Frame :=
  match rs with
  | [] => []
  | EndOfStream :: _ => []
  | Grabbed f key :: rs' =>
      if quit_key key then [f] else f :: processed rs'
  end.

(** Line 186: [1/(cTime-pTime) if (cTime-pTime)>0 else 0]. *)
Definition fps (cTime pTime : Q) : Q :=
  if Qltb 0 (cTime - pTime) then (1 / (cTime - pTime))%Q else 0%Q.

(** Python's [int] on a float: truncation towards zero. *)
Definition py_int (q : Q) : Z := Z.quot (Qnum q) (Zpos (Qden q)).

(** Line 188: the number shown after ["FPS:"]. *)
Definition shown_fps (cTime pTime : Q) : Z := py_int (fps cTime pTime).

(** ** Further predicates used in the statements *)

(** Lines 125 and 126: the unsmoothed screen point of an index tip. *)
Definition target_x (wScr : Q) (h : Hand) : Q :=
  Pointer.interp (inject_Z (fst (lm8 h))) (inject_Z frameR)
                 (inject_Z (wCam - frameR)) 0 wScr.

Definition target_y (hScr : Q) (h : Hand) : Q :=
  Pointer.interp (inject_Z (snd (lm8 h))) (inject_Z frameR)
                 (inject_Z (hCam - frameR)) 0 hScr.

(** [fingers[1]==1 and sum(fingers)==1] *)
Definition index_only (f : Fingers) : bool := index f && (sum f =? 1).

(** [fingers==[1,1,1,1,1] or (fingers[1]==1 and sum(fingers)<=2)] *)
Definition scroll_pose (f : Fingers) : bool :=
  is_palm f || (index f && (sum f <=? 2)).

(** Every call other than the guarded mouse move returns. *)
Definition serves (bk : Event -> bool) : Prop :=
  forall e, is_move e = false -> bk e = true.

(** The pointer state lies on the screen, and [cloc] and [ploc] agree, as
    they do between two frames. *)
Definition pointer_on_screen (wScr hScr : Q) (s : State) : Prop :=
  ((0 <= plocX s)%Q /\ (plocX s <= wScr)%Q)
  /\ ((0 <= plocY s)%Q /\ (plocY s <= hScr)%Q)
  /\ clocX s = plocX s /\ clocY s = plocY s.

(** [steps iv proj B]: block [B] leaves the timer [proj] alone or moves it
    forward by more than [iv]. *)
Definition moved_on (iv a b : Q) : Prop := a = b \/ (a + iv < b)%Q.

Definition steps (iv : Q) (proj : State -> Q) (B : World -> Run) : Prop :=
  forall w, moved_on iv (proj (fst w)) (proj (state_of (B w))).

(** [one P B]: block [B] appends at most one event, and it satisfies [P]. *)
Definition one (P : Event -> Prop) (B : World -> Run) : Prop :=
  forall w, exists es, events (B w) = snd w ++ es
                       /\ (length es <= 1)%nat /\ Forall P es.

(** The samples of the frames that show a hand. *)
Fixpoint samples_of (fs : list Frame) : list Sample :=
  match fs with
  | [] => []
  | f :: fs' =>
      match hand f with
      | Some h => sample_of h (clock f) :: samples_of fs'
      | None => samples_of fs'
      end
  end.

(** No frame of the run shows a fist. *)
Definition open_frame (f : Frame) : Prop := fist_frame f = false.

(** All readings of the pause clock lie in [[t0, t0 + 0.35)]. *)
Definition hold_window (t0 : Q) (f : Frame) : Prop :=
  (t0 <= t_rest (clock f))%Q
  /\ (t_rest (clock f) < t0 + rest_toggle_hold_sec)%Q.

(** The finger pose under which the source issues each event. *)
Definition pose_of (f : Fingers) (e : Event) : bool :=
  match e with
  | Move _ _ => index_only f
  | LeftClick | DoubleClick => index f && middle f
  | RightClick => thumb f && index f
  | SwipeLeft | SwipeRight => is_palm f
  | ScrollUp | ScrollDown => scroll_pose f
  | PauseToggle => is_fist f
  end.

(** [between a b c]: [c] lies between [a] and [b], whichever is larger. *)
Definition between (a b c : Q) : Prop :=
  ((a <= c)%Q /\ (c <= b)%Q) \/ ((b <= c)%Q /\ (c <= a)%Q).

(** * Properties *)

(** ** Comparisons *)

Lemma Qltb_true (a b : Q) : Qltb a b = true <-> (a < b)%Q.
Proof.
  unfold Qltb. rewrite negb_true_iff, <- not_true_iff_false, Qle_bool_iff.
  split; intro H.
  - now apply Qnot_le_lt.
  - now apply Qlt_not_le.
Qed.

Lemma Qltb_false (a b : Q) : Qltb a b = false <-> (b <= a)%Q.
Proof.
  unfold Qltb. rewrite negb_false_iff. apply Qle_bool_iff.
Qed.

Lemma elapsed_true (now last iv : Q) :
  elapsed now last iv = true <-> (iv < now - last)%Q.
Proof. apply Qltb_true. Qed.

Lemma elapsed_false (now last iv : Q) :
  elapsed now last iv = false <-> (now - last <= iv)%Q.
Proof. apply Qltb_false. Qed.

Lemma held_true (now since : Q) :
  held now since = true <-> (rest_toggle_hold_sec <= now - since)%Q.
Proof. apply Qle_bool_iff. Qed.

Lemma held_false (now since : Q) :
  held now since = false <-> (now - since < rest_toggle_hold_sec)%Q.
Proof.
  unfold held. rewrite <- not_true_iff_false, Qle_bool_iff. split; intro H.
  - now apply Qnot_le_lt.
  - now apply Qlt_not_le.
Qed.

(** The test of line 164 and 168 on [abs(dy)] is a test on integers. *)
Lemma half_threshold (dy : Z) :
  Qltb (inject_Z (Z.abs dy)) (inject_Z swipe_threshold_px / 2)
  = (Z.abs dy <? 60).
Proof.
  destruct (Z.ltb_spec (Z.abs dy) 60) as [H | H].
  - apply Qltb_true. unfold Qlt, Qdiv; cbn. lia.
  - apply Qltb_false. unfold Qle, Qdiv; cbn. lia.
Qed.

(** ** Distances: the tests on squares are the tests on [findDistance] *)

Lemma dist_sq_nonneg (p q : Point) : 0 <= dist_sq p q.
Proof. unfold dist_sq. apply Z.add_nonneg_nonneg; apply Z.square_nonneg. Qed.

Lemma sqrt_IZR_square (c : Z) : 0 <= c -> sqrt (IZR (c * c)) = IZR c.
Proof.
  intro Hc. rewrite mult_IZR. apply sqrt_square. now apply IZR_le.
Qed.

Lemma length_lt_spec (p q : Point) (c : Z) :
  0 <= c -> length_lt p q c = true <-> (findDistance p q < IZR c)%R.
Proof.
  intro Hc. unfold length_lt, findDistance. rewrite Z.ltb_lt.
  rewrite <- (sqrt_IZR_square c Hc). split; intro H.
  - apply sqrt_lt_1_alt. split.
    + apply IZR_le, dist_sq_nonneg.
    + now apply IZR_lt.
  - apply lt_IZR. now apply sqrt_lt_0_alt.
Qed.

Lemma length_gt_spec (p q : Point) (c : Z) :
  0 <= c -> length_gt p q c = true <-> (IZR c < findDistance p q)%R.
Proof.
  intro Hc. unfold length_gt, findDistance. rewrite Z.ltb_lt.
  rewrite <- (sqrt_IZR_square c Hc). split; intro H.
  - apply sqrt_lt_1_alt. split.
    + apply IZR_le. now apply Z.mul_nonneg_nonneg.
    + now apply IZR_lt.
  - apply lt_IZR. now apply sqrt_lt_0_alt.
Qed.

Lemma length_lt_false (p q : Point) (c : Z) :
  0 <= c -> length_lt p q c = false <-> (IZR c <= findDistance p q)%R.
Proof.
  intro Hc. rewrite <- not_true_iff_false, length_lt_spec by assumption.
  split; intro H; [now apply Rnot_lt_le | now apply Rle_not_lt].
Qed.

Lemma length_gt_false (p q : Point) (c : Z) :
  0 <= c -> length_gt p q c = false <-> (findDistance p q <= IZR c)%R.
Proof.
  intro Hc. rewrite <- not_true_iff_false, length_gt_spec by assumption.
  split; intro H; [now apply Rnot_lt_le | now apply Rle_not_lt].
Qed.

(** ** What a block of the loop body may emit *)

Section Emits.
Variables wScr hScr : Q.
Variable bk : Event -> bool.

Lemma emits_weaken (P P' : Event -> Prop) (B : World -> Run) :
  (forall e, P e -> P' e) -> emits P B -> emits P' B.
Proof.
  intros HPP' HB w. destruct (HB w) as (es & Hes & HP).
  exists es. split; [assumption|]. eapply Forall_impl; eauto.
Qed.

Lemma emits_andThen (P : Event -> Prop) (B1 B2 : World -> Run) :
  emits P B1 -> emits P B2 -> emits P (fun w => B1 w >>= B2).
Proof.
  intros H1 H2 w. destruct (H1 w) as (es1 & Hes1 & HP1).
  destruct (B1 w) as [w1 | w1] eqn:HB1; cbn in *.
  - destruct (H2 w1) as (es2 & Hes2 & HP2).
    exists (es1 ++ es2). split.
    + rewrite Hes2. unfold events in Hes1. cbn in Hes1.
      rewrite Hes1. now rewrite app_assoc.
    + apply Forall_app. now split.
  - exists es1. now split.
Qed.

Lemma emits_nothing (P : Event -> Prop) (w : World) :
  exists es, events (Ok w) = snd w ++ es /\ Forall P es.
Proof. exists []. split; [now rewrite app_nil_r | constructor]. Qed.

Lemma emits_call (P : Event -> Prop) (e : Event) (k : State -> State)
      (w : World) :
  P e -> exists es, events (call bk e k w) = snd w ++ es /\ Forall P es.
Proof.
  intro He. exists [e]. split; [|now repeat constructor].
  unfold call. now destruct (bk e).
Qed.

Lemma events_call (e : Event) (k : State -> State) (w : World) :
  events (call bk e k w) = snd w ++ [e].
Proof. unfold call. now destruct (bk e). Qed.

Ltac emits_cases :=
  repeat match goal with
         | |- context [if ?c then _ else _] => destruct c
         end;
  first [ apply emits_nothing | apply emits_call; cbn; auto ].

Lemma left_click_emits (h : Hand) (c : Clock) :
  emits (fun e => e = LeftClick \/ e = DoubleClick) (left_click bk h c).
Proof. intro w. unfold left_click. emits_cases. Qed.

Lemma right_click_emits (h : Hand) (c : Clock) :
  emits (fun e => e = RightClick) (right_click bk h c).
Proof. intro w. unfold right_click. emits_cases. Qed.

Lemma swipe_emits (h : Hand) (now : Q) (dx dy : Z) :
  emits (fun e => is_swipe e = true) (swipe bk h now dx dy).
Proof. intro w. unfold swipe. emits_cases. Qed.

Lemma scroll_emits (h : Hand) (now : Q) (dy : Z) :
  emits (fun e => is_scroll e = true) (scroll bk h now dy).
Proof. intro w. unfold scroll. emits_cases. Qed.

Lemma dynamic_gestures_emits (h : Hand) (c : Clock) :
  emits (fun e => is_swipe e = true \/ is_scroll e = true)
        (dynamic_gestures bk h c).
Proof.
  intro w. unfold dynamic_gestures.
  destruct (Trail.displacement _) as [[dx dy] |].
  - set (w1 := (set_trail _ _, snd w)).
    change (snd w) with (snd w1).
    apply (emits_andThen _ (swipe bk h (t_now c) dx dy)
                         (scroll bk h (t_now c) dy)).
    + eapply emits_weaken; [|apply swipe_emits]. cbn; auto.
    + eapply emits_weaken; [|apply scroll_emits]. cbn; auto.
  - apply (emits_nothing _ (_, snd w)).
Qed.

Lemma cursor_move_emits (h : Hand) :
  emits (fun e => exists x y,
             e = Move (Pointer.clamp x wScr) (Pointer.clamp y hScr))
        (cursor_move wScr hScr bk h).
Proof.
  intro w. unfold cursor_move.
  destruct (index (fingers h) && (sum (fingers h) =? 1)).
  - unfold safe_move_mouse. cbn.
    match goal with
    | |- context [if ?c then _ else _] => destruct c
    end; cbn; eexists; (split; [reflexivity|]); repeat constructor; eauto.
  - apply emits_nothing.
Qed.

Lemma gestures_emits (h : Hand) (c : Clock) :
  emits (gesture_event wScr hScr) (gestures wScr hScr bk h c).
Proof.
  unfold gestures.
  repeat apply emits_andThen.
  - eapply emits_weaken; [|apply cursor_move_emits]. unfold gesture_event; auto.
  - eapply emits_weaken; [|apply left_click_emits].
    unfold gesture_event; intros e [-> | ->]; cbn; auto.
  - eapply emits_weaken; [|apply right_click_emits].
    unfold gesture_event; intros e ->; cbn; auto.
  - eapply emits_weaken; [|apply dynamic_gestures_emits].
    unfold gesture_event; intros e [H | H]; auto.
Qed.

End Emits.

(** ** Frames and the loop as a whole *)

Section Frames.
Variables wScr hScr : Q.
Variable bk : Event -> bool.

Lemma andThen_events (P : Event -> Prop) (r : Run) (B : World -> Run) :
  emits P B ->
  exists es, events (r >>= B) = events r ++ es /\ Forall P es.
Proof.
  intro HB. destruct r as [w | w]; cbn.
  - apply HB.
  - exists []. split; [now rewrite app_nil_r | constructor].
Qed.

(** The part of the body that follows the left-click block. *)
Lemma after_left_click_emits (h : Hand) (c : Clock) :
  emits (fun e => e = RightClick \/ is_swipe e = true \/ is_scroll e = true)
        (fun w => right_click bk h c w >>= dynamic_gestures bk h c).
Proof.
  apply emits_andThen.
  - eapply emits_weaken; [|apply right_click_emits]. cbn; auto.
  - eapply emits_weaken; [|apply dynamic_gestures_emits]. cbn; tauto.
Qed.

Lemma andThen_assoc (r : Run) (k1 k2 : World -> Run) :
  r >>= k1 >>= k2 = r >>= (fun w => k1 w >>= k2).
Proof. now destruct r. Qed.

Lemma pause_toggle_not_fist (h : Hand) (c : Clock) (s : State) :
  is_fist (fingers h) = false ->
  pause_toggle h c s = (set_rest_since None s, []).
Proof. intro H. unfold pause_toggle. now rewrite H. Qed.

Lemma index_not_fist (f : Fingers) : index f = true -> is_fist f = false.
Proof. intro H. unfold is_fist. rewrite H. now destruct (thumb f). Qed.

Lemma cursor_move_two_fingers (h : Hand) (w : World) :
  index (fingers h) = true -> middle (fingers h) = true ->
  cursor_move wScr hScr bk h w = Ok w.
Proof.
  intros Hi Hm. unfold cursor_move, sum. rewrite Hi, Hm.
  destruct (thumb _), (ring _), (pinky _); reflexivity.
Qed.

(** Every event of a frame is the pause flip or an event of the gesture
    blocks. *)
Lemma process_frame_events (f : Frame) (s : State) :
  Forall (fun e => e = PauseToggle \/ gesture_event wScr hScr e)
         (events (process_frame wScr hScr bk f s)).
Proof.
  unfold process_frame. destruct (hand f) as [h |]; [|constructor].
  assert (Hp : Forall (fun e => e = PauseToggle \/ gesture_event wScr hScr e)
                      (snd (pause_toggle h (clock f) s))).
  { unfold pause_toggle.
    destruct (is_fist _); [destruct (rest_since s); [destruct (held _ _)|]|];
      cbn; repeat constructor. }
  destruct (paused (fst (pause_toggle h (clock f) s))); [exact Hp|].
  destruct (gestures_emits wScr hScr bk h (clock f) (pause_toggle h (clock f) s))
    as (es & -> & Hes).
  apply Forall_app. split; [exact Hp|].
  eapply Forall_impl; [|exact Hes]. cbn; auto.
Qed.

Lemma main_loop_events (P : Event -> Prop) :
  (forall f s, Forall P (events (process_frame wScr hScr bk f s))) ->
  forall fs s, Forall P (events (main_loop wScr hScr bk fs s)).
Proof.
  intros HP fs. induction fs as [| f fs IH]; intro s; cbn; [constructor|].
  specialize (HP f s).
  destruct (process_frame wScr hScr bk f s) as [[s' evs] | w]; [|exact HP].
  specialize (IH s').
  destruct (main_loop wScr hScr bk fs s') as [[s'' evs'] | [s'' evs']];
    cbn in *; apply Forall_app; now split.
Qed.

End Frames.

(** ** Pointer clamping *)

Lemma clamp_bounds (x b : Q) :
  (1 <= b)%Q ->
  (0 <= Pointer.clamp x b)%Q /\ (Pointer.clamp x b <= b - 1)%Q.
Proof.
  intro Hb. unfold Pointer.clamp, Pointer.max, Pointer.min.
  destruct (Qltb x (b - 1)) eqn:H1;
    [apply Qltb_true in H1 | apply Qltb_false in H1];
    match goal with
    | |- context [Qltb ?a ?m] =>
        destruct (Qltb a m) eqn:H2;
        [apply Qltb_true in H2 | apply Qltb_false in H2]
    end; split; Lqa.lra.
Qed.

(** C4.  Whatever the frames and the state, every [autopy.mouse.move(x, y)]
    issued by the loop has [0 <= x <= wScr - 1] and [0 <= y <= hScr - 1]
    (so [x < wScr] and [y < hScr]), for a screen of at least one pixel in
    each direction. *)
Theorem move_within_screen (wScr hScr : Q) (bk : Event -> bool)
        (fs : list Frame) (s : State) (x y : Q) :
  (1 <= wScr)%Q -> (1 <= hScr)%Q ->
  In (Move x y) (events (main_loop wScr hScr bk fs s)) ->
  ((0 <= x)%Q /\ (x <= wScr - 1)%Q /\ (x < wScr)%Q) /\
  ((0 <= y)%Q /\ (y <= hScr - 1)%Q /\ (y < hScr)%Q).
Proof.
  intros Hw Hh Hin.
  pose proof (main_loop_events wScr hScr bk _
                (process_frame_events wScr hScr bk) fs s) as Hall.
  rewrite Forall_forall in Hall. specialize (Hall _ Hin).
  destruct Hall as [Hall | [(x0 & y0 & Heq) | [Hc | [Hc | Hc]]]];
    try discriminate.
  injection Heq as -> ->.
  destruct (clamp_bounds x0 wScr Hw) as [? ?].
  destruct (clamp_bounds y0 hScr Hh) as [? ?].
  repeat split; try assumption; Lqa.lra.
Qed.

Lemma move_within_screen_witness :
  ((0 <= 1919)%Q /\ (1919 <= 1920 - 1)%Q /\ (1919 < 1920)%Q) /\
  ((0 <= 1080 # 3)%Q /\ (1080 # 3 <= 1080 - 1)%Q /\ (1080 # 3 < 1080)%Q).
Proof.
  apply (move_within_screen 1920 1080 backend_ok
           [frame_at 0 point_hand] initial 1919 (1080 # 3)).
  - Lqa.lra.
  - Lqa.lra.
  - vm_compute. left. reflexivity.
Defined.

(** ** Clicks *)

Section Clicks.
Variables wScr hScr : Q.
Variable bk : Event -> bool.

(** What the left-click block appends when both fingers are up and the
    debounce test passes. *)
Lemma left_click_events (h : Hand) (c : Clock) (w : World) :
  index (fingers h) = true -> middle (fingers h) = true ->
  elapsed (t_click c) (last_click_time (fst w)) click_debounce_sec = true ->
  events (left_click bk h c w)
  = snd w ++ (if length_lt (lm8 h) (lm12 h) click_length then [LeftClick]
              else if length_gt (lm8 h) (lm12 h) double_click_threshold
                   then [DoubleClick] else []).
Proof.
  intros Hi Hm He. unfold left_click. rewrite Hi, Hm, He. cbn [andb].
  rewrite !andb_true_r.
  destruct (length_lt _ _ _); [apply events_call|].
  destruct (length_gt _ _ _); [apply events_call|].
  cbn. now rewrite app_nil_r.
Qed.

Lemma far_not_near (p q : Point) :
  length_gt p q double_click_threshold = true ->
  length_lt p q click_length = false.
Proof.
  unfold length_gt, length_lt, double_click_threshold, click_length.
  rewrite Z.ltb_lt, Z.ltb_ge. lia.
Qed.

Lemma not_click_after (es : list Event) (e : Event) :
  Forall (fun e => e = RightClick \/ is_swipe e = true \/ is_scroll e = true)
         es ->
  e = LeftClick \/ e = DoubleClick -> ~ In e es.
Proof.
  intros Hes He Hin. rewrite Forall_forall in Hes.
  destruct (Hes _ Hin) as [-> | [H | H]], He as [He | He];
    try discriminate; subst; discriminate.
Qed.

(** C3.  On an active frame with index and middle fingers up and the click
    debounce test passing, with [d1] the distance between the index and
    middle tips: [d1 < 35] issues a left click (and no double click),
    [d1 > 60] issues a double click (and no left click), and for
    [35 <= d1 <= 60], the dead zone with its end points, neither is issued. *)
Theorem click_thresholds (s : State) (h : Hand) (c : Clock) :
  paused s = false ->
  index (fingers h) = true -> middle (fingers h) = true ->
  elapsed (t_click c) (last_click_time s) click_debounce_sec = true ->
  let evs := events (process_frame wScr hScr bk (mkFrame (Some h) c) s) in
  let d1 := findDistance (lm8 h) (lm12 h) in
  ((d1 < 35)%R -> In LeftClick evs /\ ~ In DoubleClick evs) /\
  ((d1 > 60)%R -> In DoubleClick evs /\ ~ In LeftClick evs) /\
  ((35 <= d1 <= 60)%R -> ~ In LeftClick evs /\ ~ In DoubleClick evs).
Proof.
  intros Hp Hi Hm He. cbn zeta.
  unfold process_frame. cbn [hand clock].
  rewrite pause_toggle_not_fist by now apply index_not_fist.
  cbn [fst paused set_rest_since]. rewrite Hp.
  unfold gestures. rewrite cursor_move_two_fingers by assumption.
  cbn [andThen]. rewrite andThen_assoc.
  destruct (andThen_events _
              (left_click bk h c (set_rest_since None s, []))
              _ (after_left_click_emits bk h c)) as (es & -> & Hes).
  rewrite left_click_events by assumption. cbn [snd app].
  pose proof (not_click_after es LeftClick Hes (or_introl eq_refl)) as HL.
  pose proof (not_click_after es DoubleClick Hes (or_intror eq_refl)) as HD.
  repeat split.
  - apply (length_lt_spec _ _ 35) in H; [|lia].
    unfold click_length. rewrite H. now left.
  - apply (length_lt_spec _ _ 35) in H; [|lia].
    unfold click_length. rewrite H. intros [Hx | Hx]; [discriminate | tauto].
  - apply (length_gt_spec _ _ 60) in H; [|lia].
    rewrite (far_not_near _ _ H). unfold double_click_threshold.
    rewrite H. now left.
  - apply (length_gt_spec _ _ 60) in H; [|lia].
    rewrite (far_not_near _ _ H). unfold double_click_threshold.
    rewrite H. intros [Hx | Hx]; [discriminate | tauto].
  - destruct H as [H35 H60].
    apply (length_lt_false _ _ 35) in H35; [|lia].
    apply (length_gt_false _ _ 60) in H60; [|lia].
    unfold click_length, double_click_threshold. rewrite H35, H60. exact HL.
  - destruct H as [H35 H60].
    apply (length_lt_false _ _ 35) in H35; [|lia].
    apply (length_gt_false _ _ 60) in H60; [|lia].
    unfold click_length, double_click_threshold. rewrite H35, H60. exact HD.
Qed.

End Clicks.

Lemma click_thresholds_witness :
  In LeftClick
     (events (process_frame 1920 1080 backend_ok (frame_at 1 click_hand)
                            initial))
  /\ ~ In DoubleClick
       (events (process_frame 1920 1080 backend_ok (frame_at 1 click_hand)
                              initial)).
Proof.
  apply (proj1 (click_thresholds 1920 1080 backend_ok initial click_hand
                  (at_time 1) eq_refl eq_refl eq_refl eq_refl)).
  apply (proj1 (length_lt_spec (200, 200) (210, 205) 35 ltac:(lia))).
  reflexivity.
Defined.

(** ** Swipes and scrolls *)

Section Motion.
Variables wScr hScr : Q.
Variable bk : Event -> bool.

Lemma call_ok (e : Event) (k : State -> State) (w : World) :
  bk e = true -> call bk e k w = Ok (k (fst w), snd w ++ [e]).
Proof. intro H. unfold call. now rewrite H. Qed.

(** When the click calls return, the two click blocks end normally and
    leave the swipe timer and the trail alone. *)
Lemma left_click_ok (h : Hand) (c : Clock) (w : World) :
  bk LeftClick = true -> bk DoubleClick = true ->
  exists s' es,
    left_click bk h c w = Ok (s', snd w ++ es)
    /\ Forall (fun e => is_click e = true) es
    /\ last_action_time s' = last_action_time (fst w)
    /\ trail s' = trail (fst w).
Proof.
  intros HL HD. destruct w as [s evs]. unfold left_click. cbn [fst snd].
  repeat match goal with
         | |- context [if ?b then _ else _] => destruct b
         end;
    try (rewrite call_ok by assumption; cbn [fst snd];
         eexists; eexists; split; [reflexivity|];
         repeat split; repeat constructor);
    exists s, []; rewrite app_nil_r; repeat split; constructor.
Qed.

Lemma right_click_ok (h : Hand) (c : Clock) (w : World) :
  bk RightClick = true ->
  exists s' es,
    right_click bk h c w = Ok (s', snd w ++ es)
    /\ Forall (fun e => is_click e = true) es
    /\ last_action_time s' = last_action_time (fst w)
    /\ trail s' = trail (fst w).
Proof.
  intros HR. destruct w as [s evs]. unfold right_click. cbn [fst snd].
  repeat match goal with
         | |- context [if ?b then _ else _] => destruct b
         end;
    try (rewrite call_ok by assumption; cbn [fst snd];
         eexists; eexists; split; [reflexivity|];
         repeat split; repeat constructor);
    exists s, []; rewrite app_nil_r; repeat split; constructor.
Qed.

Lemma palm_not_fist (f : Fingers) : is_palm f = true -> is_fist f = false.
Proof.
  unfold is_palm, is_fist. destruct (thumb f); [reflexivity | discriminate].
Qed.

Lemma palm_fingers (f : Fingers) :
  is_palm f = true -> index f = true /\ middle f = true.
Proof.
  unfold is_palm. destruct (thumb f), (index f), (middle f);
    cbn; intro; try discriminate; now split.
Qed.

Lemma elapsed_same (now iv : Q) : (0 <= iv)%Q -> elapsed now now iv = false.
Proof. intro H. apply elapsed_false. Lqa.lra. Qed.

(** A leftward swipe: the swipe block calls the hotkey and, whether or not
    that call returns, the scroll block adds nothing. *)
Lemma swipe_left_events (h : Hand) (now : Q) (dx dy : Z) (w : World) :
  is_palm (fingers h) = true ->
  elapsed now (last_action_time (fst w)) cooldown_swipe_sec = true ->
  dx <= - 120 -> Z.abs dy < 60 ->
  events (swipe bk h now dx dy w >>= scroll bk h now dy)
  = snd w ++ [SwipeLeft].
Proof.
  intros Hp He Hdx Hdy. unfold swipe. rewrite Hp, He, half_threshold.
  cbn [andb].
  replace (dx <=? - swipe_threshold_px) with true
    by (symmetry; apply Z.leb_le; exact Hdx).
  replace (Z.abs dy <? 60) with true by (symmetry; now apply Z.ltb_lt).
  cbn [andb]. unfold call. destruct (bk SwipeLeft); [|reflexivity].
  cbn [andThen]. unfold scroll. cbn [fst snd last_action_time
                                      set_last_action_time].
  rewrite elapsed_same by (unfold scroll_debounce_sec; Lqa.lra).
  now rewrite andb_false_r.
Qed.

(** C6.  On an active frame with all five fingers up, a defined trail
    displacement [(dx, dy)] with [dx <= -120] and [|dy| < 60], and the swipe
    cooldown elapsed, the frame issues SwipeLeft and neither SwipeRight nor
    a scroll (the click calls that precede the swipe are taken to return). *)
Theorem swipe_left_classification (s : State) (h : Hand) (c : Clock)
        (dx dy : Z) :
  paused s = false ->
  is_palm (fingers h) = true ->
  Trail.displacement (Trail.append (sample_of h c) (trail s))
  = Some (dx, dy) ->
  dx <= - 120 -> Z.abs dy < 60 ->
  elapsed (t_now c) (last_action_time s) cooldown_swipe_sec = true ->
  (forall e, is_click e = true -> bk e = true) ->
  let evs := events (process_frame wScr hScr bk (mkFrame (Some h) c) s) in
  In SwipeLeft evs /\ ~ In SwipeRight evs
  /\ ~ In ScrollUp evs /\ ~ In ScrollDown evs.
Proof.
  intros Hact Hp Hd Hdx Hdy He Hbk. cbn zeta.
  destruct (palm_fingers _ Hp) as [Hi Hm].
  unfold process_frame. cbn [hand clock].
  rewrite pause_toggle_not_fist by now apply palm_not_fist.
  cbn [fst paused set_rest_since]. rewrite Hact.
  unfold gestures. rewrite cursor_move_two_fingers by assumption.
  cbn [andThen].
  destruct (left_click_ok h c (set_rest_since None s, []))
    as (s1 & es1 & -> & Hes1 & Ha1 & Ht1); [now apply Hbk ..|].
  cbn [andThen].
  destruct (right_click_ok h c (s1, snd (set_rest_since None s, @nil Event)
                                        ++ es1))
    as (s2 & es2 & -> & Hes2 & Ha2 & Ht2); [now apply Hbk|].
  cbn [andThen fst snd app] in *.
  unfold dynamic_gestures. cbn [fst snd].
  cbn [trail last_action_time set_rest_since] in Ht1, Ha1.
  rewrite Ht2, Ht1, Hd.
  rewrite swipe_left_events; try assumption.
  2:{ cbn [fst last_action_time set_trail]. now rewrite Ha2, Ha1. }
  cbn [snd].
  assert (Hno : forall e, is_click e = false -> e <> SwipeLeft ->
                          ~ In e ((es1 ++ es2) ++ [SwipeLeft])).
  { intros e Hc Hne Hin. rewrite !in_app_iff in Hin. cbn in Hin.
    rewrite Forall_forall in Hes1, Hes2.
    destruct Hin as [[Hin | Hin] | [Hin | []]].
    - apply Hes1 in Hin. congruence.
    - apply Hes2 in Hin. congruence.
    - congruence. }
  split; [|repeat split; apply Hno; (reflexivity || discriminate)].
  apply in_or_app. right. now left.
Qed.

End Motion.

Lemma swipe_left_classification_witness :
  let s := after_frames [frame_at 1 (palm_hand (300, 200))] in
  let evs := events (process_frame 1920 1080 backend_ok
                       (frame_at 1.1 (palm_hand (150, 210))) s) in
  In SwipeLeft evs /\ ~ In SwipeRight evs
  /\ ~ In ScrollUp evs /\ ~ In ScrollDown evs.
Proof.
  apply (swipe_left_classification 1920 1080 backend_ok
           (after_frames [frame_at 1 (palm_hand (300, 200))])
           (palm_hand (150, 210)) (at_time 1.1) (-150) 10).
  - reflexivity.
  - reflexivity.
  - reflexivity.
  - lia.
  - simpl. lia.
  - reflexivity.
  - reflexivity.
Defined.

(** ** Components of the state that a block does not touch *)

Section Keeps.
Variables wScr hScr : Q.
Variable bk : Event -> bool.
Context {A : Type} (proj : State -> A).

Lemma keeps_andThen (B1 B2 : World -> Run) :
  keeps proj B1 -> keeps proj B2 -> keeps proj (fun w => B1 w >>= B2).
Proof.
  intros H1 H2 w. specialize (H1 w).
  destruct (B1 w) as [w1 | w1]; cbn in *; [|exact H1].
  now rewrite H2.
Qed.

Lemma keeps_call (e : Event) (k : State -> State) (w : World) :
  (forall s, proj (k s) = proj s) ->
  proj (state_of (call bk e k w)) = proj (fst w).
Proof. intro Hk. unfold call. destruct (bk e); cbn; auto. Qed.

Ltac keeps_cases :=
  repeat match goal with
         | |- context [if ?b then _ else _] => destruct b
         end;
  first [ reflexivity | apply keeps_call; auto ].

Lemma left_click_keeps :
  (forall t s, proj (set_last_click_time t s) = proj s) ->
  forall h c, keeps proj (left_click bk h c).
Proof. intros Hk h c w. unfold left_click. keeps_cases. Qed.

Lemma right_click_keeps :
  (forall t s, proj (set_last_click_time t s) = proj s) ->
  forall h c, keeps proj (right_click bk h c).
Proof. intros Hk h c w. unfold right_click. keeps_cases. Qed.

Lemma swipe_keeps :
  (forall t s, proj (set_last_action_time t s) = proj s) ->
  forall h now dx dy, keeps proj (swipe bk h now dx dy).
Proof. intros Hk h now dx dy w. unfold swipe. keeps_cases. Qed.

Lemma scroll_keeps :
  (forall t s, proj (set_last_action_time t s) = proj s) ->
  forall h now dy, keeps proj (scroll bk h now dy).
Proof. intros Hk h now dy w. unfold scroll. keeps_cases. Qed.

Lemma cursor_move_keeps :
  (forall x y s, proj (set_cloc x y s) = proj s) ->
  (forall x y s, proj (set_ploc x y s) = proj s) ->
  forall h, keeps proj (cursor_move wScr hScr bk h).
Proof.
  intros Hc Hp h w. unfold cursor_move.
  destruct (index (fingers h) && (sum (fingers h) =? 1)); [|reflexivity].
  unfold safe_move_mouse.
  match goal with
  | |- context [if ?b then _ else _] => destruct b
  end; cbn; now rewrite Hp, Hc.
Qed.

End Keeps.

(** ** The trail buffer *)

Lemma append_length (x : Sample) (tr : list Sample) :
  (length tr <= 5)%nat -> (length (Trail.append x tr) <= 5)%nat.
Proof.
  intro H. unfold Trail.append, trail_maxlen.
  destruct (Nat.leb_spec 5 (length tr)); rewrite length_app; cbn.
  - destruct tr; cbn in *; lia.
  - lia.
Qed.

Lemma tl_skipn (k : nat) (l : list Sample) :
  tl (skipn k l) = skipn (S k) l.
Proof.
  revert l. induction k as [| k IH]; intros [| a l]; try reflexivity.
  exact (IH l).
Qed.

Lemma pushes_snoc (xs : list Sample) (x : Sample) :
  Trail.pushes (xs ++ [x]) = Trail.append x (Trail.pushes xs).
Proof. unfold Trail.pushes. now rewrite fold_left_app. Qed.

(** FIFO: the buffer holds the last five samples pushed, in order. *)
Lemma pushes_last_five (xs : list Sample) :
  Trail.pushes xs = skipn (length xs - 5) xs.
Proof.
  induction xs as [| x xs IH] using rev_ind; [reflexivity|].
  rewrite pushes_snoc, IH, length_app. cbn [length].
  unfold Trail.append, trail_maxlen. rewrite length_skipn.
  destruct (Nat.leb_spec 5 (length xs - (length xs - 5))) as [H | H].
  - replace (length xs + 1 - 5)%nat with (S (length xs - 5)) by lia.
    rewrite tl_skipn, skipn_app.
    replace (S (length xs - 5) - length xs)%nat with 0%nat by lia.
    reflexivity.
  - replace (length xs + 1 - 5)%nat with 0%nat by lia.
    replace (length xs - 5)%nat with 0%nat by lia.
    reflexivity.
Qed.

Lemma displacement_ends (o n : Sample) (mid : list Sample) :
  Trail.displacement (o :: mid ++ [n])
  = Some (fst (fst n) - fst (fst o), snd (fst n) - snd (fst o)).
Proof.
  unfold Trail.displacement.
  replace (2 <=? length (o :: mid ++ [n]))%nat with true.
  - change (o :: mid ++ [n]) with ((o :: mid) ++ [n]).
    rewrite rev_app_distr. reflexivity.
  - symmetry. apply Nat.leb_le. cbn. rewrite length_app. cbn. lia.
Qed.

Lemma displacement_short (tr : list Sample) :
  (length tr < 2)%nat -> Trail.displacement tr = None.
Proof.
  intro H. unfold Trail.displacement.
  destruct (Nat.leb_spec 2 (length tr)); [lia | reflexivity].
Qed.

Section TrailInLoop.
Variables wScr hScr : Q.
Variable bk : Event -> bool.

(** The blocks that run before the dynamic gestures. *)
Lemma before_dynamic_emits (h : Hand) (c : Clock) :
  emits (fun e => is_swipe e = false /\ is_scroll e = false)
        (fun w => cursor_move wScr hScr bk h w >>= left_click bk h c
                  >>= right_click bk h c).
Proof.
  repeat apply emits_andThen.
  - eapply emits_weaken; [|apply cursor_move_emits].
    intros e (x & y & ->). now split.
  - eapply emits_weaken; [|apply left_click_emits].
    intros e [-> | ->]; now split.
  - eapply emits_weaken; [|apply right_click_emits].
    intros e ->; now split.
Qed.

Lemma before_dynamic_keeps_trail (h : Hand) (c : Clock) :
  keeps trail (fun w => cursor_move wScr hScr bk h w >>= left_click bk h c
                        >>= right_click bk h c).
Proof.
  repeat apply keeps_andThen.
  - now apply cursor_move_keeps.
  - now apply left_click_keeps.
  - now apply right_click_keeps.
Qed.

Lemma dynamic_gestures_trail (h : Hand) (c : Clock) (w : World) :
  trail (state_of (dynamic_gestures bk h c w))
  = Trail.append (sample_of h c) (trail (fst w)).
Proof.
  unfold dynamic_gestures.
  destruct (Trail.displacement _) as [[dx dy] |]; [|reflexivity].
  set (w1 := (set_trail _ _, snd w)).
  change (Trail.append (sample_of h c) (trail (fst w))) with (trail (fst w1)).
  apply (keeps_andThen trail (swipe bk h (t_now c) dx dy)
                       (scroll bk h (t_now c) dy)).
  - now apply swipe_keeps.
  - now apply scroll_keeps.
Qed.

Lemma pause_toggle_trail (h : Hand) (c : Clock) (s : State) :
  trail (fst (pause_toggle h c s)) = trail s.
Proof.
  unfold pause_toggle.
  destruct (is_fist _); [destruct (rest_since s); [destruct (held _ _)|]|];
    reflexivity.
Qed.

(** A frame leaves the trail alone or appends its sample. *)
Lemma process_frame_trail (f : Frame) (s : State) :
  trail (state_of (process_frame wScr hScr bk f s)) = trail s
  \/ exists h, hand f = Some h
               /\ trail (state_of (process_frame wScr hScr bk f s))
                  = Trail.append (sample_of h (clock f)) (trail s).
Proof.
  unfold process_frame. destruct (hand f) as [h |]; [|now left].
  pose proof (pause_toggle_trail h (clock f) s) as Hp.
  destruct (paused (fst (pause_toggle h (clock f) s))); [now left|].
  unfold gestures.
  pose proof (before_dynamic_keeps_trail h (clock f)
                (pause_toggle h (clock f) s)) as Hk.
  cbn beta in Hk.
  destruct (cursor_move wScr hScr bk h (pause_toggle h (clock f) s)
            >>= left_click bk h (clock f) >>= right_click bk h (clock f))
    as [w3 | w3]; cbn [andThen].
  - right. exists h. split; [reflexivity|].
    rewrite dynamic_gestures_trail.
    unfold state_of in Hk. cbn [world] in Hk. now rewrite Hk, Hp.
  - left. unfold state_of in *. cbn [world] in *. now rewrite Hk.
Qed.

Lemma main_loop_state (I : State -> Prop) :
  (forall f s, I s -> I (state_of (process_frame wScr hScr bk f s))) ->
  forall fs s, I s -> I (state_of (main_loop wScr hScr bk fs s)).
Proof.
  intros HI fs. induction fs as [| f fs IH]; intros s Hs; [exact Hs|].
  cbn [main_loop]. specialize (HI f s Hs).
  destruct (process_frame wScr hScr bk f s) as [[s' evs] | w]; [|exact HI].
  specialize (IH s' HI).
  now destruct (main_loop wScr hScr bk fs s') as [[s'' evs'] | [s'' evs']].
Qed.

Lemma main_loop_trail_bound (fs : list Frame) (s : State) :
  (length (trail s) <= 5)%nat ->
  (length (trail (state_of (main_loop wScr hScr bk fs s))) <= 5)%nat.
Proof.
  apply (main_loop_state (fun s => (length (trail s) <= 5)%nat)).
  clear. intros f s Hs.
  destruct (process_frame_trail f s) as [-> | (h & _ & ->)];
    [assumption | now apply append_length].
Qed.

(** Without a defined displacement a frame issues no swipe and no scroll. *)
Lemma no_displacement_no_motion (h : Hand) (c : Clock) (s : State) :
  Trail.displacement (Trail.append (sample_of h c) (trail s)) = None ->
  Forall (fun e => is_swipe e = false /\ is_scroll e = false)
         (events (process_frame wScr hScr bk (mkFrame (Some h) c) s)).
Proof.
  intro Hd. unfold process_frame. cbn [hand clock].
  pose proof (pause_toggle_trail h c s) as Hp.
  assert (Hq : Forall (fun e => is_swipe e = false /\ is_scroll e = false)
                      (snd (pause_toggle h c s))).
  { unfold pause_toggle.
    destruct (is_fist _); [destruct (rest_since s); [destruct (held _ _)|]|];
      cbn; repeat constructor. }
  destruct (paused (fst (pause_toggle h c s))); [exact Hq|].
  unfold gestures.
  pose proof (before_dynamic_keeps_trail h c (pause_toggle h c s)) as Hk.
  destruct (before_dynamic_emits h c (pause_toggle h c s))
    as (es & Hes & HP).
  cbn beta in Hk, Hes.
  destruct (cursor_move wScr hScr bk h (pause_toggle h c s)
            >>= left_click bk h c >>= right_click bk h c)
    as [w3 | w3]; cbn [andThen].
  - unfold dynamic_gestures.
    unfold state_of in Hk. cbn [world] in Hk. rewrite Hk, Hp, Hd.
    unfold events in *. cbn [world snd] in *. rewrite Hes.
    apply Forall_app. now split.
  - unfold events in *. cbn [world snd] in *. rewrite Hes.
    apply Forall_app. now split.
Qed.

End TrailInLoop.

(** C7.  The trail never holds more than five samples and keeps the last
    five pushed, oldest first (FIFO eviction); in the loop it stays within
    five entries; with at least two samples the displacement is the newest
    sample minus the oldest retained one, coordinate by coordinate, and with
    fewer than two it is undefined; a frame whose displacement is undefined
    issues neither a swipe nor a scroll. *)
Theorem trail_buffer :
  (forall xs, (length (Trail.pushes xs) <= 5)%nat
              /\ Trail.pushes xs = skipn (length xs - 5) xs)
  /\ (forall wScr hScr bk fs,
         (length (trail (state_of (main_loop wScr hScr bk fs initial))) <= 5)%nat)
  /\ (forall oldest mid newest,
         Trail.displacement (oldest :: mid ++ [newest])
         = Some (fst (fst newest) - fst (fst oldest),
                 snd (fst newest) - snd (fst oldest)))
  /\ (forall tr, (length tr < 2)%nat -> Trail.displacement tr = None)
  /\ (forall wScr hScr bk h c s e,
         Trail.displacement (Trail.append (sample_of h c) (trail s)) = None ->
         In e (events (process_frame wScr hScr bk (mkFrame (Some h) c) s)) ->
         is_swipe e = false /\ is_scroll e = false).
Proof.
  split; [|split; [|split; [|split]]].
  - intro xs. split; [|apply pushes_last_five].
    rewrite pushes_last_five, length_skipn. lia.
  - intros wScr hScr bk fs. apply main_loop_trail_bound. cbn. lia.
  - intros oldest mid newest. apply displacement_ends.
  - apply displacement_short.
  - intros wScr hScr bk h c s e Hd Hin.
    pose proof (no_displacement_no_motion wScr hScr bk h c s Hd) as HF.
    rewrite Forall_forall in HF. now apply HF.
Qed.

Lemma trail_buffer_witness :
  Trail.displacement [(7, 9, 0%Q)] = None
  /\ (is_swipe LeftClick = false /\ is_scroll LeftClick = false).
Proof.
  split.
  - apply (proj1 (proj2 (proj2 (proj2 trail_buffer)))). simpl. lia.
  - apply (proj2 (proj2 (proj2 (proj2 trail_buffer)))
             1920%Q 1080%Q backend_ok click_hand (at_time 1) initial
             LeftClick).
    + reflexivity.
    + vm_compute. left. reflexivity.
Defined.

(** ** The fist, the pause flag and [rest_since] *)

Section Pause.
Variables wScr hScr : Q.
Variable bk : Event -> bool.

Lemma dynamic_gestures_keeps {A : Type} (proj : State -> A) :
  (forall tr s, proj (set_trail tr s) = proj s) ->
  (forall t s, proj (set_last_action_time t s) = proj s) ->
  forall h c, keeps proj (dynamic_gestures bk h c).
Proof.
  intros Ht Ha h c w. unfold dynamic_gestures.
  destruct (Trail.displacement _) as [[dx dy] |]; [|apply Ht].
  set (w1 := (set_trail _ _, snd w)).
  replace (proj (fst w)) with (proj (fst w1)) by apply Ht.
  apply (keeps_andThen proj (swipe bk h (t_now c) dx dy)
                       (scroll bk h (t_now c) dy)).
  - now apply swipe_keeps.
  - now apply scroll_keeps.
Qed.

(** The gesture blocks never write [rest_since]. *)
Lemma gestures_keeps_rest_since (h : Hand) (c : Clock) :
  keeps rest_since (gestures wScr hScr bk h c).
Proof.
  unfold gestures. repeat apply keeps_andThen.
  - now apply cursor_move_keeps.
  - now apply left_click_keeps.
  - now apply right_click_keeps.
  - now apply dynamic_gestures_keeps.
Qed.

Lemma fist_fingers (f : Fingers) :
  is_fist f = true ->
  thumb f = false /\ index f = false /\ is_palm f = false.
Proof.
  unfold is_fist, is_palm.
  destruct (thumb f), (index f); cbn; intro H; try discriminate; auto.
Qed.

(** With a fist the gesture blocks only append the sample to the trail. *)
Lemma gestures_fist (h : Hand) (c : Clock) (w : World) :
  is_fist (fingers h) = true ->
  gestures wScr hScr bk h c w
  = Ok (set_trail (Trail.append (sample_of h c) (trail (fst w))) (fst w),
        snd w).
Proof.
  intro Hf. destruct (fist_fingers _ Hf) as (Ht & Hi & Hp).
  unfold gestures, cursor_move, left_click, right_click, dynamic_gestures.
  rewrite Hi, Ht. cbn [andb andThen].
  destruct (Trail.displacement _) as [[dx dy] |]; [|reflexivity].
  unfold swipe, scroll. rewrite Hp, Hi. reflexivity.
Qed.

(** C8, as the code has it.  A frame with a hand whose finger vector is not
    a fist clears [rest_since]; a frame without a hand changes nothing, so
    [rest_since] survives it. *)
Theorem rest_since_cleared_by_open_hand :
  (forall (h : Hand) (c : Clock) (s : State),
      is_fist (fingers h) = false ->
      rest_since (state_of (process_frame wScr hScr bk (mkFrame (Some h) c) s))
      = None)
  /\ (forall (c : Clock) (s : State),
         process_frame wScr hScr bk (mkFrame None c) s = Ok (s, [])).
Proof.
  split; [|reflexivity].
  intros h c s Hf. unfold process_frame. cbn [hand clock].
  rewrite pause_toggle_not_fist by assumption. cbn [fst paused set_rest_since].
  destruct (paused s); [reflexivity|].
  now rewrite gestures_keeps_rest_since.
Qed.

(** C10, as the code has it.  A frame with a hand that starts in PAUSED ends
    normally, issues nothing but possibly the pause flip, and leaves both
    debounce timers and the pointer state unchanged; the trail is unchanged
    when the frame ends in PAUSED, and has the frame's sample appended when
    the frame resumes. *)
Theorem paused_frame_effect (h : Hand) (c : Clock) (s : State) :
  paused s = true ->
  let r := process_frame wScr hScr bk (mkFrame (Some h) c) s in
  raised r = false
  /\ Forall (fun e => e = PauseToggle) (events r)
  /\ last_click_time (state_of r) = last_click_time s
  /\ last_action_time (state_of r) = last_action_time s
  /\ plocX (state_of r) = plocX s /\ plocY (state_of r) = plocY s
  /\ (paused (state_of r) = true -> trail (state_of r) = trail s)
  /\ (paused (state_of r) = false ->
      trail (state_of r) = Trail.append (sample_of h c) (trail s)).
Proof.
  intros Hp. cbn zeta. unfold process_frame, pause_toggle. cbn [hand clock].
  destruct (is_fist (fingers h)) eqn:Hf.
  - destruct (rest_since s) as [since |].
    + destruct (held (t_rest c) since).
      * cbn [fst paused set_rest_since set_paused]. rewrite Hp. cbn [negb].
        rewrite gestures_fist by assumption. cbn.
        repeat split; try discriminate; repeat constructor.
      * cbn [fst]. rewrite Hp. cbn.
        repeat split; try congruence; repeat constructor.
    + cbn [fst paused set_rest_since]. rewrite Hp. cbn.
      repeat split; try congruence; repeat constructor.
  - cbn [fst paused set_rest_since]. rewrite Hp. cbn.
    repeat split; try congruence; repeat constructor.
Qed.

End Pause.

Lemma rest_since_cleared_by_open_hand_witness :
  rest_since
    (state_of (process_frame 1920 1080 backend_ok (frame_at 0.1 click_hand)
                             (after_frames [frame_at 0 fist_hand])))
  = None.
Proof.
  apply (proj1 (rest_since_cleared_by_open_hand 1920 1080 backend_ok)).
  reflexivity.
Defined.

(** C8 as stated fails on a frame without a hand: after one fist frame
    [rest_since] is set, a frame with no hand leaves it set, and a fist seen
    0.4 s after the first one toggles the pause although the hold was
    interrupted. *)
Lemma rest_since_survives_no_hand :
  let s := after_frames [frame_at 0 fist_hand] in
  hand (no_hand 0.1) = None
  /\ rest_since s = Some 0%Q
  /\ rest_since (state_of (process_frame 1920 1080 backend_ok (no_hand 0.1) s))
     <> None
  /\ events (main_loop 1920 1080 backend_ok
               [frame_at 0 fist_hand; no_hand 0.1; frame_at 0.4 fist_hand]
               initial)
     = [PauseToggle].
Proof. vm_compute. repeat split. discriminate. Qed.

Lemma paused_frame_effect_witness :
  let s := after_frames [frame_at 0 fist_hand; frame_at 0.4 fist_hand] in
  let r := process_frame 1920 1080 backend_ok (frame_at 0.5 click_hand) s in
  raised r = false
  /\ Forall (fun e => e = PauseToggle) (events r)
  /\ last_click_time (state_of r) = last_click_time s
  /\ last_action_time (state_of r) = last_action_time s
  /\ plocX (state_of r) = plocX s /\ plocY (state_of r) = plocY s
  /\ (paused (state_of r) = true -> trail (state_of r) = trail s)
  /\ (paused (state_of r) = false ->
      trail (state_of r)
      = Trail.append (sample_of click_hand (at_time 0.5)) (trail s)).
Proof.
  apply (paused_frame_effect 1920 1080 backend_ok click_hand (at_time 0.5)
           (after_frames [frame_at 0 fist_hand; frame_at 0.4 fist_hand])).
  reflexivity.
Defined.

(** C10 as stated fails on the frame that resumes: the state is PAUSED when
    the frame starts, the fist has been held long enough, the flag flips to
    ACTIVE and the same frame appends its sample to the trail. *)
Lemma resume_frame_changes_trail :
  let s := after_frames [frame_at 0 fist_hand; frame_at 0.4 fist_hand;
                         frame_at 0.5 fist_hand] in
  let r := process_frame 1920 1080 backend_ok (frame_at 0.9 fist_hand) s in
  paused s = true
  /\ trail s = [(0, 0, 0%Q)]
  /\ trail (state_of r) = [(0, 0, 0%Q); (0, 0, 0.9%Q)]
  /\ trail (state_of r) <> trail s.
Proof. vm_compute. repeat split. discriminate. Qed.

(** ** Failures of the backend *)

Lemma call_raises (bk : Event -> bool) (e : Event) (k : State -> State)
      (w : World) :
  bk e = false -> call bk e k w = Raised (fst w, snd w ++ [e]).
Proof. intro H. unfold call. now rewrite H. Qed.

Lemma safe_move_mouse_returns (wScr hScr : Q) (bk : Event -> bool) (x y : Q)
      (w : World) :
  raised (safe_move_mouse wScr hScr bk x y w) = false.
Proof. unfold safe_move_mouse. now destruct (bk _). Qed.

Lemma raised_andThen (r : Run) (k : World -> Run) :
  raised r = true -> r >>= k = r.
Proof. destruct r; [discriminate | reflexivity]. Qed.

(** Once a frame has raised, the loop is over: the remaining frames are
    not looked at. *)
Lemma main_loop_stops (wScr hScr : Q) (bk : Event -> bool) (f : Frame)
      (fs : list Frame) (s : State) :
  raised (process_frame wScr hScr bk f s) = true ->
  main_loop wScr hScr bk (f :: fs) s = process_frame wScr hScr bk f s.
Proof.
  cbn [main_loop].
  destruct (process_frame wScr hScr bk f s) as [[s' evs] | w];
    [discriminate | reflexivity].
Qed.

(** C5, where the code departs from it.  A refused [autopy.mouse.move] is
    swallowed by [safe_move_mouse] and the loop goes on to the next frame;
    a refused click, double click, right click, hotkey or scroll is not
    caught anywhere: the exception leaves the loop at that call and the
    frames that follow are never processed. *)
Theorem backend_failure_escapes :
  let next := frame_at 2 click_hand in
  let run bk fs := main_loop 1920 1080 bk (fs ++ [next]) initial in
  (raised (run (refuses is_move) [frame_at 1 (index_hand (200, 300))]) = false
   /\ In LeftClick
         (events (run (refuses is_move) [frame_at 1 (index_hand (200, 300))])))
  /\ run (refuses is_click) [frame_at 1 click_hand]
     = Raised (initial, [LeftClick])
  /\ run (refuses is_click) [frame_at 1 spread_hand]
     = Raised (initial, [DoubleClick])
  /\ run (refuses is_click) [frame_at 1 pinch_hand]
     = Raised (initial, [RightClick])
  /\ (raised (run (refuses is_swipe)
                  [frame_at 1 (palm_hand (300, 200));
                   frame_at 1.1 (palm_hand (150, 210))]) = true
      /\ events (run (refuses is_swipe)
                     [frame_at 1 (palm_hand (300, 200));
                      frame_at 1.1 (palm_hand (150, 210))]) = [SwipeLeft])
  /\ (raised (run (refuses is_scroll)
                  [frame_at 1 (palm_hand (200, 300));
                   frame_at 1.1 (palm_hand (200, 200))]) = true
      /\ events (run (refuses is_scroll)
                     [frame_at 1 (palm_hand (200, 300));
                      frame_at 1.1 (palm_hand (200, 200))]) = [ScrollUp]).
Proof. vm_compute. repeat split. right. left. reflexivity. Qed.

(** ** Single blocks under their guards *)

Section Guards.
Variables wScr hScr : Q.
Variable bk : Event -> bool.

Lemma left_click_fires (h : Hand) (c : Clock) (w : World) :
  index (fingers h) = true -> middle (fingers h) = true ->
  length_lt (lm8 h) (lm12 h) click_length = true ->
  elapsed (t_click c) (last_click_time (fst w)) click_debounce_sec = true ->
  bk LeftClick = true ->
  left_click bk h c w
  = Ok (set_last_click_time (t_click c) (fst w), snd w ++ [LeftClick]).
Proof.
  intros Hi Hm Hl He Hb. unfold left_click. rewrite Hi, Hm, Hl, He.
  cbn [andb]. now apply call_ok.
Qed.

Lemma left_click_debounced (h : Hand) (c : Clock) (w : World) :
  elapsed (t_click c) (last_click_time (fst w)) click_debounce_sec = false ->
  left_click bk h c w = Ok w.
Proof.
  intro He. unfold left_click. rewrite He, !andb_false_r.
  now destruct (index _ && middle _).
Qed.

Lemma right_click_no_thumb (h : Hand) (c : Clock) (w : World) :
  thumb (fingers h) = false -> right_click bk h c w = Ok w.
Proof. intro Ht. unfold right_click. now rewrite Ht. Qed.

(** Without an open palm and with a vertical displacement short of the
    scroll threshold, the dynamic block only records the sample. *)
Lemma dynamic_gestures_still (h : Hand) (c : Clock) (w : World) :
  is_palm (fingers h) = false ->
  (forall dx dy,
      Trail.displacement (Trail.append (sample_of h c) (trail (fst w)))
      = Some (dx, dy) -> - 80 < dy < 80) ->
  dynamic_gestures bk h c w
  = Ok (set_trail (Trail.append (sample_of h c) (trail (fst w))) (fst w),
        snd w).
Proof.
  intros Hp Hd. unfold dynamic_gestures.
  destruct (Trail.displacement _) as [[dx dy] |]; [|reflexivity].
  specialize (Hd dx dy eq_refl).
  unfold swipe, scroll. rewrite Hp. cbn [andb orb andThen].
  replace (dy <=? - scroll_threshold_px) with false
    by (symmetry; apply Z.leb_gt; unfold scroll_threshold_px; lia).
  replace (scroll_threshold_px <=? dy) with false
    by (symmetry; apply Z.leb_gt; unfold scroll_threshold_px; lia).
  now destruct (_ && _).
Qed.

(** C9, as the code has it.  From the initial state (click timer 0.0) the
    frame with finger vector [0,1,1,0,0], index tip (200,200) and middle tip
    (210,205) at a time [t > 0.12] issues exactly one left click, which sets
    the click timer to [t]; the identical frame at [t + 0.05] issues
    nothing, the click debounce not having elapsed. *)
Theorem first_click_then_debounced (t : Q) :
  (0.12 < t)%Q -> bk LeftClick = true ->
  exists s1 s2,
    process_frame wScr hScr bk (frame_at t click_hand) initial
    = Ok (s1, [LeftClick])
    /\ last_click_time s1 = t
    /\ process_frame wScr hScr bk (frame_at (t + 0.05) click_hand) s1
       = Ok (s2, []).
Proof.
  intros Ht Hb.
  assert (Ht' : (t + 0.05 - t <= click_debounce_sec)%Q)
    by (unfold click_debounce_sec; Lqa.lra).
  remember (t + 0.05)%Q as t' eqn:Et'. clear Et'.
  eexists. eexists. split; [|split].
  - unfold process_frame, frame_at. cbn [hand clock].
    rewrite pause_toggle_not_fist by reflexivity.
    cbn [fst paused set_rest_since initial]. unfold gestures.
    rewrite cursor_move_two_fingers by reflexivity. cbn [andThen].
    rewrite left_click_fires;
      [| reflexivity | reflexivity | reflexivity
       | apply elapsed_true;
         cbn [t_click at_time last_click_time fst set_rest_since initial];
         unfold click_debounce_sec; Lqa.lra
       | assumption].
    cbn [andThen]. rewrite right_click_no_thumb by reflexivity.
    cbn [andThen]. rewrite dynamic_gestures_still; [reflexivity..|].
    intros dx dy. cbn. discriminate.
  - reflexivity.
  - unfold process_frame, frame_at. cbn [hand clock].
    rewrite pause_toggle_not_fist by reflexivity.
    cbn [fst paused set_rest_since set_trail set_last_click_time].
    unfold gestures.
    rewrite cursor_move_two_fingers by reflexivity. cbn [andThen].
    rewrite left_click_debounced
      by (apply elapsed_false;
          cbn [t_click at_time last_click_time fst set_rest_since set_trail
               set_last_click_time];
          exact Ht').
    cbn [andThen]. rewrite right_click_no_thumb by reflexivity.
    cbn [andThen]. rewrite dynamic_gestures_still; [reflexivity..|].
    intros dx dy. cbn. intros [= <- <-]. lia.
Qed.

End Guards.

Lemma first_click_then_debounced_witness :
  exists s1 s2,
    process_frame 1920 1080 backend_ok (frame_at 1 click_hand) initial
    = Ok (s1, [LeftClick])
    /\ last_click_time s1 = 1%Q
    /\ process_frame 1920 1080 backend_ok (frame_at (1 + 0.05) click_hand) s1
       = Ok (s2, []).
Proof.
  apply (first_click_then_debounced 1920 1080 backend_ok 1).
  - reflexivity.
  - reflexivity.
Defined.

(** C9 as stated fails at [t = 0]: the click timer starts at 0.0, so
    [now - last_click_time] is 0, which is not above 0.12; neither the frame
    at 0 nor the frame at 0.05 clicks. *)
Lemma no_click_at_time_zero :
  events (process_frame 1920 1080 backend_ok (frame_at 0 click_hand) initial)
  = []
  /\ events (main_loop 1920 1080 backend_ok
               [frame_at 0 click_hand; frame_at 0.05 click_hand] initial)
     = [].
Proof. vm_compute. split; reflexivity. Qed.

(** ** Debounce windows *)

Lemma count_app (p : Event -> bool) (a b : list Event) :
  count p (a ++ b) = (count p a + count p b)%nat.
Proof. unfold count. now rewrite filter_app, length_app. Qed.

Lemma count_none (p : Event -> bool) (es : list Event) :
  Forall (fun e => p e = false) es -> count p es = 0%nat.
Proof.
  unfold count. induction 1 as [| e es He _ IH]; [reflexivity|].
  cbn. now rewrite He.
Qed.

Lemma prepend_nil (r : Run) : prepend [] r = r.
Proof. now destruct r as [[s evs] | [s evs]]. Qed.

Lemma events_prepend (evs : list Event) (r : Run) :
  events (prepend evs r) = evs ++ events r.
Proof. now destruct r as [[s es] | [s es]]. Qed.

Section WindowFacts.
Variables wScr hScr : Q.
Variable bk : Event -> bool.
Variable cat : Event -> bool.
Variable timer : State -> Q.
Variable lo : Q.

Lemma within_andThen (b : nat) (r : Run) (B : World -> Run) :
  within_run cat timer lo b r -> (forall w, within cat timer lo b w -> within_run cat timer lo b (B w)) ->
  within_run cat timer lo b (r >>= B).
Proof. intros Hr HB. destruct r as [w | w]; cbn; auto. Qed.

(** A block that neither writes the timer nor issues an event of the
    category. *)
Lemma neutral_block (b : nat) (B : World -> Run) :
  keeps timer B -> emits (fun e => cat e = false) B ->
  forall w, within cat timer lo b w -> within_run cat timer lo b (B w).
Proof.
  intros Hk He w [Hc Ht]. specialize (Hk w).
  destruct (He w) as (es & Hes & Hnone). apply count_none in Hnone.
  unfold state_of, events in *.
  destruct (B w) as [w' | w']; cbn [world within_run] in *.
  - split; rewrite Hes, count_app, Hnone, Nat.add_0_r, ?Hk; assumption.
  - now rewrite Hes, count_app, Hnone, Nat.add_0_r.
Qed.

(** A call of the category behind its debounce test, at a reading [now] of
    the window: the test passed, so the timer is older than the window. *)
Lemma gated_call (b : nat) (e : Event) (now iv : Q) (set : State -> State)
      (w : World) :
  (forall s, timer (set s) = now) ->
  (lo <= now)%Q -> (now <= lo + iv)%Q ->
  elapsed now (timer (fst w)) iv = true ->
  within cat timer lo b w -> within_run cat timer lo b (call bk e set w).
Proof.
  intros Hset Hlo Hhi He [Hc Ht]. apply elapsed_true in He.
  assert (Hlt : (count cat (snd w) < b)%nat \/ cat e = false).
  { destruct (Nat.eq_dec (count cat (snd w)) b) as [Heq | Hne]; [|lia].
    specialize (Ht Heq). exfalso. Lqa.lra. }
  assert (Hn : (count cat (snd w ++ [e]) <= b)%nat).
  { rewrite count_app. unfold count at 2. cbn.
    destruct Hlt as [Hlt | Hce]; [destruct (cat e); cbn; lia|].
    rewrite Hce. cbn. lia. }
  unfold call. destruct (bk e); cbn [within_run]; [|exact Hn].
  split; [exact Hn|]. intros _. cbn [fst]. now rewrite Hset.
Qed.

(** A call outside the category that sets the timer to a reading of the
    window. *)
Lemma update_call (b : nat) (e : Event) (now : Q) (set : State -> State)
      (w : World) :
  cat e = false -> (forall s, timer (set s) = now) -> (lo <= now)%Q ->
  within cat timer lo b w -> within_run cat timer lo b (call bk e set w).
Proof.
  intros Hce Hset Hlo [Hc Ht].
  assert (Hn : count cat (snd w ++ [e]) = count cat (snd w)).
  { rewrite count_app. unfold count at 2. cbn. rewrite Hce. cbn. lia. }
  unfold call. destruct (bk e); cbn [within_run]; [split|];
    cbn [fst snd]; rewrite Hn; try assumption.
  intros _. now rewrite Hset.
Qed.

Lemma within_pause_toggle (b : nat) (h : Hand) (c : Clock) (s : State) :
  cat PauseToggle = false ->
  (forall r s, timer (set_rest_since r s) = timer s) ->
  (forall p s, timer (set_paused p s) = timer s) ->
  within cat timer lo b (s, []) -> within cat timer lo b (pause_toggle h c s).
Proof.
  intros Hcat Hr Hp [Hc Ht]. unfold pause_toggle.
  destruct (is_fist _); [destruct (rest_since s); [destruct (held _ _)|]|];
    split; cbn [fst snd] in *; rewrite ?Hr, ?Hp; try assumption.
  - unfold count in *. cbn. now rewrite Hcat.
  - unfold count in *. cbn in *. now rewrite Hcat.
Qed.

(** From frames to the loop: the bound on a frame that starts with no
    events carries over to any run of frames of the window. *)
Lemma main_loop_within (W : Frame -> Prop) :
  (forall f s b, W f -> within cat timer lo b (s, []) ->
                 within_run cat timer lo b (process_frame wScr hScr bk f s)) ->
  forall fs s b, Forall W fs -> within cat timer lo b (s, []) ->
                 (count cat (events (main_loop wScr hScr bk fs s)) <= b)%nat.
Proof.
  intros Hframe fs. induction fs as [| f fs IH]; intros s b HW Hs.
  - cbn. lia.
  - inversion HW as [| ? ? Hf Hfs]; subst. cbn [main_loop].
    specialize (Hframe f s b Hf Hs).
    destruct (process_frame wScr hScr bk f s) as [[s' evs] | w];
      cbn [within_run] in Hframe; [|exact Hframe].
    destruct Hframe as [Hc Ht]. cbn [fst snd] in Hc, Ht.
    rewrite events_prepend, count_app.
    assert (Hrest : (count cat (events (main_loop wScr hScr bk fs s'))
                     <= b - count cat evs)%nat).
    { apply IH; [assumption|]. split; cbn [fst snd].
      - unfold count. cbn. lia.
      - intro H0. apply Ht. unfold count in H0 at 1. cbn in H0. lia. }
    lia.
Qed.

End WindowFacts.

Section ClickWindow.
Variables wScr hScr : Q.
Variable bk : Event -> bool.
Variable lo : Q.

Lemma left_click_within (b : nat) (h : Hand) (c : Clock) (w : World) :
  (lo <= t_click c)%Q -> (t_click c <= lo + click_debounce_sec)%Q ->
  within is_click last_click_time lo b w ->
  within_run is_click last_click_time lo b (left_click bk h c w).
Proof.
  intros Hlo Hhi Hw. unfold left_click.
  destruct (index _ && middle _); [|exact Hw].
  destruct (length_lt _ _ _ && elapsed _ _ _) eqn:E1.
  { apply andb_prop in E1 as [_ E].
    eapply gated_call with (now := t_click c) (iv := click_debounce_sec);
      [reflexivity | exact Hlo | exact Hhi | exact E | exact Hw]. }
  destruct (length_gt _ _ _ && elapsed _ _ _) eqn:E2; [|exact Hw].
  apply andb_prop in E2 as [_ E].
  eapply gated_call with (now := t_click c) (iv := click_debounce_sec);
    [reflexivity | exact Hlo | exact Hhi | exact E | exact Hw].
Qed.

Lemma right_click_within (b : nat) (h : Hand) (c : Clock) (w : World) :
  (lo <= t_rclick c)%Q -> (t_rclick c <= lo + click_debounce_sec)%Q ->
  within is_click last_click_time lo b w ->
  within_run is_click last_click_time lo b (right_click bk h c w).
Proof.
  intros Hlo Hhi Hw. unfold right_click.
  destruct (thumb _ && index _); [|exact Hw].
  destruct (length_lt _ _ _ && elapsed _ _ _) eqn:E1; [|exact Hw].
  apply andb_prop in E1 as [_ E].
  eapply gated_call with (now := t_rclick c) (iv := click_debounce_sec);
    [reflexivity | exact Hlo | exact Hhi | exact E | exact Hw].
Qed.

Lemma process_frame_click_within (f : Frame) (s : State) (b : nat) :
  click_window lo f ->
  within is_click last_click_time lo b (s, []) ->
  within_run is_click last_click_time lo b (process_frame wScr hScr bk f s).
Proof.
  intros [[Hc1 Hc2] [Hr1 Hr2]] Hs. unfold process_frame.
  destruct (hand f) as [h |]; [|exact Hs].
  assert (Hw : within is_click last_click_time lo b
                      (pause_toggle h (clock f) s))
    by (apply within_pause_toggle; auto).
  destruct (paused (fst (pause_toggle h (clock f) s))); [exact Hw|].
  unfold gestures. repeat apply within_andThen.
  - apply (neutral_block is_click last_click_time lo b
             (cursor_move wScr hScr bk h)); [| |exact Hw].
    + now apply cursor_move_keeps.
    + eapply emits_weaken; [|apply cursor_move_emits].
      intros e (x & y & ->). reflexivity.
  - intros w Hw'. now apply left_click_within.
  - intros w Hw'. now apply right_click_within.
  - apply (neutral_block is_click last_click_time lo b
             (dynamic_gestures bk h (clock f))).
    + now apply dynamic_gestures_keeps.
    + eapply emits_weaken; [|apply dynamic_gestures_emits].
      intros e [H | H]; destruct e; try discriminate; reflexivity.
Qed.

End ClickWindow.

Section MotionWindow.
Variables wScr hScr : Q.
Variable bk : Event -> bool.
Variable cat : Event -> bool.
Variables lo iv : Q.

(** The category holds swipes or scrolls only, and its window is no longer
    than the interval of each test that guards one of its events. *)
Hypothesis cat_other :
  forall e, is_swipe e = false -> is_scroll e = false -> cat e = false.
Hypothesis cat_swipe :
  (forall e, is_swipe e = true -> cat e = false)
  \/ (iv <= cooldown_swipe_sec)%Q.
Hypothesis cat_scroll :
  (forall e, is_scroll e = true -> cat e = false)
  \/ (iv <= scroll_debounce_sec)%Q.

Lemma swipe_within (b : nat) (h : Hand) (now : Q) (dx dy : Z) (w : World) :
  (lo <= now)%Q -> (now <= lo + iv)%Q ->
  within cat last_action_time lo b w ->
  within_run cat last_action_time lo b (swipe bk h now dx dy w).
Proof.
  intros Hlo Hhi Hw. unfold swipe.
  destruct (is_palm _ && elapsed _ _ _) eqn:E; [|exact Hw].
  apply andb_prop in E as [_ E].
  destruct cat_swipe as [Hno | Hiv].
  - repeat match goal with
           | |- context [if ?c then _ else _] => destruct c
           end; try exact Hw;
      (eapply update_call with (now := now);
       [apply Hno; reflexivity | reflexivity | exact Hlo | exact Hw]).
  - repeat match goal with
           | |- context [if ?c then _ else _] => destruct c
           end; try exact Hw;
      (eapply gated_call with (now := now) (iv := cooldown_swipe_sec);
       [reflexivity | exact Hlo | Lqa.lra | exact E | exact Hw]).
Qed.

Lemma scroll_within (b : nat) (h : Hand) (now : Q) (dy : Z) (w : World) :
  (lo <= now)%Q -> (now <= lo + iv)%Q ->
  within cat last_action_time lo b w ->
  within_run cat last_action_time lo b (scroll bk h now dy w).
Proof.
  intros Hlo Hhi Hw. unfold scroll.
  destruct (_ && elapsed _ _ _) eqn:E; [|exact Hw].
  apply andb_prop in E as [_ E].
  destruct cat_scroll as [Hno | Hiv].
  - repeat match goal with
           | |- context [if ?c then _ else _] => destruct c
           end; try exact Hw;
      (eapply update_call with (now := now);
       [apply Hno; reflexivity | reflexivity | exact Hlo | exact Hw]).
  - repeat match goal with
           | |- context [if ?c then _ else _] => destruct c
           end; try exact Hw;
      (eapply gated_call with (now := now) (iv := scroll_debounce_sec);
       [reflexivity | exact Hlo | Lqa.lra | exact E | exact Hw]).
Qed.

Lemma dynamic_gestures_within (b : nat) (h : Hand) (c : Clock) (w : World) :
  (lo <= t_now c)%Q -> (t_now c <= lo + iv)%Q ->
  within cat last_action_time lo b w ->
  within_run cat last_action_time lo b (dynamic_gestures bk h c w).
Proof.
  intros Hlo Hhi Hw. unfold dynamic_gestures.
  destruct (Trail.displacement _) as [[dx dy] |]; [|exact Hw].
  apply within_andThen.
  - now apply swipe_within.
  - intros w' Hw'. now apply scroll_within.
Qed.

Lemma process_frame_motion_within (f : Frame) (s : State) (b : nat) :
  motion_window lo iv f ->
  within cat last_action_time lo b (s, []) ->
  within_run cat last_action_time lo b (process_frame wScr hScr bk f s).
Proof.
  intros [Hlo Hhi] Hs. unfold process_frame.
  destruct (hand f) as [h |]; [|exact Hs].
  assert (Hw : within cat last_action_time lo b (pause_toggle h (clock f) s))
    by (apply within_pause_toggle; auto).
  destruct (paused (fst (pause_toggle h (clock f) s))); [exact Hw|].
  unfold gestures. repeat apply within_andThen.
  - apply (neutral_block cat last_action_time lo b
             (cursor_move wScr hScr bk h)); [| |exact Hw].
    + now apply cursor_move_keeps.
    + eapply emits_weaken; [|apply cursor_move_emits].
      intros e (x & y & ->). now apply cat_other.
  - apply (neutral_block cat last_action_time lo b).
    + now apply left_click_keeps.
    + eapply emits_weaken; [|apply left_click_emits].
      intros e [-> | ->]; now apply cat_other.
  - apply (neutral_block cat last_action_time lo b).
    + now apply right_click_keeps.
    + eapply emits_weaken; [|apply right_click_emits].
      intros e ->; now apply cat_other.
  - intros w Hw'. now apply dynamic_gestures_within.
Qed.

End MotionWindow.

(** Each block issues an event exactly when its pose and its geometry hold
    and its own debounce test passes. *)
Lemma snoc_differs (l : list Event) (e : Event) : l ++ [e] <> l.
Proof.
  intro H. apply (f_equal (@length Event)) in H.
  rewrite length_app in H. cbn in H. lia.
Qed.

Ltac trigger_cases :=
  cbn [andb orb]; rewrite ?events_call; cbn [events world];
  (split;
   [ let H := fresh "H" in
     intro H; first [ exfalso; apply H; reflexivity
                    | repeat split; auto ]
   | let H := fresh "H" in
     intro H; first [ apply snoc_differs
                    | exfalso; intuition discriminate ] ]).

Lemma left_click_trigger (bk : Event -> bool) (h : Hand) (c : Clock)
      (w : World) :
  events (left_click bk h c w) <> snd w
  <-> (index (fingers h) = true /\ middle (fingers h) = true)
      /\ ((findDistance (lm8 h) (lm12 h) < 35)%R
          \/ (60 < findDistance (lm8 h) (lm12 h))%R)
      /\ (0.12 < t_click c - last_click_time (fst w))%Q.
Proof.
  rewrite <- (length_lt_spec _ _ 35), <- (length_gt_spec _ _ 60) by lia.
  rewrite <- elapsed_true.
  unfold left_click. change click_length with 35.
  change double_click_threshold with 60. change click_debounce_sec with 0.12%Q.
  destruct (index (fingers h)), (middle (fingers h)),
    (length_lt (lm8 h) (lm12 h) 35), (length_gt (lm8 h) (lm12 h) 60),
    (elapsed (t_click c) (last_click_time (fst w)) 0.12);
    trigger_cases.
Qed.

Lemma right_click_trigger (bk : Event -> bool) (h : Hand) (c : Clock)
      (w : World) :
  events (right_click bk h c w) <> snd w
  <-> (thumb (fingers h) = true /\ index (fingers h) = true)
      /\ (findDistance (lm4 h) (lm8 h) < 30)%R
      /\ (0.12 < t_rclick c - last_click_time (fst w))%Q.
Proof.
  rewrite <- (length_lt_spec _ _ 30) by lia.
  rewrite <- elapsed_true.
  unfold right_click. change right_click_length with 30.
  change click_debounce_sec with 0.12%Q.
  destruct (thumb (fingers h)), (index (fingers h)),
    (length_lt (lm4 h) (lm8 h) 30),
    (elapsed (t_rclick c) (last_click_time (fst w)) 0.12);
    trigger_cases.
Qed.

Lemma swipe_trigger (bk : Event -> bool) (h : Hand) (now : Q) (dx dy : Z)
      (w : World) :
  events (swipe bk h now dx dy w) <> snd w
  <-> is_palm (fingers h) = true
      /\ ((dx <= - 120 \/ 120 <= dx) /\ Z.abs dy < 60)
      /\ (0.7 < now - last_action_time (fst w))%Q.
Proof.
  rewrite <- elapsed_true.
  unfold swipe. rewrite half_threshold.
  change (- swipe_threshold_px) with (- 120).
  change swipe_threshold_px with 120.
  change cooldown_swipe_sec with 0.7%Q.
  destruct (is_palm (fingers h)),
    (elapsed now (last_action_time (fst w)) 0.7),
    (Z.leb_spec dx (- 120)), (Z.leb_spec 120 dx), (Z.ltb_spec (Z.abs dy) 60);
    cbn [andb orb]; rewrite ?events_call; cbn [events world];
    (split;
     [ intro Hev; first [ exfalso; apply Hev; reflexivity
                        | repeat split; auto; lia ]
     | intro Hc; first [ apply snoc_differs
                       | exfalso; destruct Hc as (Hc1 & [Hc2 Hc3] & Hc4);
                         first [discriminate | lia] ] ]).
Qed.

Lemma scroll_trigger (bk : Event -> bool) (h : Hand) (now : Q) (dy : Z)
      (w : World) :
  events (scroll bk h now dy w) <> snd w
  <-> scroll_pose (fingers h) = true
      /\ (dy <= - 80 \/ 80 <= dy)
      /\ (0.2 < now - last_action_time (fst w))%Q.
Proof.
  rewrite <- elapsed_true.
  unfold scroll, scroll_pose.
  change (- scroll_threshold_px) with (- 80).
  change scroll_threshold_px with 80.
  change scroll_debounce_sec with 0.2%Q.
  destruct (is_palm (fingers h) || index (fingers h) && (sum (fingers h) <=? 2)),
    (elapsed now (last_action_time (fst w)) 0.2),
    (Z.leb_spec dy (- 80)), (Z.leb_spec 80 dy);
    cbn [andb orb]; rewrite ?events_call; cbn [events world];
    (split;
     [ intro Hev; first [ exfalso; apply Hev; reflexivity
                        | repeat split; auto; lia ]
     | intro Hc; first [ apply snoc_differs
                       | exfalso; destruct Hc as (Hc1 & Hc2 & Hc3);
                         first [discriminate | lia] ] ]).
Qed.

(** C2, as the code has it.  The debounce test lets a trigger through
    exactly when [now - last] is strictly above the interval.  Each block
    issues its event if and only if its pose and geometry hold and that
    test passes with the block's own interval: 0.12 for the left/double
    click block and for the right click block, 0.7 for swipes, 0.2 for
    scrolls.  Hence any run of frames whose click-site readings all lie in
    a window of length 0.12 issues at most one click event (left, double or
    right); with the swipe readings in a window of length 0.7, at most one
    swipe; with the scroll readings in a window of length 0.2, at most one
    scroll. *)
Theorem debounce_policy :
  (forall now last iv : Q,
      elapsed now last iv = true <-> (iv < now - last)%Q)
  /\ (forall bk h c w,
         (events (left_click bk h c w) <> snd w
          <-> (index (fingers h) = true /\ middle (fingers h) = true)
              /\ ((findDistance (lm8 h) (lm12 h) < 35)%R
                  \/ (60 < findDistance (lm8 h) (lm12 h))%R)
              /\ (0.12 < t_click c - last_click_time (fst w))%Q)
         /\ (events (right_click bk h c w) <> snd w
             <-> (thumb (fingers h) = true /\ index (fingers h) = true)
                 /\ (findDistance (lm4 h) (lm8 h) < 30)%R
                 /\ (0.12 < t_rclick c - last_click_time (fst w))%Q))
  /\ (forall bk h now dx dy w,
         (events (swipe bk h now dx dy w) <> snd w
          <-> is_palm (fingers h) = true
              /\ ((dx <= - 120 \/ 120 <= dx) /\ Z.abs dy < 60)
              /\ (0.7 < now - last_action_time (fst w))%Q)
         /\ (events (scroll bk h now dy w) <> snd w
             <-> scroll_pose (fingers h) = true
                 /\ (dy <= - 80 \/ 80 <= dy)
                 /\ (0.2 < now - last_action_time (fst w))%Q))
  /\ (forall wScr hScr bk fs s t0,
         Forall (click_window t0) fs ->
         (count is_click (events (main_loop wScr hScr bk fs s)) <= 1)%nat)
  /\ (forall wScr hScr bk fs s t0,
         Forall (motion_window t0 cooldown_swipe_sec) fs ->
         (count is_swipe (events (main_loop wScr hScr bk fs s)) <= 1)%nat)
  /\ (forall wScr hScr bk fs s t0,
         Forall (motion_window t0 scroll_debounce_sec) fs ->
         (count is_scroll (events (main_loop wScr hScr bk fs s)) <= 1)%nat).
Proof.
  split; [exact elapsed_true|]. split; [|split; [|split; [|split]]].
  - intros bk h c w. split;
      [apply left_click_trigger | apply right_click_trigger].
  - intros bk h now dx dy w. split;
      [apply swipe_trigger | apply scroll_trigger].
  - intros wScr hScr bk fs s t0 HW.
    apply (main_loop_within wScr hScr bk is_click last_click_time t0
             (click_window t0)); [|exact HW|].
    + intros f s' b. apply process_frame_click_within.
    + split; cbn; [lia | discriminate].
  - intros wScr hScr bk fs s t0 HW.
    apply (main_loop_within wScr hScr bk is_swipe last_action_time t0
             (motion_window t0 cooldown_swipe_sec)); [|exact HW|].
    + intros f s' b. apply process_frame_motion_within.
      * intros e H1 _. exact H1.
      * right. apply Qle_refl.
      * left. intros e H. now destruct e.
    + split; cbn; [lia | discriminate].
  - intros wScr hScr bk fs s t0 HW.
    apply (main_loop_within wScr hScr bk is_scroll last_action_time t0
             (motion_window t0 scroll_debounce_sec)); [|exact HW|].
    + intros f s' b. apply process_frame_motion_within.
      * intros e _ H2. exact H2.
      * left. intros e H. now destruct e.
      * right. apply Qle_refl.
    + split; cbn; [lia | discriminate].
Qed.

Lemma debounce_policy_witness :
  (count is_click
     (events (main_loop 1920 1080 backend_ok
                [frame_at 1 click_hand; frame_at 1.0625 click_hand] initial))
   <= 1)%nat.
Proof.
  apply (proj1 (proj2 (proj2 (proj2 debounce_policy))) 1920%Q 1080%Q
           backend_ok
           [frame_at 1 click_hand; frame_at 1.0625 click_hand] initial 1%Q).
  repeat constructor; vm_compute; discriminate.
Defined.

(** C2 as stated fails at the boundary: with [now - last] equal to the
    interval the test refuses the trigger, and the frame that would click
    at exactly 0.12 s issues nothing. *)
Lemma debounce_boundary_refused :
  (click_debounce_sec <= 0.12 - last_click_time initial)%Q
  /\ elapsed 0.12 (last_click_time initial) click_debounce_sec = false
  /\ events (process_frame 1920 1080 backend_ok (frame_at 0.12 click_hand)
                           initial)
     = [].
Proof.
  split; [vm_compute; discriminate|]. split; vm_compute; reflexivity.
Qed.

(** ** Holding the fist *)

Section FistHold.
Variables wScr hScr : Q.
Variable bk : Event -> bool.

Lemma fist_arms (f : Frame) (s : State) :
  fist_frame f = true -> rest_since s = None ->
  exists s', process_frame wScr hScr bk f s = Ok (s', [])
             /\ rest_since s' = Some (t_rest (clock f))
             /\ paused s' = paused s.
Proof.
  unfold fist_frame, process_frame, pause_toggle.
  destruct (hand f) as [h |]; [|discriminate]. intros Hf Hr.
  rewrite Hf, Hr. cbn [fst paused set_rest_since].
  destruct (paused s) eqn:Hp.
  - eexists. split; [reflexivity|]. cbn. auto.
  - rewrite gestures_fist by assumption.
    eexists. split; [reflexivity|]. cbn. auto.
Qed.

Lemma fist_waits (f : Frame) (s : State) (since : Q) :
  rest_since s = Some since -> waits_from since f ->
  exists s', process_frame wScr hScr bk f s = Ok (s', [])
             /\ rest_since s' = Some since
             /\ paused s' = paused s.
Proof.
  unfold waits_from, fist_frame, process_frame, pause_toggle.
  destruct (hand f) as [h |]; [|intros _ [? _]; discriminate].
  intros Hr [Hf Hh]. apply held_false in Hh.
  rewrite Hf, Hr, Hh. cbn [fst].
  destruct (paused s) eqn:Hp.
  - exists s. auto.
  - rewrite gestures_fist by assumption.
    eexists. split; [reflexivity|]. cbn. auto.
Qed.

Lemma fist_toggles (f : Frame) (s : State) (since : Q) :
  fist_frame f = true -> rest_since s = Some since ->
  (rest_toggle_hold_sec <= t_rest (clock f) - since)%Q ->
  exists s', process_frame wScr hScr bk f s = Ok (s', [PauseToggle])
             /\ rest_since s' = None
             /\ paused s' = negb (paused s).
Proof.
  unfold fist_frame, process_frame, pause_toggle.
  destruct (hand f) as [h |]; [|discriminate].
  intros Hf Hr Hh. apply held_true in Hh.
  rewrite Hf, Hr, Hh. cbn [fst paused set_rest_since set_paused].
  destruct (negb (paused s)) eqn:Hp.
  - eexists. split; [reflexivity|]. cbn. auto.
  - rewrite gestures_fist by assumption.
    eexists. split; [reflexivity|]. cbn. auto.
Qed.

Lemma prepend_app (a b : list Event) (r : Run) :
  prepend a (prepend b r) = prepend (a ++ b) r.
Proof. destruct r as [[s es] | [s es]]; cbn; now rewrite app_assoc. Qed.

Lemma main_loop_app (fs1 fs2 : list Frame) (s : State) :
  main_loop wScr hScr bk (fs1 ++ fs2) s
  = match main_loop wScr hScr bk fs1 s with
    | Ok (s', evs) => prepend evs (main_loop wScr hScr bk fs2 s')
    | Raised w => Raised w
    end.
Proof.
  revert s. induction fs1 as [| f fs1 IH]; intro s; cbn [app main_loop].
  - now rewrite prepend_nil.
  - destruct (process_frame wScr hScr bk f s) as [[s1 e1] | w];
      [|reflexivity].
    rewrite IH.
    destruct (main_loop wScr hScr bk fs1 s1) as [[s2 e2] | [s2 e2]];
      cbn [prepend]; [|reflexivity].
    apply prepend_app.
Qed.

(** While the hold is short of the threshold nothing is issued and the
    pause state stays as it is. *)
Lemma waiting_run (fs : list Frame) (s : State) (since : Q) :
  rest_since s = Some since -> Forall (waits_from since) fs ->
  exists s', main_loop wScr hScr bk fs s = Ok (s', [])
             /\ rest_since s' = Some since
             /\ paused s' = paused s.
Proof.
  revert s. induction fs as [| f fs IH]; intros s Hr HW.
  - exists s. auto.
  - inversion HW as [| ? ? Hf Hfs]; subst.
    destruct (fist_waits f s since Hr Hf) as (s1 & H1 & Hr1 & Hp1).
    destruct (IH s1 Hr1 Hfs) as (s2 & H2 & Hr2 & Hp2).
    exists s2. cbn [main_loop]. rewrite H1, H2. cbn.
    repeat split; congruence.
Qed.

(** C1, as the code has it.  A fist run that arms [rest_since] at its first
    frame toggles the pause at the first frame at which the hold has lasted
    0.35 s, and at no frame before.  The toggle clears [rest_since] and the
    next fist frame arms it again: the toggle of the run is the only one as
    long as the frames after that re-arming frame come less than 0.35 s
    after it. *)
Theorem fist_hold_toggles_once (s : State) (f0 : Frame) (pre : list Frame)
        (f : Frame) (post : list Frame) :
  rest_since s = None ->
  fist_frame f0 = true ->
  Forall (waits_from (t_rest (clock f0))) pre ->
  fist_frame f = true ->
  (rest_toggle_hold_sec <= t_rest (clock f) - t_rest (clock f0))%Q ->
  match post with
  | [] => True
  | g :: post' =>
      fist_frame g = true /\ Forall (waits_from (t_rest (clock g))) post'
  end ->
  events (main_loop wScr hScr bk (f0 :: pre) s) = []
  /\ let r := main_loop wScr hScr bk (f0 :: pre ++ f :: post) s in
     raised r = false
     /\ events r = [PauseToggle]
     /\ count is_toggle (events r) = 1%nat
     /\ paused (state_of r) = negb (paused s).
Proof.
  intros Hr Hf0 Hpre Hf Hheld Hpost.
  destruct (fist_arms f0 s Hf0 Hr) as (s1 & H1 & Hr1 & Hp1).
  destruct (waiting_run pre s1 _ Hr1 Hpre) as (s2 & H2 & Hr2 & Hp2).
  destruct (fist_toggles f s2 _ Hf Hr2 Hheld) as (s3 & H3 & Hr3 & Hp3).
  split.
  - cbn [main_loop]. now rewrite H1, H2.
  - assert (Hrest : exists s4, main_loop wScr hScr bk post s3 = Ok (s4, [])
                               /\ paused s4 = paused s3).
    { destruct post as [| g post'].
      - exists s3. auto.
      - destruct Hpost as [Hg Hpost'].
        destruct (fist_arms g s3 Hg Hr3) as (s4 & H4 & Hr4 & Hp4).
        destruct (waiting_run post' s4 _ Hr4 Hpost') as (s5 & H5 & Hr5 & Hp5).
        exists s5. cbn [main_loop]. rewrite H4, H5. cbn.
        split; congruence. }
    destruct Hrest as (s4 & H4 & Hp4).
    cbn zeta. cbn [main_loop]. rewrite H1, main_loop_app, H2.
    cbn [main_loop]. rewrite H3, H4. cbn.
    repeat split. congruence.
Qed.

End FistHold.

Lemma fist_hold_toggles_once_witness :
  let r := main_loop 1920 1080 backend_ok
             [frame_at 0 fist_hand; frame_at 0.1 fist_hand;
              frame_at 0.2 fist_hand; frame_at 0.4 fist_hand;
              frame_at 0.5 fist_hand; frame_at 0.6 fist_hand] initial in
  raised r = false
  /\ events r = [PauseToggle]
  /\ count is_toggle (events r) = 1%nat
  /\ paused (state_of r) = true.
Proof.
  apply (proj2 (fist_hold_toggles_once 1920 1080 backend_ok initial
                  (frame_at 0 fist_hand)
                  [frame_at 0.1 fist_hand; frame_at 0.2 fist_hand]
                  (frame_at 0.4 fist_hand)
                  [frame_at 0.5 fist_hand; frame_at 0.6 fist_hand]
                  eq_refl eq_refl
                  ltac:(repeat constructor)
                  eq_refl
                  ltac:(vm_compute; discriminate)
                  ltac:(repeat constructor))).
Defined.

(** C1 as stated fails when the fist stays closed: held from 0 to 0.9 s
    without any other frame in between, it pauses at 0.4 s and resumes at
    0.9 s, two toggles in one hold. *)
Lemma long_fist_hold_toggles_twice :
  let fs := [frame_at 0 fist_hand; frame_at 0.4 fist_hand;
             frame_at 0.5 fist_hand; frame_at 0.9 fist_hand] in
  let r := main_loop 1920 1080 backend_ok fs initial in
  Forall (fun f => fist_frame f = true) fs
  /\ events r = [PauseToggle; PauseToggle]
  /\ count is_toggle (events r) <> 1%nat
  /\ paused (state_of r) = paused initial.
Proof.
  cbn zeta. split; [repeat constructor|].
  vm_compute. repeat split. discriminate.
Qed.

(** ** Worked examples *)

(** In the dead zone (tips 50 pixels apart) a frame issues nothing. *)
Example dead_zone_frame :
  process_frame 1920 1080 backend_ok (frame_at 1 dead_zone_hand) initial
  = Ok (set_trail [(200, 200, 1%Q)] initial, []).
Proof. reflexivity. Qed.

(** Tips 80 pixels apart: a double click. *)
Example spread_frame :
  events (process_frame 1920 1080 backend_ok (frame_at 1 spread_hand) initial)
  = [DoubleClick].
Proof. reflexivity. Qed.

(** After six pushes the displacement is taken between the second and the
    sixth sample: the first one has been evicted. *)
Example six_pushes :
  let xs := [(0, 0, 0%Q); (10, 1, 0.1%Q); (20, 2, 0.2%Q); (30, 3, 0.3%Q);
             (40, 4, 0.4%Q); (50, 5, 0.5%Q)] in
  Trail.pushes xs = tl xs
  /\ Trail.displacement (Trail.pushes xs) = Some (40, 4).
Proof. split; reflexivity. Qed.

(** A swipe and a scroll 0.3 s apart both fire: they share the timer but
    not the interval. *)
Example swipe_then_scroll :
  events (main_loop 1920 1080 backend_ok
            [frame_at 1 (palm_hand (300, 200));
             frame_at 1.1 (palm_hand (150, 210));
             frame_at 1.4 (palm_hand (150, 100))] initial)
  = [SwipeLeft; ScrollUp].
Proof. reflexivity. Qed.

(** * Further properties of the loop *)

(** ** The loop around the frame body *)

Lemma quit_key_low_byte (k : Z) :
  quit_key k = true <-> k mod 256 = 27 \/ k mod 256 = 113.
Proof.
  unfold quit_key. cbv zeta.
  change 255 with (Z.ones 8). rewrite Z.land_ones by lia.
  change (2 ^ 8) with 256.
  rewrite orb_true_iff, !Z.eqb_eq. reflexivity.
Qed.

Lemma session_main_loop (wScr hScr : Q) (bk : Event -> bool)
      (rs : list Read) (s : State) :
  session wScr hScr bk rs s = main_loop wScr hScr bk (processed rs) s.
Proof.
  revert s. induction rs as [| [| f key] rs IH]; intro s; try reflexivity.
  cbn [session processed]. destruct (quit_key key).
  - cbn [main_loop].
    destruct (process_frame wScr hScr bk f s) as [[s' evs] | w];
      [|reflexivity].
    cbn. now rewrite app_nil_r.
  - cbn [main_loop].
    destruct (process_frame wScr hScr bk f s) as [[s' evs] | w];
      [|reflexivity].
    now rewrite IH.
Qed.

Lemma processed_after_quit (pre post : list Read) (f : Frame) (key : Z) :
  quit_key key = true ->
  processed (pre ++ Grabbed f key :: post) = processed (pre ++ [Grabbed f key]).
Proof.
  intro Hq. induction pre as [| [| g k] pre IH]; cbn [app processed].
  - now rewrite Hq.
  - reflexivity.
  - destruct (quit_key k); [reflexivity | now rewrite IH].
Qed.

Lemma processed_after_end (pre post : list Read) :
  processed (pre ++ EndOfStream :: post) = processed pre.
Proof.
  induction pre as [| [| g k] pre IH]; cbn [app processed]; try reflexivity.
  destruct (quit_key k); [reflexivity | now rewrite IH].
Qed.

(** X1.  The loop of [main] runs the frame body on the frames up to the
    first failed read or the first quit key, the frame that ends with the
    quit key included; whatever comes after has no effect.  The quit test
    looks at the low byte of the key code only: it holds exactly for 27
    (ESC) and 113 (lower-case q). *)
Theorem session_stops (wScr hScr : Q) (bk : Event -> bool) :
  (forall rs s,
      session wScr hScr bk rs s = main_loop wScr hScr bk (processed rs) s)
  /\ (forall pre post f key s,
         quit_key key = true ->
         session wScr hScr bk (pre ++ Grabbed f key :: post) s
         = session wScr hScr bk (pre ++ [Grabbed f key]) s)
  /\ (forall pre post s,
         session wScr hScr bk (pre ++ EndOfStream :: post) s
         = session wScr hScr bk pre s)
  /\ (forall key,
         quit_key key = true <-> key mod 256 = 27 \/ key mod 256 = 113).
Proof.
  split; [apply session_main_loop|]. split; [|split].
  - intros pre post f key s Hq.
    now rewrite !session_main_loop, processed_after_quit.
  - intros pre post s. now rewrite !session_main_loop, processed_after_end.
  - apply quit_key_low_byte.
Qed.

Lemma session_stops_witness :
  session 1920 1080 backend_ok
          ([Grabbed (frame_at 1 click_hand) (-1)]
             ++ Grabbed (frame_at 2 dead_zone_hand) 27
             :: [Grabbed (frame_at 3 click_hand) (-1)]) initial
  = session 1920 1080 backend_ok
            ([Grabbed (frame_at 1 click_hand) (-1)]
               ++ [Grabbed (frame_at 2 dead_zone_hand) 27]) initial.
Proof.
  apply (proj1 (proj2 (session_stops 1920 1080 backend_ok))).
  reflexivity.
Defined.

(** ** The FPS counter *)

Lemma py_int_inverse (q : Q) (n : Z) :
  (0 < q)%Q -> 1 <= n ->
  (n <= py_int (1 / q) <-> (q * inject_Z n <= 1)%Q).
Proof.
  destruct q as [a b]. unfold Qlt. cbn. intros Ha Hn.
  destruct a as [| a | a]; try lia.
  unfold py_int, Qdiv, Qmult, Qinv, Qle. cbn -[Z.mul Z.quot Z.div Pos.mul].
  rewrite Pos2Z.inj_mul, !Z.mul_1_l, !Z.mul_1_r.
  rewrite Z.quot_div_nonneg by lia. split; intro H.
  - assert (Hd := Z.mul_div_le (Zpos b) (Zpos a) ltac:(lia)). nia.
  - apply Z.div_le_lower_bound; lia.
Qed.

(** X2.  The FPS shown is never negative and is 0 when the clock has not
    advanced since the last frame (the division is then skipped).  It
    reaches [n >= 1] exactly when the frame took at most [1/n] seconds. *)
Theorem fps_display (cTime pTime : Q) :
  0 <= shown_fps cTime pTime
  /\ ((cTime - pTime <= 0)%Q -> shown_fps cTime pTime = 0)
  /\ (forall n, 1 <= n ->
        (n <= shown_fps cTime pTime
         <-> (0 < cTime - pTime)%Q
             /\ ((cTime - pTime) * inject_Z n <= 1)%Q)).
Proof.
  unfold shown_fps, fps.
  remember (cTime - pTime)%Q as dt eqn:Hdt. clear Hdt.
  destruct (Qltb 0 dt) eqn:E;
    [apply Qltb_true in E | apply Qltb_false in E].
  - split; [|split].
    + unfold py_int. apply Z.quot_pos; [|lia].
      destruct dt as [a b]. unfold Qlt in E. cbn in E.
      destruct a as [| a | a]; try lia. cbn. lia.
    + intro H. exfalso. Lqa.lra.
    + intros n Hn. rewrite (py_int_inverse _ n E Hn). tauto.
  - split; [reflexivity|]. split; [reflexivity|].
    intros n Hn. cbn. split; [lia|]. intros [H _]. exfalso. Lqa.lra.
Qed.

Lemma fps_display_witness : shown_fps 0.5 0.5 = 0.
Proof.
  apply (proj1 (proj2 (fps_display 0.5 0.5))). vm_compute. discriminate.
Defined.

(** ** One event per channel, in a fixed order *)

Section Shape.
Variables wScr hScr : Q.
Variable bk : Event -> bool.

Lemma one_nothing (P : Event -> Prop) (w : World) :
  exists es, events (Ok w) = snd w ++ es
             /\ (length es <= 1)%nat /\ Forall P es.
Proof.
  exists []. split; [now rewrite app_nil_r|]. split; [cbn; lia | constructor].
Qed.

Lemma one_call (P : Event -> Prop) (e : Event) (k : State -> State)
      (w : World) :
  P e ->
  exists es, events (call bk e k w) = snd w ++ es
             /\ (length es <= 1)%nat /\ Forall P es.
Proof.
  intro He. exists [e]. split; [apply events_call|].
  split; [cbn; lia | now repeat constructor].
Qed.

Lemma andThen_one (P : Event -> Prop) (r : Run) (B : World -> Run) :
  one P B ->
  exists es, events (r >>= B) = events r ++ es
             /\ (length es <= 1)%nat /\ Forall P es.
Proof.
  intro HB. destruct r as [w | w]; cbn [andThen].
  - apply HB.
  - exists []. split; [now rewrite app_nil_r|].
    split; [cbn; lia | constructor].
Qed.

Ltac one_cases :=
  repeat match goal with
         | |- context [if ?c then _ else _] => destruct c
         end;
  first [ apply one_nothing | apply one_call; cbn; auto ].

Lemma left_click_one (h : Hand) (c : Clock) :
  one (fun e => e = LeftClick \/ e = DoubleClick) (left_click bk h c).
Proof. intro w. unfold left_click. one_cases. Qed.

Lemma right_click_one (h : Hand) (c : Clock) :
  one (fun e => e = RightClick) (right_click bk h c).
Proof. intro w. unfold right_click. one_cases. Qed.

Lemma cursor_move_one (h : Hand) :
  one (fun e => is_move e = true) (cursor_move wScr hScr bk h).
Proof.
  intro w. unfold cursor_move.
  destruct (index (fingers h) && (sum (fingers h) =? 1));
    [|apply one_nothing].
  unfold safe_move_mouse.
  match goal with
  | |- context [if ?c then _ else _] => destruct c
  end; cbn; eexists; (split; [reflexivity|]);
    (split; [cbn; lia | now repeat constructor]).
Qed.

(** A swipe that returns has just set the timer, so the scroll test that
    follows it in the same frame fails. *)
Lemma dynamic_gestures_one (h : Hand) (c : Clock) :
  one (fun e => is_swipe e = true \/ is_scroll e = true)
      (dynamic_gestures bk h c).
Proof.
  intro w. unfold dynamic_gestures.
  destruct (Trail.displacement _) as [[dx dy] |];
    [|apply (one_nothing _ (_, snd w))].
  set (w1 := (set_trail _ _, snd w)). change (snd w) with (snd w1).
  generalize w1. clear w1. intro w1.
  assert (Hscroll : forall w',
             exists es, events (scroll bk h (t_now c) dy w') = snd w' ++ es
                        /\ (length es <= 1)%nat
                        /\ Forall (fun e => is_swipe e = true
                                            \/ is_scroll e = true) es).
  { intro w'. unfold scroll. one_cases. }
  assert (Hquiet : forall s evs,
             scroll bk h (t_now c) dy
                    (set_last_action_time (t_now c) s, evs)
             = Ok (set_last_action_time (t_now c) s, evs)).
  { intros s evs. unfold scroll. cbn [fst last_action_time
                                       set_last_action_time].
    rewrite elapsed_same by (unfold scroll_debounce_sec; Lqa.lra).
    now rewrite andb_false_r. }
  unfold swipe.
  destruct (is_palm _ && elapsed _ _ _); [|apply Hscroll].
  destruct (_ && _).
  { unfold call. destruct (bk SwipeLeft); cbn [andThen].
    - rewrite Hquiet. exists [SwipeLeft]. split; [reflexivity|].
      split; [cbn; lia | repeat constructor; now left].
    - exists [SwipeLeft]. split; [reflexivity|].
      split; [cbn; lia | repeat constructor; now left]. }
  destruct (_ && _); [|apply Hscroll].
  unfold call. destruct (bk SwipeRight); cbn [andThen].
  - rewrite Hquiet. exists [SwipeRight]. split; [reflexivity|].
    split; [cbn; lia | repeat constructor; now left].
  - exists [SwipeRight]. split; [reflexivity|].
    split; [cbn; lia | repeat constructor; now left].
Qed.

Lemma pause_toggle_one (h : Hand) (c : Clock) (s : State) :
  (length (snd (pause_toggle h c s)) <= 1)%nat
  /\ Forall (fun e => e = PauseToggle) (snd (pause_toggle h c s)).
Proof.
  unfold pause_toggle.
  destruct (is_fist _); [destruct (rest_since s); [destruct (held _ _)|]|];
    cbn; split; try lia; repeat constructor.
Qed.

(** X3.  The events of one frame come in a fixed order, at most one of
    each kind: the pause flip, the mouse move, a left or double click, a
    right click, a swipe or a scroll.  In particular a frame never issues a
    swipe and a scroll together, nor a left and a double click. *)
Theorem frame_shape (f : Frame) (s : State) :
  exists t m l r d,
    events (process_frame wScr hScr bk f s) = t ++ m ++ l ++ r ++ d
    /\ ((length t <= 1)%nat /\ Forall (fun e => e = PauseToggle) t)
    /\ ((length m <= 1)%nat /\ Forall (fun e => is_move e = true) m)
    /\ ((length l <= 1)%nat
        /\ Forall (fun e => e = LeftClick \/ e = DoubleClick) l)
    /\ ((length r <= 1)%nat /\ Forall (fun e => e = RightClick) r)
    /\ ((length d <= 1)%nat
        /\ Forall (fun e => is_swipe e = true \/ is_scroll e = true) d).
Proof.
  unfold process_frame. destruct (hand f) as [h |].
  2:{ exists [], [], [], [], [].
      repeat split; first [cbn; lia | constructor]. }
  pose proof (pause_toggle_one h (clock f) s) as [Ht1 Ht2].
  destruct (paused (fst (pause_toggle h (clock f) s))).
  { exists (snd (pause_toggle h (clock f) s)), [], [], [], [].
    cbn [events world app]. rewrite app_nil_r.
    repeat split; first [assumption | cbn; lia | constructor]. }
  unfold gestures.
  destruct (andThen_one _
              (cursor_move wScr hScr bk h (pause_toggle h (clock f) s)
               >>= left_click bk h (clock f) >>= right_click bk h (clock f))
              _ (dynamic_gestures_one h (clock f))) as (d & -> & Hd).
  destruct (andThen_one _
              (cursor_move wScr hScr bk h (pause_toggle h (clock f) s)
               >>= left_click bk h (clock f))
              _ (right_click_one h (clock f))) as (r & -> & Hr).
  destruct (andThen_one _
              (cursor_move wScr hScr bk h (pause_toggle h (clock f) s))
              _ (left_click_one h (clock f))) as (l & -> & Hl).
  destruct (cursor_move_one h (pause_toggle h (clock f) s))
    as (m & -> & Hm).
  exists (snd (pause_toggle h (clock f) s)), m, l, r, d.
  split; [now rewrite <- !app_assoc|]. tauto.
Qed.

End Shape.

(** ** The pointer mapper *)

Lemma interp_range (x x0 x1 f1 : Q) :
  (x0 < x1)%Q -> (0 <= f1)%Q ->
  (0 <= Pointer.interp x x0 x1 0 f1)%Q
  /\ (Pointer.interp x x0 x1 0 f1 <= f1)%Q.
Proof.
  intros Hx Hf. unfold Pointer.interp.
  destruct (Qle_bool x x0) eqn:E0; [split; Lqa.lra|].
  destruct (Qle_bool x1 x) eqn:E1; [split; Lqa.lra|].
  apply not_true_iff_false in E0, E1. rewrite Qle_bool_iff in E0, E1.
  apply Qnot_le_lt in E0, E1.
  assert (Hd : (0 < x1 - x0)%Q) by Lqa.lra.
  assert (Hk : (0 <= (f1 - 0) / (x1 - x0))%Q).
  { apply Qle_shift_div_l; [exact Hd | Lqa.lra]. }
  assert (Hfull : ((x1 - x0) * ((f1 - 0) / (x1 - x0)) == f1)%Q).
  { rewrite Qmult_div_r; Lqa.lra. }
  split.
  - assert (H := Qmult_le_0_compat (x - x0) _ ltac:(Lqa.lra) Hk). Lqa.lra.
  - assert (H := Qmult_le_compat_r (x - x0) (x1 - x0) _ ltac:(Lqa.lra) Hk).
    Lqa.lra.
Qed.

Lemma interp_monotone (x x' x0 x1 f1 : Q) :
  (x0 < x1)%Q -> (0 <= f1)%Q -> (x <= x')%Q ->
  (Pointer.interp x x0 x1 0 f1 <= Pointer.interp x' x0 x1 0 f1)%Q.
Proof.
  intros Hx Hf Hxx.
  destruct (interp_range x x0 x1 f1 Hx Hf) as [Hlo Hhi].
  destruct (interp_range x' x0 x1 f1 Hx Hf) as [Hlo' Hhi'].
  unfold Pointer.interp in *.
  destruct (Qle_bool x x0) eqn:E0; [exact Hlo'|].
  destruct (Qle_bool x1 x') eqn:E1'.
  { destruct (Qle_bool x' x0) eqn:E0'; [|exact Hhi].
    apply Qle_bool_iff in E0', E1'. exfalso. Lqa.lra. }
  apply not_true_iff_false in E0, E1'. rewrite Qle_bool_iff in E0, E1'.
  apply Qnot_le_lt in E0, E1'.
  replace (Qle_bool x' x0) with false
    by (symmetry; apply not_true_iff_false; rewrite Qle_bool_iff; Lqa.lra).
  replace (Qle_bool x1 x) with false
    by (symmetry; apply not_true_iff_false; rewrite Qle_bool_iff; Lqa.lra).
  assert (Hk : (0 <= (f1 - 0) / (x1 - x0))%Q).
  { apply Qle_shift_div_l; Lqa.lra. }
  assert (H := Qmult_le_compat_r (x - x0) (x' - x0) _ ltac:(Lqa.lra) Hk).
  Lqa.lra.
Qed.

Lemma smooth_contracts (p t : Q) :
  (Pointer.smooth p t - t == (2 # 3) * (p - t))%Q.
Proof. unfold Pointer.smooth, smoothening. field. Qed.

Lemma smooth_between (p t lo hi : Q) :
  (lo <= p)%Q -> (p <= hi)%Q -> (lo <= t)%Q -> (t <= hi)%Q ->
  (lo <= Pointer.smooth p t)%Q /\ (Pointer.smooth p t <= hi)%Q.
Proof.
  intros. pose proof (smooth_contracts p t) as H3. split; Lqa.lra.
Qed.

Lemma smooth_is_between (p t : Q) : between p t (Pointer.smooth p t).
Proof.
  pose proof (smooth_contracts p t) as H. unfold between.
  destruct (Qlt_le_dec p t); [left | right]; split; Lqa.lra.
Qed.

Lemma between_refl (a t : Q) : between a t a.
Proof.
  unfold between. destruct (Qlt_le_dec a t); [left | right]; split; Lqa.lra.
Qed.

Lemma between_trans (a t b c : Q) :
  between a t b -> between b t c -> between a t c.
Proof.
  unfold between. intros [[? ?] | [? ?]] [[? ?] | [? ?]];
    first [ left; split; Lqa.lra | right; split; Lqa.lra ].
Qed.

Lemma smooth_monotone (p t t' : Q) :
  (t <= t')%Q -> (Pointer.smooth p t <= Pointer.smooth p t')%Q.
Proof.
  intro H. pose proof (smooth_contracts p t) as H1.
  pose proof (smooth_contracts p t') as H2. Lqa.lra.
Qed.

Lemma clamp_monotone (x y b : Q) :
  (x <= y)%Q -> (Pointer.clamp x b <= Pointer.clamp y b)%Q.
Proof.
  intro H. unfold Pointer.clamp, Pointer.max, Pointer.min.
  destruct (Qltb x (b - 1)) eqn:Ex;
    [apply Qltb_true in Ex | apply Qltb_false in Ex];
    (destruct (Qltb y (b - 1)) eqn:Ey;
     [apply Qltb_true in Ey | apply Qltb_false in Ey]);
    repeat match goal with
           | |- context [Qltb 0 ?m] =>
               let E := fresh "E" in
               destruct (Qltb 0 m) eqn:E;
               [apply Qltb_true in E | apply Qltb_false in E]
           end; Lqa.lra.
Qed.

Section Pointing.
Variables wScr hScr : Q.
Variable bk : Event -> bool.

Lemma run_keeps {A : Type} (proj : State -> A) (r : Run)
      (B : World -> Run) :
  keeps proj B -> proj (state_of (r >>= B)) = proj (state_of r).
Proof. intro HB. destruct r as [w | w]; [apply HB | reflexivity]. Qed.

(** What the move block does when only the index finger is up. *)
Lemma cursor_move_run (h : Hand) (w : World) :
  cursor_move wScr hScr bk h w
  = if index_only (fingers h)
    then let cx := Pointer.smooth (plocX (fst w)) (target_x wScr h) in
         let cy := Pointer.smooth (plocY (fst w)) (target_y hScr h) in
         Ok (set_ploc cx cy (set_cloc cx cy (fst w)),
             snd w ++ [Move (Pointer.clamp (wScr - cx) wScr)
                            (Pointer.clamp cy hScr)])
    else Ok w.
Proof.
  unfold cursor_move, index_only, target_x, target_y.
  destruct (index (fingers h) && (sum (fingers h) =? 1)); [|reflexivity].
  unfold safe_move_mouse.
  match goal with
  | |- context [if ?c then _ else _] => destruct c
  end; reflexivity.
Qed.

(** The blocks after the move block leave the pointer state alone. *)
Lemma gestures_pointer (h : Hand) (c : Clock) (w : World) :
  let s' := state_of (gestures wScr hScr bk h c w) in
  let s1 := state_of (cursor_move wScr hScr bk h w) in
  plocX s' = plocX s1 /\ plocY s' = plocY s1
  /\ clocX s' = clocX s1 /\ clocY s' = clocY s1.
Proof.
  cbn zeta. unfold gestures.
  repeat split;
    (rewrite run_keeps by now apply dynamic_gestures_keeps);
    (rewrite run_keeps by now apply right_click_keeps);
    (rewrite run_keeps by now apply left_click_keeps);
    reflexivity.
Qed.

Lemma pause_toggle_pointer (h : Hand) (c : Clock) (s : State) :
  let s' := fst (pause_toggle h c s) in
  plocX s' = plocX s /\ plocY s' = plocY s
  /\ clocX s' = clocX s /\ clocY s' = clocY s.
Proof.
  unfold pause_toggle.
  destruct (is_fist _); [destruct (rest_since s); [destruct (held _ _)|]|];
    cbn; auto.
Qed.

(** A frame moves the pointer state exactly when it is active and shows
    the index finger alone; then it moves it one smoothing step towards
    the target. *)
Lemma process_frame_pointer (f : Frame) (s : State) :
  let s' := state_of (process_frame wScr hScr bk f s) in
  (plocX s' = plocX s /\ plocY s' = plocY s
   /\ clocX s' = clocX s /\ clocY s' = clocY s)
  \/ (exists h, hand f = Some h /\ index_only (fingers h) = true
                /\ plocX s' = Pointer.smooth (plocX s) (target_x wScr h)
                /\ plocY s' = Pointer.smooth (plocY s) (target_y hScr h)
                /\ clocX s' = plocX s' /\ clocY s' = plocY s').
Proof.
  cbn zeta. unfold process_frame. destruct (hand f) as [h |]; [|now left].
  destruct (pause_toggle_pointer h (clock f) s) as (Hx & Hy & Hcx & Hcy).
  destruct (paused (fst (pause_toggle h (clock f) s))); [now left|].
  destruct (gestures_pointer h (clock f) (pause_toggle h (clock f) s))
    as (Gx & Gy & Gcx & Gcy).
  rewrite Gx, Gy, Gcx, Gcy, cursor_move_run.
  destruct (index_only (fingers h)) eqn:Hi.
  - right. exists h. cbn. rewrite Hx, Hy.
    repeat split; (assumption || reflexivity).
  - left. cbn. repeat split; assumption.
Qed.

Lemma target_on_screen (h : Hand) :
  (0 <= wScr)%Q -> (0 <= hScr)%Q ->
  ((0 <= target_x wScr h)%Q /\ (target_x wScr h <= wScr)%Q)
  /\ ((0 <= target_y hScr h)%Q /\ (target_y hScr h <= hScr)%Q).
Proof.
  intros Hw Hh. unfold target_x, target_y.
  split; apply interp_range; try assumption; reflexivity.
Qed.

Lemma process_frame_on_screen (f : Frame) (s : State) :
  (0 <= wScr)%Q -> (0 <= hScr)%Q ->
  pointer_on_screen wScr hScr s ->
  pointer_on_screen wScr hScr (state_of (process_frame wScr hScr bk f s)).
Proof.
  intros Hw Hh ([Hx0 Hx1] & [Hy0 Hy1] & Hcx & Hcy).
  destruct (process_frame_pointer f s)
    as [(Ex & Ey & Ecx & Ecy) | (h & _ & _ & Ex & Ey & Ecx & Ecy)];
    unfold pointer_on_screen.
  - rewrite Ex, Ey, Ecx, Ecy. auto.
  - destruct (target_on_screen h Hw Hh) as [[Tx0 Tx1] [Ty0 Ty1]].
    rewrite Ecx, Ecy, Ex, Ey.
    split; [|split; [|split; reflexivity]];
      apply smooth_between; assumption.
Qed.

(** X4.  On a screen of non-negative size the smoothed pointer never leaves
    the screen rectangle [[0, wScr] x [0, hScr]], wherever the index tip is,
    and between two frames [cloc] and [ploc] agree: this holds at the start
    and after any run of frames. *)
Theorem pointer_stays_on_screen :
  (0 <= wScr)%Q -> (0 <= hScr)%Q ->
  pointer_on_screen wScr hScr initial
  /\ (forall fs s,
         pointer_on_screen wScr hScr s ->
         pointer_on_screen wScr hScr
                           (state_of (main_loop wScr hScr bk fs s))).
Proof.
  intros Hw Hh. split.
  - unfold pointer_on_screen. cbn. repeat split; Lqa.lra.
  - intros fs s. apply main_loop_state.
    intros f s'. now apply process_frame_on_screen.
Qed.

End Pointing.

Lemma pointer_stays_on_screen_witness :
  pointer_on_screen 1920 1080
    (state_of (main_loop 1920 1080 backend_ok [frame_at 0 point_hand]
                         initial)).
Proof.
  apply (proj2 (pointer_stays_on_screen 1920 1080 backend_ok
                  ltac:(Lqa.lra) ltac:(Lqa.lra))).
  apply (proj1 (pointer_stays_on_screen 1920 1080 backend_ok
                  ltac:(Lqa.lra) ltac:(Lqa.lra))).
Defined.

(** ** Frames that move the cursor *)

Lemma index_only_fingers (f : Fingers) :
  index_only f = true ->
  index f = true /\ thumb f = false /\ middle f = false
  /\ is_palm f = false /\ is_fist f = false /\ scroll_pose f = true.
Proof.
  unfold index_only, scroll_pose, is_palm, is_fist, sum.
  destruct (thumb f), (index f), (middle f), (ring f), (pinky f);
    cbn; intro H; try discriminate; repeat split.
Qed.

Section MoveFrames.
Variables wScr hScr : Q.
Variable bk : Event -> bool.

(** Without an open palm the dynamic block can only scroll. *)
Lemma dynamic_gestures_not_palm (h : Hand) (c : Clock) (w : World) :
  is_palm (fingers h) = false ->
  exists es, events (dynamic_gestures bk h c w) = snd w ++ es
             /\ (length es <= 1)%nat
             /\ Forall (fun e => is_scroll e = true) es.
Proof.
  intro Hp. unfold dynamic_gestures.
  destruct (Trail.displacement _) as [[dx dy] |];
    [|apply (one_nothing _ (_, snd w))].
  unfold swipe. rewrite Hp. cbn [andb andThen].
  set (w1 := (set_trail _ _, snd w)). change (snd w) with (snd w1).
  unfold scroll.
  repeat match goal with
         | |- context [if ?b then _ else _] => destruct b
         end;
    first [ apply one_nothing | apply one_call; reflexivity ].
Qed.

Lemma dynamic_gestures_serves (h : Hand) (c : Clock) (w : World) :
  serves bk -> raised (dynamic_gestures bk h c w) = false.
Proof.
  intro Hs. unfold dynamic_gestures.
  destruct (Trail.displacement _) as [[dx dy] |]; [|reflexivity].
  unfold swipe, scroll, call.
  rewrite !Hs by reflexivity.
  repeat match goal with
         | |- context [if ?b then _ else _] =>
             destruct b; cbn [andThen fst snd]
         end; reflexivity.
Qed.

(** One frame with the index finger alone, in full. *)
Lemma move_frame_step (s : State) (h : Hand) (c : Clock) :
  paused s = false -> index_only (fingers h) = true ->
  let r := process_frame wScr hScr bk (mkFrame (Some h) c) s in
  let cx := Pointer.smooth (plocX s) (target_x wScr h) in
  let cy := Pointer.smooth (plocY s) (target_y hScr h) in
  (exists es,
      events r = Move (Pointer.clamp (wScr - cx) wScr) (Pointer.clamp cy hScr)
                 :: es
      /\ (length es <= 1)%nat /\ Forall (fun e => is_scroll e = true) es)
  /\ plocX (state_of r) = cx /\ plocY (state_of r) = cy
  /\ clocX (state_of r) = cx /\ clocY (state_of r) = cy
  /\ paused (state_of r) = false
  /\ (serves bk -> raised r = false).
Proof.
  intros Hact Hio. cbn zeta.
  destruct (index_only_fingers _ Hio) as (Hi & Ht & Hm & Hp & Hf & _).
  unfold process_frame. cbn [hand clock].
  rewrite pause_toggle_not_fist by assumption.
  cbn [fst paused set_rest_since]. rewrite Hact.
  unfold gestures. rewrite cursor_move_run, Hio. cbn zeta. cbn [andThen].
  unfold left_click, right_click. rewrite Hi, Hm, Ht. cbn [andb andThen].
  set (w := (set_ploc _ _ _, _)).
  destruct (dynamic_gestures_not_palm h c w Hp) as (es & Hes & Hlen & Hsc).
  assert (Hk : forall {A : Type} (proj : State -> A),
             (forall tr s, proj (set_trail tr s) = proj s) ->
             (forall t s, proj (set_last_action_time t s) = proj s) ->
             proj (state_of (dynamic_gestures bk h c w)) = proj (fst w)).
  { intros A proj H1 H2. now apply dynamic_gestures_keeps. }
  split; [|split; [|split; [|split; [|split; [|split]]]]].
  - exists es. rewrite Hes. now split.
  - now rewrite (Hk _ plocX).
  - now rewrite (Hk _ plocY).
  - now rewrite (Hk _ clocX).
  - now rewrite (Hk _ clocY).
  - now rewrite (Hk _ paused).
  - apply dynamic_gestures_serves.
Qed.

(** X5.  An active frame that shows the index finger alone issues the mouse
    move, as its first backend call, and after it at most one scroll: no
    click and no swipe.  The pointer state steps towards the target without
    passing it: the new [plocX] lies between the old one and the target,
    and likewise [plocY]; [cloc] and [ploc] agree afterwards, whether or
    not the move call was refused.  The frame stays active, and does not
    fail when the calls other than the move return. *)
Theorem move_frame (s : State) (h : Hand) (c : Clock) :
  paused s = false -> index_only (fingers h) = true ->
  let r := process_frame wScr hScr bk (mkFrame (Some h) c) s in
  (exists x y es,
      events r = Move x y :: es
      /\ (length es <= 1)%nat /\ Forall (fun e => is_scroll e = true) es)
  /\ between (plocX s) (target_x wScr h) (plocX (state_of r))
  /\ between (plocY s) (target_y hScr h) (plocY (state_of r))
  /\ clocX (state_of r) = plocX (state_of r)
  /\ clocY (state_of r) = plocY (state_of r)
  /\ paused (state_of r) = false
  /\ (serves bk -> raised r = false).
Proof.
  intros Hact Hio. cbn zeta.
  destruct (move_frame_step s h c Hact Hio)
    as ((es & Hev & Hes) & Hx & Hy & Hcx & Hcy & Hp & Hr).
  split; [eauto|].
  rewrite Hx, Hy, Hcx, Hcy.
  repeat split; auto; apply smooth_is_between.
Qed.

End MoveFrames.

Lemma move_frame_witness :
  exists x y es,
    events (process_frame 1920 1080 backend_ok
                          (frame_at 1 (index_hand (150, 150))) initial)
    = Move x y :: es
    /\ (length es <= 1)%nat /\ Forall (fun e => is_scroll e = true) es.
Proof.
  apply (proj1 (move_frame 1920 1080 backend_ok initial
                  (index_hand (150, 150)) (at_time 1) eq_refl eq_refl)).
Defined.

Lemma state_of_prepend_eq (evs : list Event) (r : Run) :
  state_of (prepend evs r) = state_of r.
Proof. now destruct r as [[s es] | [s es]]. Qed.

Lemma raised_prepend_eq (evs : list Event) (r : Run) :
  raised (prepend evs r) = raised r.
Proof. now destruct r as [[s es] | [s es]]. Qed.

Lemma scrolls_are_not_moves (es : list Event) :
  Forall (fun e => is_scroll e = true) es -> count is_move es = 0%nat.
Proof.
  intro H. apply count_none. eapply Forall_impl; [|exact H].
  intros e He. now destruct e.
Qed.

Section Smoothing.
Variables wScr hScr : Q.
Variable bk : Event -> bool.

(** X6.  While the index finger alone is held at one place, on active
    frames whose backend calls return, the loop does not fail, every frame
    issues exactly one mouse move, and the pointer state never moves away
    from the target nor past it: after any number of frames [plocX] lies
    between its value at the start and the target, and likewise [plocY]. *)
Theorem holding_still_approaches (h : Hand) (cs : list Clock) (s : State) :
  paused s = false -> index_only (fingers h) = true -> serves bk ->
  let r := main_loop wScr hScr bk (map (mkFrame (Some h)) cs) s in
  raised r = false
  /\ count is_move (events r) = length cs
  /\ between (plocX s) (target_x wScr h) (plocX (state_of r))
  /\ between (plocY s) (target_y hScr h) (plocY (state_of r)).
Proof.
  intros Hact Hio Hs. cbn zeta. revert s Hact.
  induction cs as [| c cs IH]; intros s Hact.
  - cbn. repeat split; apply between_refl.
  - cbn [map main_loop length].
    destruct (move_frame_step wScr hScr bk s h c Hact Hio)
      as ((es & Hev & Hlen & Hsc) & Hx & Hy & _ & _ & Hp & Hr).
    specialize (Hr Hs).
    destruct (process_frame wScr hScr bk (mkFrame (Some h) c) s)
      as [[s1 evs] | w]; [|discriminate].
    unfold state_of, events in Hev, Hx, Hy, Hp. cbn [world fst snd] in *.
    destruct (IH s1 Hp) as (Ir & Ic & Ix & Iy).
    rewrite raised_prepend_eq, events_prepend, state_of_prepend_eq.
    split; [exact Ir|]. split; [|split].
    + rewrite count_app, Ic, Hev.
      change (Move ?x ?y :: es) with ([Move x y] ++ es).
      rewrite count_app, (scrolls_are_not_moves es Hsc). cbn. lia.
    + eapply between_trans; [|exact Ix]. rewrite Hx. apply smooth_is_between.
    + eapply between_trans; [|exact Iy]. rewrite Hy. apply smooth_is_between.
Qed.

End Smoothing.

Lemma holding_still_approaches_witness :
  let h := index_hand (150, 150) in
  let r := main_loop 1920 1080 backend_ok
             (map (mkFrame (Some h)) [at_time 1; at_time 1.03; at_time 1.06])
             initial in
  raised r = false
  /\ count is_move (events r) = 3%nat
  /\ between (plocX initial) (target_x 1920 h) (plocX (state_of r))
  /\ between (plocY initial) (target_y 1080 h) (plocY (state_of r)).
Proof.
  apply (holding_still_approaches 1920 1080 backend_ok
           (index_hand (150, 150))
           [at_time 1; at_time 1.03; at_time 1.06] initial
           eq_refl eq_refl (fun e _ => eq_refl)).
Defined.

(** ** The pose behind every event *)

Section Poses.
Variables wScr hScr : Q.
Variable bk : Event -> bool.

Ltac pose_cases E :=
  repeat match goal with
         | |- context [if ?b then _ else _] => destruct b
         end;
  first [ apply emits_nothing | apply emits_call; cbn; exact E ].

Lemma left_click_pose (h : Hand) (c : Clock) :
  emits (fun e => pose_of (fingers h) e = true) (left_click bk h c).
Proof.
  intro w. unfold left_click.
  destruct (index _ && middle _) eqn:E; [|apply emits_nothing].
  pose_cases E.
Qed.

Lemma right_click_pose (h : Hand) (c : Clock) :
  emits (fun e => pose_of (fingers h) e = true) (right_click bk h c).
Proof.
  intro w. unfold right_click.
  destruct (thumb _ && index _) eqn:E; [|apply emits_nothing].
  pose_cases E.
Qed.

Lemma cursor_move_pose (h : Hand) :
  emits (fun e => pose_of (fingers h) e = true) (cursor_move wScr hScr bk h).
Proof.
  intro w. rewrite cursor_move_run.
  destruct (index_only (fingers h)) eqn:E; [|apply emits_nothing].
  cbn. eexists. split; [reflexivity|]. repeat constructor. exact E.
Qed.

Lemma swipe_pose (h : Hand) (now : Q) (dx dy : Z) :
  emits (fun e => pose_of (fingers h) e = true) (swipe bk h now dx dy).
Proof.
  intro w. unfold swipe.
  destruct (is_palm (fingers h)) eqn:E; [|apply emits_nothing].
  pose_cases E.
Qed.

Lemma scroll_pose_emits (h : Hand) (now : Q) (dy : Z) :
  emits (fun e => pose_of (fingers h) e = true) (scroll bk h now dy).
Proof.
  intro w. unfold scroll.
  destruct (is_palm (fingers h) || _) eqn:E; [|apply emits_nothing].
  pose_cases E.
Qed.

Lemma dynamic_gestures_pose (h : Hand) (c : Clock) :
  emits (fun e => pose_of (fingers h) e = true) (dynamic_gestures bk h c).
Proof.
  intro w. unfold dynamic_gestures.
  destruct (Trail.displacement _) as [[dx dy] |];
    [|apply (emits_nothing _ (_, snd w))].
  set (w1 := (set_trail _ _, snd w)). change (snd w) with (snd w1).
  apply (emits_andThen _ (swipe bk h (t_now c) dx dy)
                       (scroll bk h (t_now c) dy));
    [apply swipe_pose | apply scroll_pose_emits].
Qed.

Lemma gestures_pose (h : Hand) (c : Clock) :
  emits (fun e => pose_of (fingers h) e = true) (gestures wScr hScr bk h c).
Proof.
  unfold gestures. repeat apply emits_andThen.
  - apply cursor_move_pose.
  - apply left_click_pose.
  - apply right_click_pose.
  - apply dynamic_gestures_pose.
Qed.

(** With the index finger down the gesture blocks only record the sample. *)
Lemma gestures_no_index (h : Hand) (c : Clock) (w : World) :
  index (fingers h) = false ->
  gestures wScr hScr bk h c w
  = Ok (set_trail (Trail.append (sample_of h c) (trail (fst w))) (fst w),
        snd w).
Proof.
  intro Hi.
  assert (Hp : is_palm (fingers h) = false).
  { unfold is_palm. rewrite Hi. now destruct (thumb _). }
  unfold gestures, cursor_move, left_click, right_click, dynamic_gestures.
  rewrite Hi, andb_false_r. cbn [andb andThen].
  destruct (Trail.displacement _) as [[dx dy] |]; [|reflexivity].
  unfold swipe, scroll. rewrite Hp, Hi. reflexivity.
Qed.

(** X7.  Every event of a frame is backed by the finger pose of that frame:
    a move by the index finger alone, a left or double click by index and
    middle, a right click by thumb and index, a swipe by the open palm, a
    scroll by the open palm or the index with at most one more finger, the
    pause flip by the fist.  Hence a frame whose index finger is down calls
    the backend not at all and cannot fail. *)
Theorem event_needs_pose (h : Hand) (c : Clock) (s : State) :
  let r := process_frame wScr hScr bk (mkFrame (Some h) c) s in
  Forall (fun e => pose_of (fingers h) e = true) (events r)
  /\ (index (fingers h) = false ->
      raised r = false /\ Forall (fun e => e = PauseToggle) (events r)).
Proof.
  cbn zeta. unfold process_frame. cbn [hand clock].
  assert (Hpt : Forall (fun e => pose_of (fingers h) e = true)
                       (snd (pause_toggle h c s))
                /\ Forall (fun e => e = PauseToggle)
                          (snd (pause_toggle h c s))).
  { unfold pause_toggle.
    destruct (is_fist (fingers h)) eqn:E;
      [destruct (rest_since s); [destruct (held _ _)|]|];
      cbn; split; repeat constructor. exact E. }
  destruct Hpt as [Hpose Htog].
  destruct (paused (fst (pause_toggle h c s))).
  - split; [exact Hpose|]. intros _. now split.
  - split.
    + destruct (gestures_pose h c (pause_toggle h c s)) as (es & -> & Hes).
      apply Forall_app. now split.
    + intro Hi. rewrite gestures_no_index by assumption. now split.
Qed.

End Poses.

Lemma event_needs_pose_witness :
  let r := process_frame 1920 1080 (refuses is_click)
             (frame_at 1 fist_hand) initial in
  raised r = false /\ Forall (fun e => e = PauseToggle) (events r).
Proof.
  apply (proj2 (event_needs_pose 1920 1080 (refuses is_click) fist_hand
                  (at_time 1) initial)).
  reflexivity.
Defined.

(** ** The timers only move forward *)

Lemma moved_on_refl (iv a : Q) : moved_on iv a a.
Proof. now left. Qed.

Lemma moved_on_trans (iv a b c : Q) :
  (0 <= iv)%Q -> moved_on iv a b -> moved_on iv b c -> moved_on iv a c.
Proof.
  intros Hiv [-> | Hab] [<- | Hbc]; unfold moved_on; auto.
  right. Lqa.lra.
Qed.

Section Timers.
Variables wScr hScr : Q.
Variable bk : Event -> bool.
Variable iv : Q.
Variable proj : State -> Q.
Hypothesis iv_nonneg : (0 <= iv)%Q.

Lemma steps_keeps (B : World -> Run) : keeps proj B -> steps iv proj B.
Proof. intros HB w. left. symmetry. apply HB. Qed.

Lemma steps_andThen (B1 B2 : World -> Run) :
  steps iv proj B1 -> steps iv proj B2 ->
  steps iv proj (fun w => B1 w >>= B2).
Proof.
  intros H1 H2 w. specialize (H1 w).
  destruct (B1 w) as [w1 | w1]; cbn [andThen]; [|exact H1].
  eapply moved_on_trans; [exact iv_nonneg | exact H1 | apply H2].
Qed.

(** A call behind a debounce test of an interval [iv' >= iv] that sets the
    timer to the reading of the test. *)
Lemma steps_call (e : Event) (now iv' : Q) (set : State -> State)
      (w : World) :
  (forall s, proj (set s) = now) -> (iv <= iv')%Q ->
  elapsed now (proj (fst w)) iv' = true ->
  moved_on iv (proj (fst w)) (proj (state_of (call bk e set w))).
Proof.
  intros Hset Hiv He. apply elapsed_true in He.
  unfold call. destruct (bk e); cbn; [|now left].
  right. rewrite Hset. Lqa.lra.
Qed.

End Timers.

Section TimersInLoop.
Variables wScr hScr : Q.
Variable bk : Event -> bool.

Lemma left_click_steps (h : Hand) (c : Clock) :
  steps click_debounce_sec last_click_time (left_click bk h c).
Proof.
  intro w. unfold left_click.
  destruct (index _ && middle _); [|apply moved_on_refl].
  destruct (length_lt _ _ _ && elapsed _ _ _) eqn:E1.
  { apply andb_prop in E1 as [_ E].
    eapply steps_call with (now := t_click c);
      [reflexivity | apply Qle_refl | exact E]. }
  destruct (length_gt _ _ _ && elapsed _ _ _) eqn:E2;
    [|apply moved_on_refl].
  apply andb_prop in E2 as [_ E].
  eapply steps_call with (now := t_click c);
    [reflexivity | apply Qle_refl | exact E].
Qed.

Lemma right_click_steps (h : Hand) (c : Clock) :
  steps click_debounce_sec last_click_time (right_click bk h c).
Proof.
  intro w. unfold right_click.
  destruct (thumb _ && index _); [|apply moved_on_refl].
  destruct (length_lt _ _ _ && elapsed _ _ _) eqn:E1;
    [|apply moved_on_refl].
  apply andb_prop in E1 as [_ E].
  eapply steps_call with (now := t_rclick c);
    [reflexivity | apply Qle_refl | exact E].
Qed.

Lemma swipe_steps (h : Hand) (now : Q) (dx dy : Z) :
  steps scroll_debounce_sec last_action_time (swipe bk h now dx dy).
Proof.
  intro w. unfold swipe.
  destruct (is_palm _ && elapsed _ _ _) eqn:E; [|apply moved_on_refl].
  apply andb_prop in E as [_ E].
  repeat match goal with
         | |- context [if ?b then _ else _] => destruct b
         end; try apply moved_on_refl;
    (eapply steps_call with (now := now) (iv' := cooldown_swipe_sec);
     [reflexivity | unfold scroll_debounce_sec, cooldown_swipe_sec; Lqa.lra
      | exact E]).
Qed.

Lemma scroll_steps (h : Hand) (now : Q) (dy : Z) :
  steps scroll_debounce_sec last_action_time (scroll bk h now dy).
Proof.
  intro w. unfold scroll.
  destruct (_ && elapsed _ _ _) eqn:E; [|apply moved_on_refl].
  apply andb_prop in E as [_ E].
  repeat match goal with
         | |- context [if ?b then _ else _] => destruct b
         end; try apply moved_on_refl;
    (eapply steps_call with (now := now) (iv' := scroll_debounce_sec);
     [reflexivity | apply Qle_refl | exact E]).
Qed.

Lemma dynamic_gestures_steps (h : Hand) (c : Clock) :
  steps scroll_debounce_sec last_action_time (dynamic_gestures bk h c).
Proof.
  intro w. unfold dynamic_gestures.
  destruct (Trail.displacement _) as [[dx dy] |]; [|apply moved_on_refl].
  set (w1 := (set_trail _ _, snd w)).
  change (last_action_time (fst w)) with (last_action_time (fst w1)).
  apply (steps_andThen scroll_debounce_sec last_action_time
           ltac:(unfold scroll_debounce_sec; Lqa.lra)
           (swipe bk h (t_now c) dx dy) (scroll bk h (t_now c) dy)).
  - apply swipe_steps.
  - apply scroll_steps.
Qed.

Lemma gestures_click_steps (h : Hand) (c : Clock) :
  steps click_debounce_sec last_click_time (gestures wScr hScr bk h c).
Proof.
  assert (H0 : (0 <= click_debounce_sec)%Q)
    by (unfold click_debounce_sec; Lqa.lra).
  unfold gestures. repeat apply (steps_andThen _ _ H0).
  - apply steps_keeps. now apply cursor_move_keeps.
  - apply left_click_steps.
  - apply right_click_steps.
  - apply steps_keeps. now apply dynamic_gestures_keeps.
Qed.

Lemma gestures_action_steps (h : Hand) (c : Clock) :
  steps scroll_debounce_sec last_action_time (gestures wScr hScr bk h c).
Proof.
  assert (H0 : (0 <= scroll_debounce_sec)%Q)
    by (unfold scroll_debounce_sec; Lqa.lra).
  unfold gestures. repeat apply (steps_andThen _ _ H0).
  - apply steps_keeps. now apply cursor_move_keeps.
  - apply steps_keeps. now apply left_click_keeps.
  - apply steps_keeps. now apply right_click_keeps.
  - apply dynamic_gestures_steps.
Qed.

Lemma process_frame_steps (iv : Q) (proj : State -> Q) (f : Frame)
      (s : State) :
  (forall r s, proj (set_rest_since r s) = proj s) ->
  (forall p s, proj (set_paused p s) = proj s) ->
  (forall h c, steps iv proj (gestures wScr hScr bk h c)) ->
  moved_on iv (proj s) (proj (state_of (process_frame wScr hScr bk f s))).
Proof.
  intros Hr Hp Hg. unfold process_frame.
  destruct (hand f) as [h |]; [|apply moved_on_refl].
  assert (Hpt : proj (fst (pause_toggle h (clock f) s)) = proj s).
  { unfold pause_toggle.
    destruct (is_fist _); [destruct (rest_since s); [destruct (held _ _)|]|];
      cbn [fst]; rewrite ?Hr, ?Hp; reflexivity. }
  destruct (paused (fst (pause_toggle h (clock f) s))).
  - left. now rewrite <- Hpt.
  - rewrite <- Hpt. apply Hg.
Qed.

(** X8.  Whatever the clock readings, the backend and the frames, neither
    timer ever moves backward over a run of the loop: the click timer stays
    or advances by more than 0.12 s, the swipe-or-scroll timer stays or
    advances by more than 0.2 s. *)
Theorem timers_move_forward (fs : list Frame) (s : State) :
  let s' := state_of (main_loop wScr hScr bk fs s) in
  (last_click_time s' = last_click_time s
   \/ (last_click_time s + 0.12 < last_click_time s')%Q)
  /\ (last_action_time s' = last_action_time s
      \/ (last_action_time s + 0.2 < last_action_time s')%Q).
Proof.
  cbn zeta. split.
  - enough (H : moved_on click_debounce_sec (last_click_time s)
                  (last_click_time (state_of (main_loop wScr hScr bk fs s))))
      by (destruct H as [H | H]; [left; now symmetry | now right]).
    apply (main_loop_state wScr hScr bk
             (fun s' => moved_on click_debounce_sec (last_click_time s)
                                 (last_click_time s')));
      [|apply moved_on_refl].
    intros f s1 H1.
    eapply moved_on_trans; [unfold click_debounce_sec; Lqa.lra | exact H1 |].
    apply process_frame_steps; auto using gestures_click_steps.
  - enough (H : moved_on scroll_debounce_sec (last_action_time s)
                  (last_action_time (state_of (main_loop wScr hScr bk fs s))))
      by (destruct H as [H | H]; [left; now symmetry | now right]).
    apply (main_loop_state wScr hScr bk
             (fun s' => moved_on scroll_debounce_sec (last_action_time s)
                                 (last_action_time s')));
      [|apply moved_on_refl].
    intros f s1 H1.
    eapply moved_on_trans; [unfold scroll_debounce_sec; Lqa.lra | exact H1 |].
    apply process_frame_steps; auto using gestures_action_steps.
Qed.

End TimersInLoop.

(** ** Right click, scroll and the rest of the swipe rule *)

Section Classify.
Variables wScr hScr : Q.
Variable bk : Event -> bool.

Lemma not_in_by_kind (P : Event -> Prop) (es : list Event) (e : Event) :
  Forall P es -> ~ P e -> ~ In e es.
Proof.
  intros HP Hn Hin. rewrite Forall_forall in HP. now apply Hn, HP.
Qed.

(** X9.  On an active frame with thumb and index up and the middle finger
    down, a right click is issued exactly when the thumb tip and the index
    tip are less than 30 pixels apart and more than 0.12 s have passed
    since the last click of any kind. *)
Theorem right_click_rule (s : State) (h : Hand) (c : Clock) :
  paused s = false ->
  thumb (fingers h) = true -> index (fingers h) = true ->
  middle (fingers h) = false ->
  In RightClick (events (process_frame wScr hScr bk (mkFrame (Some h) c) s))
  <-> ((findDistance (lm4 h) (lm8 h) < 30)%R
       /\ (click_debounce_sec < t_rclick c - last_click_time s)%Q).
Proof.
  intros Hact Ht Hi Hm.
  unfold process_frame. cbn [hand clock].
  rewrite pause_toggle_not_fist by now apply index_not_fist.
  cbn [fst paused set_rest_since]. rewrite Hact.
  unfold gestures. rewrite cursor_move_run.
  replace (index_only (fingers h)) with false
    by (unfold index_only, sum; rewrite Ht, Hi;
        now destruct (middle _), (ring _), (pinky _)).
  cbn [andThen]. unfold left_click at 1. rewrite Hi, Hm. cbn [andb andThen].
  destruct (andThen_events _
              (right_click bk h c (set_rest_since None s, []))
              _ (dynamic_gestures_emits bk h c)) as (es & -> & Hes).
  assert (Hno : ~ In RightClick es).
  { apply (not_in_by_kind _ _ _ Hes). cbn. intros [H | H]; discriminate. }
  rewrite <- (length_lt_spec _ _ 30) by lia.
  rewrite <- elapsed_true.
  unfold right_click. rewrite Ht, Hi. cbn [andb fst snd last_click_time
                                           set_rest_since].
  change right_click_length with 30.
  destruct (length_lt (lm4 h) (lm8 h) 30);
    destruct (elapsed (t_rclick c) (last_click_time s) click_debounce_sec);
    cbn [andb]; rewrite ?events_call; cbn [events world snd app In];
    intuition discriminate.
Qed.

(** When the click calls return, the blocks before the dynamic gestures end
    normally and leave the trail and the swipe-or-scroll timer alone. *)
Lemma before_dynamic_ok (h : Hand) (c : Clock) (w : World) :
  (forall e, is_click e = true -> bk e = true) ->
  exists s' es,
    cursor_move wScr hScr bk h w >>= left_click bk h c >>= right_click bk h c
    = Ok (s', snd w ++ es)
    /\ Forall (fun e => is_swipe e = false /\ is_scroll e = false) es
    /\ last_action_time s' = last_action_time (fst w)
    /\ trail s' = trail (fst w).
Proof.
  intro Hbk.
  pose proof (before_dynamic_emits wScr hScr bk h c w) as (es & Hes & HP).
  pose proof (before_dynamic_keeps_trail wScr hScr bk h c w) as Ht.
  assert (Ha : last_action_time
                 (state_of (cursor_move wScr hScr bk h w
                            >>= left_click bk h c >>= right_click bk h c))
               = last_action_time (fst w)).
  { apply (keeps_andThen last_action_time
             (fun w => cursor_move wScr hScr bk h w >>= left_click bk h c)
             (right_click bk h c)).
    - apply (keeps_andThen last_action_time (cursor_move wScr hScr bk h)
               (left_click bk h c)).
      + now apply cursor_move_keeps.
      + now apply left_click_keeps.
    - now apply right_click_keeps. }
  cbn beta in Hes, Ht.
  assert (Hr : raised (cursor_move wScr hScr bk h w
                       >>= left_click bk h c >>= right_click bk h c)
               = false).
  { rewrite cursor_move_run.
    destruct (index_only (fingers h)); cbn zeta; cbn [andThen];
      match goal with
      | |- context [left_click bk h c ?w0] =>
          destruct (left_click_ok bk h c w0) as (s1 & e1 & -> & _);
          [now apply Hbk .. |]
      end; cbn [andThen];
      match goal with
      | |- context [right_click bk h c ?w0] =>
          destruct (right_click_ok bk h c w0) as (s2 & e2 & -> & _);
          [now apply Hbk |]
      end; reflexivity. }
  destruct (cursor_move wScr hScr bk h w
            >>= left_click bk h c >>= right_click bk h c)
    as [[s' evs] | w']; [|discriminate].
  unfold events, state_of in *. cbn [world fst snd] in *.
  exists s', es. rewrite Hes. auto.
Qed.

Lemma swipe_steep (h : Hand) (now : Q) (dx dy : Z) (w : World) :
  60 <= Z.abs dy \/ - 120 < dx < 120 ->
  swipe bk h now dx dy w = Ok w.
Proof.
  intro H. unfold swipe. rewrite half_threshold.
  destruct (is_palm _ && elapsed _ _ _); [|reflexivity].
  destruct H as [H | H].
  - replace (Z.abs dy <? 60) with false by (symmetry; apply Z.ltb_ge; lia).
    now rewrite !andb_false_r.
  - replace (dx <=? - swipe_threshold_px) with false
      by (symmetry; apply Z.leb_gt; unfold swipe_threshold_px; lia).
    replace (swipe_threshold_px <=? dx) with false
      by (symmetry; apply Z.leb_gt; unfold swipe_threshold_px; lia).
    reflexivity.
Qed.

Lemma scroll_short (h : Hand) (now : Q) (dy : Z) (w : World) :
  - 80 < dy < 80 -> scroll bk h now dy w = Ok w.
Proof.
  intro H. unfold scroll.
  replace (dy <=? - scroll_threshold_px) with false
    by (symmetry; apply Z.leb_gt; unfold scroll_threshold_px; lia).
  replace (scroll_threshold_px <=? dy) with false
    by (symmetry; apply Z.leb_gt; unfold scroll_threshold_px; lia).
  now destruct (_ && _).
Qed.

Lemma scroll_fires (h : Hand) (now : Q) (dy : Z) (w : World) :
  scroll_pose (fingers h) = true ->
  elapsed now (last_action_time (fst w)) scroll_debounce_sec = true ->
  events (scroll bk h now dy w)
  = snd w ++ (if dy <=? - 80 then [ScrollUp]
              else if 80 <=? dy then [ScrollDown] else []).
Proof.
  intros Hp He. unfold scroll. unfold scroll_pose in Hp.
  rewrite Hp, He. cbn [andb].
  change (- scroll_threshold_px) with (- 80).
  change scroll_threshold_px with 80.
  destruct (dy <=? - 80); [apply events_call|].
  destruct (80 <=? dy); [apply events_call|].
  cbn. now rewrite app_nil_r.
Qed.

Lemma scroll_pose_not_fist (f : Fingers) :
  scroll_pose f = true -> is_fist f = false.
Proof.
  unfold scroll_pose, is_palm, is_fist.
  destruct (thumb f), (index f); cbn; intro H; try discriminate; reflexivity.
Qed.

(** The events of an active frame that is not a fist, when the click calls
    return: those of the blocks before the dynamic gestures, none of them a
    swipe or a scroll, then those of the swipe and scroll blocks run on the
    frame's displacement with the timer as the frame found it. *)
Lemma active_frame_events (s : State) (h : Hand) (c : Clock) (dx dy : Z) :
  paused s = false -> is_fist (fingers h) = false ->
  Trail.displacement (Trail.append (sample_of h c) (trail s)) = Some (dx, dy) ->
  (forall e, is_click e = true -> bk e = true) ->
  exists s' es,
    events (process_frame wScr hScr bk (mkFrame (Some h) c) s)
    = events (swipe bk h (t_now c) dx dy (s', es) >>= scroll bk h (t_now c) dy)
    /\ Forall (fun e => is_swipe e = false /\ is_scroll e = false) es
    /\ last_action_time s' = last_action_time s.
Proof.
  intros Hact Hf Hd Hbk.
  unfold process_frame. cbn [hand clock].
  rewrite pause_toggle_not_fist by assumption.
  cbn [fst paused set_rest_since]. rewrite Hact. unfold gestures.
  destruct (before_dynamic_ok h c (set_rest_since None s, []) Hbk)
    as (s3 & es & -> & Hes & Ha & Ht).
  cbn [andThen fst snd app trail last_action_time set_rest_since] in *.
  unfold dynamic_gestures. cbn [fst snd]. rewrite Ht, Hd.
  eexists. exists es. split; [reflexivity|]. split; [exact Hes|].
  cbn. exact Ha.
Qed.

(** X10.  On an active frame that shows the open palm, or the index with at
    most one more finger, with a defined displacement [(dx, dy)] and
    more than 0.2 s since the last swipe or scroll: [dy <= -80] issues a
    scroll up, [dy >= 80] a scroll down, in both cases no swipe (a swipe
    needs [|dy| < 60]); for [-80 < dy < 80] no scroll is issued.  The click
    calls that may precede in the frame are taken to return. *)
Theorem scroll_classification (s : State) (h : Hand) (c : Clock)
        (dx dy : Z) :
  paused s = false -> scroll_pose (fingers h) = true ->
  Trail.displacement (Trail.append (sample_of h c) (trail s)) = Some (dx, dy) ->
  elapsed (t_now c) (last_action_time s) scroll_debounce_sec = true ->
  (forall e, is_click e = true -> bk e = true) ->
  let evs := events (process_frame wScr hScr bk (mkFrame (Some h) c) s) in
  (dy <= - 80 ->
   In ScrollUp evs /\ ~ In ScrollDown evs
   /\ ~ In SwipeLeft evs /\ ~ In SwipeRight evs)
  /\ (80 <= dy ->
      In ScrollDown evs /\ ~ In ScrollUp evs
      /\ ~ In SwipeLeft evs /\ ~ In SwipeRight evs)
  /\ (- 80 < dy < 80 -> ~ In ScrollUp evs /\ ~ In ScrollDown evs).
Proof.
  intros Hact Hp Hd He Hbk. cbn zeta.
  destruct (active_frame_events s h c dx dy Hact
              (scroll_pose_not_fist _ Hp) Hd Hbk) as (s' & es & -> & Hes & Ha).
  assert (Hno : forall e, is_swipe e = true \/ is_scroll e = true ->
                          ~ In e es).
  { intros e He'. apply (not_in_by_kind _ _ _ Hes).
    intros [H1 H2]. destruct He'; congruence. }
  split; [|split]; intro Hdy.
  - rewrite swipe_steep by lia. cbn [andThen].
    rewrite scroll_fires by (cbn [fst]; congruence).
    replace (dy <=? - 80) with true by (symmetry; apply Z.leb_le; lia).
    cbn [snd]. repeat split;
      rewrite in_app_iff; cbn [In];
      try (intros [H | [H | []]]; [revert H; apply Hno; cbn; auto
                                 | discriminate]).
    right. now left.
  - rewrite swipe_steep by lia. cbn [andThen].
    rewrite scroll_fires by (cbn [fst]; congruence).
    replace (dy <=? - 80) with false by (symmetry; apply Z.leb_gt; lia).
    replace (80 <=? dy) with true by (symmetry; apply Z.leb_le; lia).
    cbn [snd]. repeat split;
      rewrite in_app_iff; cbn [In];
      try (intros [H | [H | []]]; [revert H; apply Hno; cbn; auto
                                 | discriminate]).
    right. now left.
  - destruct (swipe_emits bk h (t_now c) dx dy (s', es)) as (sw & Hsw & HP).
    assert (Hev : events (swipe bk h (t_now c) dx dy (s', es)
                          >>= scroll bk h (t_now c) dy)
                  = es ++ sw).
    { destruct (swipe bk h (t_now c) dx dy (s', es)) as [w1 | w1];
        cbn [andThen]; [rewrite scroll_short by assumption|]; exact Hsw. }
    rewrite Hev. split; rewrite in_app_iff;
      (intros [H | H];
       [revert H; apply Hno; cbn; auto
       | revert H; apply (not_in_by_kind _ _ _ HP); discriminate]).
Qed.

Lemma swipe_right_events (h : Hand) (now : Q) (dx dy : Z) (w : World) :
  is_palm (fingers h) = true ->
  elapsed now (last_action_time (fst w)) cooldown_swipe_sec = true ->
  120 <= dx -> Z.abs dy < 60 ->
  events (swipe bk h now dx dy w >>= scroll bk h now dy)
  = snd w ++ [SwipeRight].
Proof.
  intros Hp He Hdx Hdy. unfold swipe. rewrite Hp, He, half_threshold.
  cbn [andb].
  replace (dx <=? - swipe_threshold_px) with false
    by (symmetry; apply Z.leb_gt; unfold swipe_threshold_px; lia).
  replace (swipe_threshold_px <=? dx) with true
    by (symmetry; apply Z.leb_le; exact Hdx).
  replace (Z.abs dy <? 60) with true by (symmetry; now apply Z.ltb_lt).
  cbn [andb]. unfold call. destruct (bk SwipeRight); [|reflexivity].
  cbn [andThen]. unfold scroll. cbn [fst snd last_action_time
                                      set_last_action_time].
  rewrite elapsed_same by (unfold scroll_debounce_sec; Lqa.lra).
  now rewrite andb_false_r.
Qed.

(** X11.  On an active frame that shows the open palm, with a defined
    displacement [(dx, dy)] and the swipe cooldown of 0.7 s elapsed:
    [dx >= 120] with [|dy| < 60] issues a swipe right and neither a swipe
    left nor a scroll; a displacement that is too steep ([|dy| >= 60]) or
    too short ([|dx| < 120]) issues no swipe at all.  The click calls that
    may precede in the frame are taken to return. *)
Theorem swipe_right_classification (s : State) (h : Hand) (c : Clock)
        (dx dy : Z) :
  paused s = false -> is_palm (fingers h) = true ->
  Trail.displacement (Trail.append (sample_of h c) (trail s)) = Some (dx, dy) ->
  elapsed (t_now c) (last_action_time s) cooldown_swipe_sec = true ->
  (forall e, is_click e = true -> bk e = true) ->
  let evs := events (process_frame wScr hScr bk (mkFrame (Some h) c) s) in
  (120 <= dx -> Z.abs dy < 60 ->
   In SwipeRight evs /\ ~ In SwipeLeft evs
   /\ ~ In ScrollUp evs /\ ~ In ScrollDown evs)
  /\ (60 <= Z.abs dy \/ - 120 < dx < 120 ->
      ~ In SwipeLeft evs /\ ~ In SwipeRight evs).
Proof.
  intros Hact Hp Hd He Hbk. cbn zeta.
  destruct (active_frame_events s h c dx dy Hact (palm_not_fist _ Hp) Hd Hbk)
    as (s' & es & -> & Hes & Ha).
  assert (Hno : forall e, is_swipe e = true \/ is_scroll e = true ->
                          ~ In e es).
  { intros e He'. apply (not_in_by_kind _ _ _ Hes).
    intros [H1 H2]. destruct He'; congruence. }
  split.
  - intros Hdx Hdy.
    rewrite swipe_right_events by (cbn [fst]; congruence || assumption).
    cbn [snd]. repeat split;
      rewrite in_app_iff; cbn [In];
      try (intros [H | [H | []]]; [revert H; apply Hno; cbn; auto
                                 | discriminate]).
    right. now left.
  - intro Hgeo. rewrite swipe_steep by assumption. cbn [andThen].
    destruct (scroll_emits bk h (t_now c) dy (s', es)) as (sc & -> & HP).
    cbn [snd]. split; rewrite in_app_iff;
      (intros [H | H];
       [revert H; apply Hno; cbn; auto
       | revert H; apply (not_in_by_kind _ _ _ HP); discriminate]).
Qed.

End Classify.

Lemma right_click_rule_witness :
  In RightClick
     (events (process_frame 1920 1080 backend_ok (frame_at 1 pinch_hand)
                            initial)).
Proof.
  apply (proj2 (right_click_rule 1920 1080 backend_ok initial pinch_hand
                  (at_time 1) eq_refl eq_refl eq_refl eq_refl)).
  split.
  - apply (proj1 (length_lt_spec (200, 200) (210, 205) 30 ltac:(lia))).
    reflexivity.
  - reflexivity.
Defined.

Lemma scroll_classification_witness :
  let s := after_frames [frame_at 1 (index_hand (200, 300))] in
  let evs := events (process_frame 1920 1080 backend_ok
                       (frame_at 1.1 (index_hand (200, 200))) s) in
  In ScrollUp evs /\ ~ In ScrollDown evs
  /\ ~ In SwipeLeft evs /\ ~ In SwipeRight evs.
Proof.
  apply (proj1 (scroll_classification 1920 1080 backend_ok
                  (after_frames [frame_at 1 (index_hand (200, 300))])
                  (index_hand (200, 200)) (at_time 1.1) 0 (-100)
                  eq_refl eq_refl eq_refl eq_refl (fun e _ => eq_refl))).
  lia.
Defined.

Lemma swipe_right_classification_witness :
  let s := after_frames [frame_at 1 (palm_hand (150, 200))] in
  let evs := events (process_frame 1920 1080 backend_ok
                       (frame_at 1.1 (palm_hand (300, 210))) s) in
  In SwipeRight evs /\ ~ In SwipeLeft evs
  /\ ~ In ScrollUp evs /\ ~ In ScrollDown evs.
Proof.
  apply (proj1 (swipe_right_classification 1920 1080 backend_ok
                  (after_frames [frame_at 1 (palm_hand (150, 200))])
                  (palm_hand (300, 210)) (at_time 1.1) 150 10
                  eq_refl eq_refl eq_refl eq_refl (fun e _ => eq_refl))).
  - lia.
  - simpl. lia.
Defined.

(** ** The pause flag and the toggle event *)

Section PauseFlag.
Variables wScr hScr : Q.
Variable bk : Event -> bool.

Lemma gestures_keeps_flag (h : Hand) (c : Clock) :
  keeps paused (gestures wScr hScr bk h c).
Proof.
  unfold gestures. repeat apply keeps_andThen.
  - now apply cursor_move_keeps.
  - now apply left_click_keeps.
  - now apply right_click_keeps.
  - now apply dynamic_gestures_keeps.
Qed.

Lemma gestures_no_toggle (h : Hand) (c : Clock) (w : World) :
  In PauseToggle (events (gestures wScr hScr bk h c w))
  <-> In PauseToggle (snd w).
Proof.
  destruct (gestures_emits wScr hScr bk h c w) as (es & -> & Hes).
  rewrite in_app_iff. split; [|now left].
  intros [H | H]; [exact H|]. exfalso.
  rewrite Forall_forall in Hes.
  destruct (Hes _ H) as [(x & y & Hx) | [Hx | [Hx | Hx]]]; discriminate.
Qed.

(** What a frame with a hand does to the pause state is what its pause
    block does. *)
Lemma frame_pause_view (h : Hand) (c : Clock) (s : State) :
  let r := process_frame wScr hScr bk (mkFrame (Some h) c) s in
  (In PauseToggle (events r) <-> In PauseToggle (snd (pause_toggle h c s)))
  /\ paused (state_of r) = paused (fst (pause_toggle h c s))
  /\ rest_since (state_of r) = rest_since (fst (pause_toggle h c s)).
Proof.
  cbn zeta. unfold process_frame. cbn [hand clock].
  destruct (paused (fst (pause_toggle h c s))) eqn:Hp.
  - cbn. repeat split; auto.
  - rewrite gestures_no_toggle, gestures_keeps_flag,
      gestures_keeps_rest_since. repeat split; auto.
Qed.

(** The toggle, the flag and the hold, frame by frame. *)
Lemma toggle_flag_hold (f : Frame) (s : State) :
  let r := process_frame wScr hScr bk f s in
  (In PauseToggle (events r) <-> paused (state_of r) = negb (paused s))
  /\ (In PauseToggle (events r)
      <-> exists h since,
            hand f = Some h /\ is_fist (fingers h) = true
            /\ rest_since s = Some since
            /\ (rest_toggle_hold_sec <= t_rest (clock f) - since)%Q)
  /\ (In PauseToggle (events r) -> rest_since (state_of r) = None).
Proof.
  cbn zeta. destruct f as [[h |] c]; cbn [hand clock].
  - destruct (frame_pause_view h c s) as (-> & -> & ->).
    unfold pause_toggle.
    destruct (is_fist (fingers h)) eqn:Hf.
    + destruct (rest_since s) as [since |] eqn:Hr.
      * destruct (held (t_rest c) since) eqn:Hh.
        -- apply held_true in Hh. cbn. repeat split; auto.
           intros _. exists h, since. auto.
        -- apply held_false in Hh. cbn. repeat split;
             try tauto; try (now destruct (paused s)).
           intros (h' & since' & [= <-] & _ & [= <-] & Hle).
           exfalso. Lqa.lra.
      * cbn. repeat split; try tauto; try (now destruct (paused s)).
        intros (h' & since' & _ & _ & Habs & _). discriminate.
    + cbn. repeat split; try tauto; try (now destruct (paused s)).
      intros (h' & since' & [= <-] & Habs & _). congruence.
  - cbn. repeat split; try tauto; try (now destruct (paused s)).
    intros (h' & since' & Habs & _). discriminate.
Qed.

(** X12.  The pause flag flips on a frame exactly when that frame issues
    the toggle, and that happens exactly when the frame shows a fist,
    [rest_since] is set, and the reading of the clock is at least 0.35 s
    past it; the toggle leaves [rest_since] cleared. *)
Theorem pause_flips_with_toggle (f : Frame) (s : State) :
  let r := process_frame wScr hScr bk f s in
  (In PauseToggle (events r) <-> paused (state_of r) = negb (paused s))
  /\ (In PauseToggle (events r)
      <-> exists h since,
            hand f = Some h /\ is_fist (fingers h) = true
            /\ rest_since s = Some since
            /\ (rest_toggle_hold_sec <= t_rest (clock f) - since)%Q)
  /\ (In PauseToggle (events r) -> rest_since (state_of r) = None).
Proof. apply toggle_flag_hold. Qed.

(** Within less than 0.35 s no hold can complete. *)
Lemma hold_window_frame (t0 : Q) (f : Frame) (s : State) :
  (rest_since s = None \/ exists since, rest_since s = Some since
                                         /\ (t0 <= since)%Q) ->
  hold_window t0 f ->
  let r := process_frame wScr hScr bk f s in
  ~ In PauseToggle (events r)
  /\ paused (state_of r) = paused s
  /\ (rest_since (state_of r) = None
      \/ exists since, rest_since (state_of r) = Some since
                       /\ (t0 <= since)%Q).
Proof.
  intros HJ [Hlo Hhi]. cbn zeta.
  assert (Hno : ~ In PauseToggle (events (process_frame wScr hScr bk f s))).
  { intro Hin. apply (proj1 (proj2 (toggle_flag_hold f s))) in Hin.
    destruct Hin as (h & since & _ & _ & Hr & Hle).
    destruct HJ as [HJ | (since' & HJ & Hge)]; [congruence|].
    assert (since' = since) by congruence. subst. Lqa.lra. }
  split; [exact Hno|].
  destruct f as [[h |] c]; cbn [hand clock] in *; [|cbn; auto].
  destruct (frame_pause_view h c s) as (Hev & -> & ->).
  rewrite Hev in Hno. revert Hno. unfold pause_toggle.
  destruct (is_fist (fingers h)).
  - destruct (rest_since s) as [since |] eqn:Hr.
    + destruct (held (t_rest c) since); cbn; [tauto|].
      intros _. split; [reflexivity|]. rewrite Hr. exact HJ.
    + cbn. intros _. split; [reflexivity|]. right. eauto.
  - cbn. auto.
Qed.

Lemma no_toggle_count (es : list Event) :
  ~ In PauseToggle es -> count is_toggle es = 0%nat.
Proof.
  intro H. apply count_none. apply Forall_forall. intros e He.
  destruct e; try reflexivity. contradiction.
Qed.

(** X13.  No run of frames all of whose pause-clock readings lie within one
    window shorter than 0.35 s toggles the pause, whatever the frames show,
    provided no hold older than the window is already under way. *)
Theorem short_window_no_toggle (t0 : Q) (fs : list Frame) (s : State) :
  (rest_since s = None \/ exists since, rest_since s = Some since
                                         /\ (t0 <= since)%Q) ->
  Forall (hold_window t0) fs ->
  let r := main_loop wScr hScr bk fs s in
  count is_toggle (events r) = 0%nat /\ paused (state_of r) = paused s.
Proof.
  cbn zeta. revert s. induction fs as [| f fs IH]; intros s HJ HW.
  - now split.
  - inversion HW as [| ? ? Hf Hfs]; subst. cbn [main_loop].
    destruct (hold_window_frame t0 f s HJ Hf) as (Hno & Hp & HJ').
    apply no_toggle_count in Hno.
    destruct (process_frame wScr hScr bk f s) as [[s1 evs] | w];
      [|now split].
    unfold state_of, events in Hno, Hp, HJ'. cbn [world fst snd] in *.
    destruct (IH s1 HJ' Hfs) as [Ic Ip].
    rewrite events_prepend, count_app, state_of_prepend_eq.
    split; [lia | congruence].
Qed.

(** X14.  PAUSED is left only through a fist: from a paused state a run of
    frames without a fist (other poses, or no hand at all) issues nothing,
    cannot fail, and changes nothing in the state except that it clears
    [rest_since]. *)
Theorem paused_until_fist (fs : list Frame) (s : State) :
  paused s = true -> Forall open_frame fs ->
  exists s', main_loop wScr hScr bk fs s = Ok (s', [])
             /\ (s' = s \/ s' = set_rest_since None s).
Proof.
  revert s. induction fs as [| f fs IH]; intros s Hp HO.
  - exists s. auto.
  - inversion HO as [| ? ? Hf Hfs]; subst. cbn [main_loop].
    unfold open_frame, fist_frame in Hf. unfold process_frame.
    destruct (hand f) as [h |].
    + rewrite pause_toggle_not_fist by assumption.
      cbn [fst paused set_rest_since]. rewrite Hp.
      destruct (IH (set_rest_since None s) Hp Hfs) as (s' & -> & Hs').
      exists s'. split; [reflexivity|]. right.
      destruct Hs' as [-> | ->]; reflexivity.
    + destruct (IH s Hp Hfs) as (s' & -> & Hs').
      exists s'. split; [reflexivity | exact Hs'].
Qed.

End PauseFlag.

Lemma pause_flips_with_toggle_witness :
  rest_since
    (state_of (process_frame 1920 1080 backend_ok (frame_at 0.4 fist_hand)
                             (after_frames [frame_at 0 fist_hand])))
  = None.
Proof.
  apply (proj2 (proj2 (pause_flips_with_toggle 1920 1080 backend_ok
                         (frame_at 0.4 fist_hand)
                         (after_frames [frame_at 0 fist_hand])))).
  vm_compute. left. reflexivity.
Defined.

Lemma short_window_no_toggle_witness :
  let r := main_loop 1920 1080 backend_ok
             [frame_at 0 fist_hand; frame_at 0.1 fist_hand;
              frame_at 0.3 fist_hand] initial in
  count is_toggle (events r) = 0%nat /\ paused (state_of r) = paused initial.
Proof.
  apply (short_window_no_toggle 1920 1080 backend_ok 0
           [frame_at 0 fist_hand; frame_at 0.1 fist_hand;
            frame_at 0.3 fist_hand] initial).
  - left. reflexivity.
  - repeat constructor; vm_compute; discriminate.
Defined.

Lemma paused_until_fist_witness :
  let s := after_frames [frame_at 0 fist_hand; frame_at 0.4 fist_hand] in
  exists s',
    main_loop 1920 1080 backend_ok [frame_at 0.5 click_hand; no_hand 0.6] s
    = Ok (s', [])
    /\ (s' = s \/ s' = set_rest_since None s).
Proof.
  apply (paused_until_fist 1920 1080 backend_ok
           [frame_at 0.5 click_hand; no_hand 0.6]
           (after_frames [frame_at 0 fist_hand; frame_at 0.4 fist_hand])).
  - reflexivity.
  - repeat constructor.
Defined.

(** ** What the trail holds *)

Section TrailContents.
Variables wScr hScr : Q.
Variable bk : Event -> bool.

Lemma serves_clicks : serves bk -> forall e, is_click e = true -> bk e = true.
Proof. intros Hs e He. apply Hs. now destruct e. Qed.

(** With a backend that serves, an active frame without a fist ends
    normally, stays active and appends its sample, if it shows a hand. *)
Lemma open_frame_trail (f : Frame) (s : State) :
  serves bk -> paused s = false -> open_frame f ->
  exists s' evs,
    process_frame wScr hScr bk f s = Ok (s', evs)
    /\ paused s' = false
    /\ trail s' = match hand f with
                  | Some h => Trail.append (sample_of h (clock f)) (trail s)
                  | None => trail s
                  end.
Proof.
  intros Hs Hact Ho. unfold open_frame, fist_frame in Ho.
  unfold process_frame. destruct (hand f) as [h |]; [|eauto].
  rewrite pause_toggle_not_fist by assumption.
  cbn [fst paused set_rest_since]. rewrite Hact. unfold gestures.
  destruct (before_dynamic_ok wScr hScr bk h (clock f)
              (set_rest_since None s, []) (serves_clicks Hs))
    as (s3 & es & Heq & _ & _ & Ht).
  pose proof (keeps_andThen paused
                (fun w => cursor_move wScr hScr bk h w
                          >>= left_click bk h (clock f))
                (right_click bk h (clock f))
                (keeps_andThen paused (cursor_move wScr hScr bk h)
                   (left_click bk h (clock f))
                   ltac:(now apply cursor_move_keeps)
                   ltac:(now apply left_click_keeps))
                ltac:(now apply right_click_keeps)
                (set_rest_since None s, [])) as Hp.
  cbn beta in Hp. rewrite Heq in Hp |- *. cbn [andThen].
  pose proof (dynamic_gestures_serves bk h (clock f) (s3, snd
                (set_rest_since None s, @nil Event) ++ es) Hs) as Hr.
  pose proof (dynamic_gestures_trail bk h (clock f) (s3, snd
                (set_rest_since None s, @nil Event) ++ es)) as Htr.
  pose proof (dynamic_gestures_keeps bk paused
                ltac:(reflexivity) ltac:(reflexivity) h (clock f)
                (s3, snd (set_rest_since None s, @nil Event) ++ es)) as Hpd.
  destruct (dynamic_gestures bk h (clock f) _) as [[s' evs] | w];
    [|discriminate].
  exists s', evs. split; [reflexivity|].
  unfold state_of in *. cbn [world fst snd trail paused set_rest_since] in *.
  split; congruence.
Qed.

Lemma open_run_trail (fs : list Frame) (s : State) :
  serves bk -> paused s = false -> Forall open_frame fs ->
  let r := main_loop wScr hScr bk fs s in
  raised r = false
  /\ trail (state_of r)
     = fold_left (fun tr x => Trail.append x tr) (samples_of fs) (trail s).
Proof.
  intros Hs. cbn zeta. revert s.
  induction fs as [| f fs IH]; intros s Hact HO; [now split|].
  inversion HO as [| ? ? Hf Hfs]; subst. cbn [main_loop samples_of].
  destruct (open_frame_trail f s Hs Hact Hf) as (s1 & evs & -> & Hp & Ht).
  destruct (IH s1 Hp Hfs) as [Ir It].
  rewrite raised_prepend_eq, state_of_prepend_eq, It, Ht.
  split; [exact Ir|]. now destruct (hand f).
Qed.

(** X15.  From the start, over a run of frames without a fist and with a
    backend whose calls return, the loop never fails and the trail holds
    exactly the index-tip samples of the last five frames that showed a
    hand, oldest first. *)
Theorem trail_holds_last_samples (fs : list Frame) :
  serves bk -> Forall open_frame fs ->
  let r := main_loop wScr hScr bk fs initial in
  raised r = false
  /\ trail (state_of r)
     = skipn (length (samples_of fs) - 5) (samples_of fs).
Proof.
  intros Hs HO. cbn zeta.
  destruct (open_run_trail fs initial Hs eq_refl HO) as [Hr Ht].
  split; [exact Hr|]. rewrite Ht. apply pushes_last_five.
Qed.

End TrailContents.

Lemma trail_holds_last_samples_witness :
  let fs := [frame_at 1 click_hand; no_hand 1.1;
             frame_at 1.2 (index_hand (150, 150))] in
  let r := main_loop 1920 1080 backend_ok fs initial in
  raised r = false
  /\ trail (state_of r)
     = skipn (length (samples_of fs) - 5) (samples_of fs).
Proof.
  apply (trail_holds_last_samples 1920 1080 backend_ok
           [frame_at 1 click_hand; no_hand 1.1;
            frame_at 1.2 (index_hand (150, 150))]).
  - intros e _. reflexivity.
  - repeat constructor.
Defined.

(** ** The cursor mirrors the hand *)

Section Mirror.
Variables wScr hScr : Q.
Variable bk : Event -> bool.

(** The only move that a frame can issue is the one of its move block. *)
Lemma move_event_inv (s : State) (h : Hand) (c : Clock) (x y : Q) :
  In (Move x y) (events (process_frame wScr hScr bk (mkFrame (Some h) c) s)) ->
  x = Pointer.clamp
        (wScr - Pointer.smooth (plocX s) (target_x wScr h)) wScr
  /\ y = Pointer.clamp (Pointer.smooth (plocY s) (target_y hScr h)) hScr.
Proof.
  unfold process_frame. cbn [hand clock].
  destruct (pause_toggle_one h c s) as [_ Htog].
  destruct (pause_toggle_pointer h c s) as (Hx & Hy & _ & _).
  assert (Hno : forall es, Forall (fun e => e = PauseToggle) es ->
                           ~ In (Move x y) es).
  { intros es Hes Hin. rewrite Forall_forall in Hes.
    specialize (Hes _ Hin). discriminate. }
  destruct (paused (fst (pause_toggle h c s))).
  { intro Hin. exfalso. exact (Hno _ Htog Hin). }
  unfold gestures.
  destruct (andThen_one _
              (cursor_move wScr hScr bk h (pause_toggle h c s)
               >>= left_click bk h c >>= right_click bk h c)
              _ (dynamic_gestures_one bk h c)) as (d & -> & _ & Hd).
  destruct (andThen_one _
              (cursor_move wScr hScr bk h (pause_toggle h c s)
               >>= left_click bk h c)
              _ (right_click_one bk h c)) as (r & -> & _ & Hr).
  destruct (andThen_one _
              (cursor_move wScr hScr bk h (pause_toggle h c s))
              _ (left_click_one bk h c)) as (l & -> & _ & Hl).
  rewrite cursor_move_run. rewrite !in_app_iff.
  rewrite Forall_forall in Hd, Hr, Hl.
  intros [[[Hin | Hin] | Hin] | Hin].
  - destruct (index_only (fingers h)); cbn [events world snd] in Hin.
    + rewrite in_app_iff in Hin. destruct Hin as [Hin | [Hin | []]].
      * exfalso. exact (Hno _ Htog Hin).
      * injection Hin as <- <-. now rewrite Hx, Hy.
    + exfalso. exact (Hno _ Htog Hin).
  - destruct (Hl _ Hin); discriminate.
  - specialize (Hr _ Hin). discriminate.
  - destruct (Hd _ Hin); discriminate.
Qed.

(** X16.  The cursor mirrors the hand horizontally and follows it
    vertically: of two frames processed from the same state, the one whose
    index tip is further right never sends the mouse further right, and
    the one whose index tip is further down never sends it further up. *)
Theorem cursor_is_mirrored (s : State) (h h' : Hand) (c c' : Clock)
        (x y x' y' : Q) :
  (0 <= wScr)%Q -> (0 <= hScr)%Q ->
  In (Move x y)
     (events (process_frame wScr hScr bk (mkFrame (Some h) c) s)) ->
  In (Move x' y')
     (events (process_frame wScr hScr bk (mkFrame (Some h') c') s)) ->
  (fst (lm8 h) <= fst (lm8 h') -> (x' <= x)%Q)
  /\ (snd (lm8 h) <= snd (lm8 h') -> (y <= y')%Q).
Proof.
  intros Hw Hh Hin Hin'.
  destruct (move_event_inv s h c x y Hin) as [-> ->].
  destruct (move_event_inv s h' c' x' y' Hin') as [-> ->].
  split; intro Hle.
  - apply clamp_monotone.
    assert (Ht : (target_x wScr h <= target_x wScr h')%Q).
    { unfold target_x. apply interp_monotone;
        [reflexivity | exact Hw | now rewrite <- Zle_Qle]. }
    pose proof (smooth_monotone (plocX s) _ _ Ht). Lqa.lra.
  - apply clamp_monotone. apply smooth_monotone.
    unfold target_y. apply interp_monotone;
      [reflexivity | exact Hh | now rewrite <- Zle_Qle].
Qed.

End Mirror.

Lemma cursor_is_mirrored_witness :
  ((1420800 # 840) <= (1516800 # 840))%Q /\ ((54000 # 480) <= (108000 # 480))%Q.
Proof.
  destruct (cursor_is_mirrored 1920 1080 backend_ok initial
              (index_hand (150, 150)) (index_hand (200, 200))
              (at_time 1) (at_time 1)
              (1516800 # 840) (54000 # 480) (1420800 # 840) (108000 # 480))
    as [Hx Hy].
  - Lqa.lra.
  - Lqa.lra.
  - vm_compute. left. reflexivity.
  - vm_compute. left. reflexivity.
  - split; [apply Hx | apply Hy]; simpl; lia.
Defined.

(** ** The clamp of [safe_move_mouse] *)

(** X17.  [safe_move_mouse] projects a coordinate onto [[0, bound - 1]]:
    inside that range the coordinate is passed on with its value unchanged,
    below it 0 is passed, above it [bound - 1]; clamping twice is clamping
    once.  With a bound below 1 every coordinate is sent as 0. *)
Theorem clamp_projection (x b : Q) :
  ((1 <= b)%Q ->
   ((0 <= x)%Q -> (x <= b - 1)%Q -> (Pointer.clamp x b == x)%Q)
   /\ ((x <= 0)%Q -> (Pointer.clamp x b == 0)%Q)
   /\ ((b - 1 <= x)%Q -> (Pointer.clamp x b == b - 1)%Q)
   /\ (Pointer.clamp (Pointer.clamp x b) b == Pointer.clamp x b)%Q)
  /\ ((b < 1)%Q -> Pointer.clamp x b = 0%Q).
Proof.
  assert (Hval : forall y,
             (1 <= b)%Q ->
             ((0 <= y)%Q -> (y <= b - 1)%Q -> (Pointer.clamp y b == y)%Q)
             /\ ((y <= 0)%Q -> (Pointer.clamp y b == 0)%Q)
             /\ ((b - 1 <= y)%Q -> (Pointer.clamp y b == b - 1)%Q)).
  { intros y Hb. unfold Pointer.clamp, Pointer.max, Pointer.min.
    destruct (Qltb y (b - 1)) eqn:H1;
      [apply Qltb_true in H1 | apply Qltb_false in H1];
      match goal with
      | |- context [Qltb 0 ?m] =>
          destruct (Qltb 0 m) eqn:H2;
          [apply Qltb_true in H2 | apply Qltb_false in H2]
      end; repeat split; intros; Lqa.lra. }
  split.
  - intro Hb. destruct (Hval x Hb) as (H1 & H2 & H3).
    split; [exact H1|]. split; [exact H2|]. split; [exact H3|].
    destruct (clamp_bounds x b Hb) as [Hlo Hhi].
    now apply (proj1 (Hval (Pointer.clamp x b) Hb)).
  - intro Hb. unfold Pointer.clamp, Pointer.max, Pointer.min.
    destruct (Qltb x (b - 1)) eqn:H1;
      [apply Qltb_true in H1 | apply Qltb_false in H1];
      match goal with
      | |- context [Qltb 0 ?m] =>
          destruct (Qltb 0 m) eqn:H2;
          [apply Qltb_true in H2 | apply Qltb_false in H2]
      end; try reflexivity; exfalso; Lqa.lra.
Qed.

Lemma clamp_projection_witness :
  (Pointer.clamp 2500 1920 == 1920 - 1)%Q /\ Pointer.clamp 7 (1 # 2) = 0%Q.
Proof.
  split.
  - apply (proj1 (proj2 (proj2 (proj1 (clamp_projection 2500 1920)
                                  ltac:(Lqa.lra))))).
    Lqa.lra.
  - apply (proj2 (clamp_projection 7 (1 # 2))). reflexivity.
Defined.
